(** * OpenScribe: the Ollama runtime supervisor ([ollama_manager.py])

    A shallow embedding of the binary locator, the health checker, the crash
    classifier, the diagnostics store and the process supervisor of
    [local-only/openscribe-backend/src/ollama_manager.py], and the properties
    of them that the specification states.

    Conventions of the embedding.
    - A [pathlib.Path] is represented by its string form [str(p)]; the strings
      handled here are in pathlib's normal form already, so that [str(p)] is
      the identity and [Path(s)] only maps the empty string to ["."].
    - Wall-clock time is counted in whole milliseconds ([Z]); [time.sleep(d)]
      lasts at least [d], and no event takes a negative time.
    - A Python [str] is a [string]; [str.lower] is the ASCII lowering.
    - Dictionaries ([Dict[str, Any]]) are association lists in insertion
      order over a small universe of JSON-like values.
    - The effects of the module (HTTP requests, subprocesses, the lock, the
      module globals, the report file, the clock) are the events of a free
      monad [Prog].  A handler interprets them over an explicit [State], in
      which a [World] fixes what the surroundings answer to each event; all
      statements quantify over the world, so they hold whatever the
      surroundings answer.
    - What the module reads from the file system and the process environment
      is a [Host]; its queries ([exists], [os.access], ...) always answer.
    - A block of statements ends in a [Completion]: it falls through,
      returns, or raises an [Exception]; exceptions that are not instances
      of [Exception] (interrupts) are not modelled.
    - The two time-bounded [while] loops take an iteration budget ([fuel]);
      a loop that outruns it ends in [Spin], and the statements below show
      that a budget covering the timeout is never outrun.
    - Threads of one process interleave at the granularity of events. *)

From Stdlib Require Import String Ascii List ZArith NArith Bool Arith Lia.
From Stdlib Require Import DecimalString Permutation.
Import ListNotations.

Set Warnings "-register-all".

Local Open Scope string_scope.
Local Open Scope list_scope.
Local Open Scope Z_scope.

(* ===================================================================== *)
(** * Part I: the program                                                   *)
(* ===================================================================== *)

(** ** Strings *)

(** [s.startswith(p)] *)
Fixpoint startswith (s p : string) {struct p} : bool :=
  match p, s with
  | EmptyString, _ => true
  | String _ _, EmptyString => false
  | String b p', String a s' => Ascii.eqb a b && startswith s' p'
  end.

(** [needle in hay] on strings *)
Fixpoint contains (hay needle : string) : bool :=
  startswith hay needle ||
  match hay with
  | EmptyString => false
  | String _ hay' => contains hay' needle
  end.

Definition lower_ascii (c : ascii) : ascii :=
  let n := nat_of_ascii c in
  if (Nat.leb 65 n && Nat.leb n 90)%bool then ascii_of_nat (n + 32) else c.

(** [s.lower()] *)
Fixpoint lower (s : string) : string :=
  match s with
  | EmptyString => EmptyString
  | String c s' => String (lower_ascii c) (lower s')
  end.

Definition is_space (c : ascii) : bool :=
  let n := nat_of_ascii c in
  (Nat.leb 9 n && Nat.leb n 13 || Nat.eqb n 32 || Nat.leb 28 n && Nat.leb n 31)%bool.

Fixpoint lstrip (s : string) : string :=
  match s with
  | EmptyString => EmptyString
  | String c s' => if is_space c then lstrip s' else s
  end.

Fixpoint rev_string (acc s : string) : string :=
  match s with
  | EmptyString => acc
  | String c s' => rev_string (String c acc) s'
  end.

(** [s.strip()] *)
Definition strip (s : string) : string :=
  rev_string "" (lstrip (rev_string "" (lstrip s))).

(** A substring, as a proposition: [needle] occurs somewhere in [hay]. *)
Definition occurs_in (needle hay : string) : Prop :=
  exists pre post : string, hay = (pre ++ needle ++ post)%string.

(** ** CrashClassifier *)

Definition crash_markers : list string :=
  [ "nsrangeexception";
    "libmlx";
    "mlx_random_key";
    "metalallocator";
    "index 0 beyond bounds for empty array" ].

(** [stderr or ""], for a [stderr] that may be [None] *)
Definition or_empty (stderr : option string) : string :=
  match stderr with
  | Some s => s
  | None => ""
  end.

Definition _is_mlx_crash (stderr : option string) : bool :=
  let text := lower (or_empty stderr) in
  existsb (fun marker => contains text marker) crash_markers.

(** [text[-max_chars:]] when the text is longer than [max_chars] *)
Definition _tail (text : string) (max_chars : nat) : string :=
  if Nat.leb (String.length text) max_chars then text
  else match max_chars with
       | O => text
       | _ => substring (String.length text - max_chars) max_chars text
       end.

(** ** Values and dictionaries *)

Inductive Value : Type :=
| VNone
| VBool (b : bool)
| VInt (z : Z)
| VSeconds (millis : Z)          (* a float of seconds, rounded to 3 places *)
| VStr (s : string)
| VList (l : list Value)
| VDict (d : list (string * Value)).

Definition Dict := list (string * Value).

(** [d.get(key)] *)
Fixpoint dict_get {V : Type} (d : list (string * V)) (key : string) : option V :=
  match d with
  | [] => None
  | (k, v) :: d' => if String.eqb k key then Some v else dict_get d' key
  end.

(** [d[key] = v] *)
Fixpoint dict_set {V : Type} (d : list (string * V)) (key : string) (v : V)
  : list (string * V) :=
  match d with
  | [] => [(key, v)]
  | (k, w) :: d' =>
      if String.eqb k key then (k, v) :: d' else (k, w) :: dict_set d' key v
  end.

(** Python truthiness of the values that the module tests *)
Definition truthy (v : option Value) : bool :=
  match v with
  | Some (VBool b) => b
  | Some (VInt z) => negb (z =? 0)
  | Some (VSeconds z) => negb (z =? 0)
  | Some (VStr s) => negb (String.eqb s "")
  | Some (VList l) => match l with [] => false | _ => true end
  | Some (VDict d) => match d with [] => false | _ => true end
  | Some VNone | None => false
  end.


(** ** Paths and the host *)

Definition Path := string.

(** [Path(s)]; [Path("")] is [Path(".")]. *)
Definition Path_of_string (s : string) : Path :=
  if String.eqb s "" then "." else s.

(** [str(p)] *)
Definition str (p : Path) : string := p.

(** [p / name], for a plain file name *)
Definition joinpath (p : Path) (name : string) : Path :=
  if String.eqb p "/" then ("/" ++ name)%string
  else if String.eqb p "." then name
  else (p ++ "/" ++ name)%string.

(** The outcome of [subprocess.run(["which", "ollama"], ...)]. *)
Inductive WhichOutcome : Type :=
| WhichDone (returncode : Z) (stdout : string)
| WhichRaised.

(** The exceptions that the module raises or lets through. *)
Inductive Exc : Type :=
| TimeoutError (msg : string)
| OSError (msg : string)
| RuntimeError (msg : string).

(** [str(exc)] *)
Definition str_exc (exc : Exc) : string :=
  match exc with
  | TimeoutError msg => msg
  | OSError msg => msg
  | RuntimeError msg => msg
  end.

(** What the module reads from its host: the process environment, the
    interpreter's packaging attributes and the file system. *)
Record Host : Type := {
  environ : list (string * string);     (* os.environ *)
  sys_frozen : bool;                    (* getattr(sys, "frozen", False) *)
  sys_MEIPASS : Path;                   (* Path(sys._MEIPASS) *)
  executable_dir : Path;                (* Path(sys.executable).parent *)
  package_dir : Path;                   (* Path(__file__).parent.parent *)
  path_exists : Path -> bool;           (* p.exists(), when it answers *)
  exists_error : Path -> option string; (* the OSError of p.exists(), when it raises *)
  access_X_OK : Path -> bool;           (* os.access(p, os.X_OK) *)
  path_resolve : Path -> option Path;   (* p.resolve(); None when it raises *)
  which_ollama : WhichOutcome;
  report_path_error : option Exc        (* what _startup_report_path() raises, or
                                           exists() on that path, when one does:
                                           Path.home() a RuntimeError, Path.cwd()
                                           and exists() an OSError *)
}.

(** [os.getenv(name)] *)
Definition getenv (h : Host) (name : string) : option string :=
  dict_get (environ h) name.

(** Truthiness of an optional string: neither [None] nor empty. *)
Definition nonempty (o : option string) : bool :=
  match o with
  | Some s => negb (String.eqb s "")
  | None => false
  end.

(** The persisted report file: [None] when it is absent or unreadable,
    otherwise the JSON payload. *)
Definition Disk := option Value.

Definition _load_startup_report_from_disk (disk : Disk) : Dict :=
  match disk with
  | Some (VDict payload) => payload
  | _ => []
  end.

(** ** BinaryLocator *)

Definition get_bundled_ollama_dir (h : Host) : option Path :=
  let dev_ollama_dir := joinpath (package_dir h) "bin" in
  let dev :=
    if path_exists h dev_ollama_dir
       && path_exists h (joinpath dev_ollama_dir "ollama")
    then Some dev_ollama_dir else None in
  if sys_frozen h then
    if path_exists h (joinpath (sys_MEIPASS h) "ollama")
    then Some (joinpath (sys_MEIPASS h) "ollama")
    else if path_exists h (joinpath (executable_dir h) "ollama")
    then Some (joinpath (executable_dir h) "ollama")
    else dev
  else dev.

(** The candidates in discovery order, before deduplication. *)
Definition discovered (h : Host) : list Path :=
  let override_binary := getenv h "OPENSCRIBE_OLLAMA_BINARY" in
  (if nonempty override_binary
   then [Path_of_string (or_empty override_binary)] else [])
  ++ match get_bundled_ollama_dir h with
     | Some bundled_dir =>
         [joinpath bundled_dir "ollama"; joinpath bundled_dir "ollama-fallback"]
     | None => []
     end
  ++ match which_ollama h with
     | WhichDone returncode stdout =>
         if returncode =? 0 then [Path_of_string (strip stdout)] else []
     | WhichRaised => []
     end
  ++ [ "/opt/homebrew/bin/ollama"; "/usr/local/bin/ollama"; "/usr/bin/ollama" ].

(** The deduplication loop.  A [Path] is always truthy, so the
    [if not candidate: continue] guard never fires. *)
Fixpoint dedupe (h : Host) (candidates : list Path) (seen : list string)
    (deduped : list Path) : list Path :=
  match candidates with
  | [] => deduped
  | candidate :: rest =>
      let as_str := str candidate in
      if existsb (String.eqb as_str) seen then dedupe h rest seen deduped
      else if path_exists h candidate && access_X_OK h candidate
           then dedupe h rest (as_str :: seen) (deduped ++ [candidate])
           else dedupe h rest (as_str :: seen) deduped
  end.

Definition prefer_system (h : Host) : bool :=
  match getenv h "OPENSCRIBE_PREFER_SYSTEM_OLLAMA" with
  | None => true
  | Some prefer_system_env =>
      existsb (String.eqb (lower prefer_system_env)) ["1"; "true"; "yes"; "on"]
  end.

Definition is_system_path (bundled_dir : option Path) (p : Path) : bool :=
  match bundled_dir with
  | Some d => negb (startswith (str p) (str d))
  | None => true
  end.

(** System candidates first, when that is preferred. *)
Definition system_first (h : Host) (deduped : list Path) : list Path :=
  if prefer_system h && match deduped with [] => false | _ => true end then
    let bundled_dir := get_bundled_ollama_dir h in
    filter (is_system_path bundled_dir) deduped
    ++ filter (fun p => negb (is_system_path bundled_dir p)) deduped
  else deduped.

(** The string of the binary to prefer: the cache when it still exists,
    else the one of the persisted report. *)
Definition preferred (h : Host) (selected : option Path) (disk : Disk)
  : option string :=
  let from_report :=
    match dict_get (_load_startup_report_from_disk disk) "selected_binary" with
    | Some (VStr selected_from_report) =>
        if String.eqb selected_from_report "" then None
        else Some selected_from_report
    | _ => None
    end in
  match selected with
  | Some p => if path_exists h p then Some (str p) else from_report
  | None => from_report
  end.

(** [l.remove(x)], for an [x] that is in [l] *)
Fixpoint list_remove (x : Path) (l : list Path) : list Path :=
  match l with
  | [] => []
  | y :: l' => if String.eqb y x then l' else y :: list_remove x l'
  end.

Definition move_to_front (pref : option string) (deduped : list Path)
  : list Path :=
  if nonempty pref then
    let preferred_path := Path_of_string (or_empty pref) in
    if existsb (String.eqb preferred_path) deduped
    then preferred_path :: list_remove preferred_path deduped
    else deduped
  else deduped.

Definition get_ollama_binary_candidates (h : Host) (selected : option Path)
    (disk : Disk) : list Path :=
  let override_binary := getenv h "OPENSCRIBE_OLLAMA_BINARY" in
  let deduped := dedupe h (discovered h) [] [] in
  if nonempty override_binary then deduped
  else move_to_front (preferred h selected disk) (system_first h deduped).

(** The canonical path of an entry; a path that cannot be resolved stands
    for itself. *)
Definition canonical (h : Host) (p : Path) : Path :=
  match path_resolve h p with
  | Some q => q
  | None => p
  end.

(** [get_ollama_env(binary)] *)
Definition get_ollama_env (h : Host) (binary : option Path)
  : list (string * string) :=
  let env := environ h in
  let bundled_dir := get_bundled_ollama_dir h in
  let use_bundled_libs :=
    match bundled_dir, binary with
    | Some d, Some b =>
        match path_resolve h b, path_resolve h d with
        | Some rb, Some rd => startswith (str rb) (str rd)
        | _, _ => startswith (str b) (str d)
        end
    | _, _ => false
    end in
  let env :=
    match bundled_dir with
    | Some d =>
        if use_bundled_libs then
          let ollama_dir_str := str d in
          let existing := match dict_get env "DYLD_LIBRARY_PATH" with
                          | Some e => e | None => "" end in
          let env :=
            if String.eqb existing "" then dict_set env "DYLD_LIBRARY_PATH" ollama_dir_str
            else dict_set env "DYLD_LIBRARY_PATH"
                   (ollama_dir_str ++ ":" ++ existing)%string in
          dict_set env "MLX_METAL_PATH" (str (joinpath d "mlx.metallib"))
        else env
    | None => env
    end in
  match dict_get env "OLLAMA_HOST" with
  | Some _ => env
  | None => dict_set env "OLLAMA_HOST" "127.0.0.1:11434"
  end.


(** ** When the file system fails

    [Path.exists()] takes only some errors for "no such file"; any other
    [OSError] it raises.  The path of the startup report is looked up with
    [Path.home()] and [Path.cwd()], outside any [try].  The functions above
    say what a call answers when every query answers.  Those below follow
    the same statements of the source, in their order, and say when a call
    raises instead. *)

(** A computation that answers or raises. *)
Definition exc_bind {A B : Type} (r : Exc + A) (f : A -> Exc + B) : Exc + B :=
  match r with
  | inl exc => inl exc
  | inr a => f a
  end.

Declare Scope exc_scope.
Delimit Scope exc_scope with exc.
Notation "x <-? r ;; k" := (exc_bind r (fun x => k))
  (at level 61, r at next level, right associativity) : exc_scope.

Module Raising.

Local Open Scope exc_scope.

(** [p.exists()] *)
Definition exists_ (h : Host) (p : Path) : Exc + bool :=
  match exists_error h p with
  | Some msg => inl (OSError msg)
  | None => inr (path_exists h p)
  end.

Definition get_bundled_ollama_dir (h : Host) : Exc + option Path :=
  let dev_ollama_dir := joinpath (package_dir h) "bin" in
  let dev : Exc + option Path :=
    dir_exists <-? exists_ h dev_ollama_dir ;;
    if dir_exists then
      binary_exists <-? exists_ h (joinpath dev_ollama_dir "ollama") ;;
      inr (if binary_exists then Some dev_ollama_dir else None)
    else inr None in
  if sys_frozen h then
    in_bundle <-? exists_ h (joinpath (sys_MEIPASS h) "ollama") ;;
    if in_bundle then inr (Some (joinpath (sys_MEIPASS h) "ollama"))
    else
      by_executable <-? exists_ h (joinpath (executable_dir h) "ollama") ;;
      if by_executable then inr (Some (joinpath (executable_dir h) "ollama"))
      else dev
  else dev.

(** The deduplication loop: [exists()] is asked of every candidate whose
    string was not seen before. *)
Fixpoint dedupe (h : Host) (candidates : list Path) (seen : list string)
    (deduped : list Path) : Exc + list Path :=
  match candidates with
  | [] => inr deduped
  | candidate :: rest =>
      let as_str := str candidate in
      if existsb (String.eqb as_str) seen then dedupe h rest seen deduped
      else
        candidate_exists <-? exists_ h candidate ;;
        if candidate_exists && access_X_OK h candidate
        then dedupe h rest (as_str :: seen) (deduped ++ [candidate])
        else dedupe h rest (as_str :: seen) deduped
  end.

Definition _load_startup_report_from_disk (h : Host) (disk : Disk) : Exc + Dict :=
  match report_path_error h with
  | Some exc => inl exc
  | None => inr (_load_startup_report_from_disk disk)
  end.

Definition preferred (h : Host) (selected : option Path) (disk : Disk)
  : Exc + option string :=
  let from_report : Exc + option string :=
    startup_report <-? _load_startup_report_from_disk h disk ;;
    inr match dict_get startup_report "selected_binary" with
        | Some (VStr selected_from_report) =>
            if String.eqb selected_from_report "" then None
            else Some selected_from_report
        | _ => None
        end in
  match selected with
  | Some p =>
      selected_exists <-? exists_ h p ;;
      if selected_exists then inr (Some (str p)) else from_report
  | None => from_report
  end.

Definition get_ollama_binary_candidates (h : Host) (selected : option Path)
    (disk : Disk) : Exc + list Path :=
  let override_binary := getenv h "OPENSCRIBE_OLLAMA_BINARY" in
  bundled_dir <-? get_bundled_ollama_dir h ;;
  let candidates :=
    (if nonempty override_binary
     then [Path_of_string (or_empty override_binary)] else [])
    ++ match bundled_dir with
       | Some bundled_dir =>
           [joinpath bundled_dir "ollama"; joinpath bundled_dir "ollama-fallback"]
       | None => []
       end
    ++ match which_ollama h with
       | WhichDone returncode stdout =>
           if returncode =? 0 then [Path_of_string (strip stdout)] else []
       | WhichRaised => []
       end
    ++ [ "/opt/homebrew/bin/ollama"; "/usr/local/bin/ollama"; "/usr/bin/ollama" ] in
  deduped <-? dedupe h candidates [] [] ;;
  if nonempty override_binary then inr deduped
  else
    deduped <-?
      (if prefer_system h && match deduped with [] => false | _ => true end then
         bundled_dir <-? get_bundled_ollama_dir h ;;
         inr (filter (is_system_path bundled_dir) deduped
              ++ filter (fun p => negb (is_system_path bundled_dir p)) deduped)
       else inr deduped) ;;
    pref <-? preferred h selected disk ;;
    inr (move_to_front pref deduped).

(** [get_ollama_env(binary)]: the look-up of the bundled directory is
    outside the [try] of the function. *)
Definition get_ollama_env (h : Host) (binary : option Path)
  : Exc + list (string * string) :=
  let env := environ h in
  bundled_dir <-? get_bundled_ollama_dir h ;;
  let use_bundled_libs :=
    match bundled_dir, binary with
    | Some d, Some b =>
        match path_resolve h b, path_resolve h d with
        | Some rb, Some rd => startswith (str rb) (str rd)
        | _, _ => startswith (str b) (str d)
        end
    | _, _ => false
    end in
  let env :=
    match bundled_dir with
    | Some d =>
        if use_bundled_libs then
          let ollama_dir_str := str d in
          let existing := match dict_get env "DYLD_LIBRARY_PATH" with
                          | Some e => e | None => "" end in
          let env :=
            if String.eqb existing "" then dict_set env "DYLD_LIBRARY_PATH" ollama_dir_str
            else dict_set env "DYLD_LIBRARY_PATH"
                   (ollama_dir_str ++ ":" ++ existing)%string in
          dict_set env "MLX_METAL_PATH" (str (joinpath d "mlx.metallib"))
        else env
    | None => env
    end in
  inr match dict_get env "OLLAMA_HOST" with
      | Some _ => env
      | None => dict_set env "OLLAMA_HOST" "127.0.0.1:11434"
      end.

End Raising.

(** ** Effects *)

Definition Tid := nat.

Inductive HttpOutcome : Type :=
| HttpResponse (status : Z)
| HttpRaised.

(** The outcome of [subprocess.run([binary, "--version"], ...)]. *)
Inductive RunOutcome : Type :=
| RunDone (returncode : Z) (stdout stderr : string)
| RunTimeoutExpired
| RunRaised (msg : string).

Inductive PopenOutcome : Type :=
| PopenStarted (pid : Z)
| PopenRaised (msg : string).

Inductive CommOutcome : Type :=
| CommDone (proc_stderr : option string)
| CommRaised.

Inductive PersistOutcome : Type :=
| Persisted
| NotWritten
| Truncated.

Inductive Event : Type :=
| Urlopen (url : string) (timeout_ms : Z)
| TimeTime
| TimeSleep (ms : Z)
| LockAcquire                    (* _startup_lock.acquire(blocking=False) *)
| LockRelease                    (* _startup_lock.release() *)
| ReadHost
| RunVersion (binary : Path) (env : list (string * string)) (timeout_s : Z)
| Popen (binary : Path) (env : list (string * string))
| ProcPoll (pid : Z)
| ProcCommunicate (pid : Z) (timeout_ms : Z)
| ProcTerminate (pid : Z)
| ProcWait (pid : Z) (timeout_ms : Z)
| ProcKill (pid : Z)
| GetSelected
| SetSelected (p : Path)
| GetReport
| SetReport (report : Dict)
| PersistReport (report : Dict)
| LoadDisk.

Definition Resp (e : Event) : Type :=
  match e with
  | Urlopen _ _ => HttpOutcome
  | TimeTime => Z
  | TimeSleep _ => unit
  | LockAcquire => bool
  | LockRelease => unit
  | ReadHost => Host
  | RunVersion _ _ _ => RunOutcome
  | Popen _ _ => PopenOutcome
  | ProcPoll _ => option Z
  | ProcCommunicate _ _ => CommOutcome
  | ProcTerminate _ => bool       (* false: the call raised *)
  | ProcWait _ _ => bool
  | ProcKill _ => bool
  | GetSelected => option Path
  | SetSelected _ => unit
  | GetReport => Dict
  | SetReport _ => unit
  | PersistReport _ => unit
  | LoadDisk => Disk
  end.

(** Programs: trees of events.  [Spin] marks a loop that used up the
    iteration budget it was given; it is not a behaviour of the module. *)
Inductive Prog (A : Type) : Type :=
| Ret (a : A)
| Spin
| Op (e : Event) (k : Resp e -> Prog A).

Arguments Ret {A} a.
Arguments Spin {A}.
Arguments Op {A} e k.

Fixpoint bind {A B : Type} (p : Prog A) (f : A -> Prog B) : Prog B :=
  match p with
  | Ret a => f a
  | Spin => Spin
  | Op e k => Op e (fun x => bind (k x) f)
  end.

Definition call (e : Event) : Prog (Resp e) := Op e Ret.

Declare Scope prog_scope.
Delimit Scope prog_scope with prog.
Notation "x <- p ;; q" := (bind p (fun x => q))
  (at level 61, p at next level, right associativity) : prog_scope.
Notation "' pat <- p ;; q" := (bind p (fun x => match x with pat => q end))
  (at level 61, pat pattern, p at next level, right associativity) : prog_scope.
Notation "p ;;; q" := (bind p (fun _ => q))
  (at level 61, right associativity) : prog_scope.
Local Open Scope prog_scope.

(** ** The state of the process and of its surroundings *)

(** What the surroundings answer to the [n]-th event of a run. *)
Record World : Type := {
  w_urlopen : nat -> string -> HttpOutcome;
  w_run : nat -> Path -> RunOutcome;
  w_popen : nat -> Path -> PopenOutcome;
  w_poll : nat -> Z -> option Z;
  w_communicate : nat -> Z -> CommOutcome;
  w_terminate : nat -> Z -> bool;
  w_wait : nat -> Z -> bool;
  w_kill : nat -> Z -> bool;
  w_persist : nat -> PersistOutcome;
  w_elapsed : nat -> N                  (* milliseconds the event takes *)
}.

(** What a run leaves behind, newest first. *)
Inductive Entry : Type :=
| EvHttp (t : Tid) (url : string) (timeout_ms : Z) (r : HttpOutcome)
| EvAcquire (t : Tid) (acquired : bool)
| EvRelease (t : Tid)
| EvProbe (t : Tid) (binary : Path)
| EvSpawn (t : Tid) (binary : Path) (holder : option Tid) (r : PopenOutcome)
| EvTerminate (t : Tid) (pid : Z)
| EvKill (t : Tid) (pid : Z)
| EvSelect (t : Tid) (p : Path)
| EvReport (t : Tid) (report : Dict).

Record State : Type := {
  host : Host;
  world : World;
  tick : nat;                             (* events so far *)
  clock : Z;                              (* time.time(), in milliseconds *)
  _startup_lock : option Tid;             (* the thread that holds the lock *)
  _selected_ollama_binary : option Path;
  _last_startup_report : Dict;
  disk : Disk;
  log : list Entry
}.

Definition set_lock (l : option Tid) (s : State) : State :=
  {| host := host s; world := world s; tick := tick s; clock := clock s;
     _startup_lock := l;
     _selected_ollama_binary := _selected_ollama_binary s;
     _last_startup_report := _last_startup_report s;
     disk := disk s; log := log s |}.

Definition set_selected (p : option Path) (s : State) : State :=
  {| host := host s; world := world s; tick := tick s; clock := clock s;
     _startup_lock := _startup_lock s;
     _selected_ollama_binary := p;
     _last_startup_report := _last_startup_report s;
     disk := disk s; log := log s |}.

Definition set_report (r : Dict) (s : State) : State :=
  {| host := host s; world := world s; tick := tick s; clock := clock s;
     _startup_lock := _startup_lock s;
     _selected_ollama_binary := _selected_ollama_binary s;
     _last_startup_report := r;
     disk := disk s; log := log s |}.

Definition set_disk (d : Disk) (s : State) : State :=
  {| host := host s; world := world s; tick := tick s; clock := clock s;
     _startup_lock := _startup_lock s;
     _selected_ollama_binary := _selected_ollama_binary s;
     _last_startup_report := _last_startup_report s;
     disk := d; log := log s |}.

Definition add_log (e : Entry) (s : State) : State :=
  {| host := host s; world := world s; tick := tick s; clock := clock s;
     _startup_lock := _startup_lock s;
     _selected_ollama_binary := _selected_ollama_binary s;
     _last_startup_report := _last_startup_report s;
     disk := disk s; log := e :: log s |}.

(** One event has happened: it took [extra] milliseconds and whatever the
    surroundings add to that. *)
Definition advance (extra : Z) (s : State) : State :=
  {| host := host s; world := world s; tick := S (tick s);
     clock := clock s + Z.max 0 extra + Z.of_N (w_elapsed (world s) (tick s));
     _startup_lock := _startup_lock s;
     _selected_ollama_binary := _selected_ollama_binary s;
     _last_startup_report := _last_startup_report s;
     disk := disk s; log := log s |}.

(** What thread [t] doing event [e] in state [s] gets back and leaves. *)
Definition handle (t : Tid) (e : Event) (s : State) : Resp e * State :=
  let n := tick s in
  let w := world s in
  match e as e' return Resp e' * State with
  | Urlopen url timeout_ms =>
      let r := w_urlopen w n url in
      (r, advance 0 (add_log (EvHttp t url timeout_ms r) s))
  | TimeTime => (clock s, advance 0 s)
  | TimeSleep ms => (tt, advance ms s)
  | LockAcquire =>
      match _startup_lock s with
      | None => (true, advance 0 (add_log (EvAcquire t true) (set_lock (Some t) s)))
      | Some _ => (false, advance 0 (add_log (EvAcquire t false) s))
      end
  | LockRelease => (tt, advance 0 (add_log (EvRelease t) (set_lock None s)))
  | ReadHost => (host s, advance 0 s)
  | RunVersion binary _ _ =>
      (w_run w n binary, advance 0 (add_log (EvProbe t binary) s))
  | Popen binary _ =>
      let r := w_popen w n binary in
      (r, advance 0 (add_log (EvSpawn t binary (_startup_lock s) r) s))
  | ProcPoll pid => (w_poll w n pid, advance 0 s)
  | ProcCommunicate pid _ => (w_communicate w n pid, advance 0 s)
  | ProcTerminate pid =>
      (w_terminate w n pid, advance 0 (add_log (EvTerminate t pid) s))
  | ProcWait pid _ => (w_wait w n pid, advance 0 s)
  | ProcKill pid => (w_kill w n pid, advance 0 (add_log (EvKill t pid) s))
  | GetSelected => (_selected_ollama_binary s, advance 0 s)
  | SetSelected p =>
      (tt, advance 0 (add_log (EvSelect t p) (set_selected (Some p) s)))
  | GetReport => (_last_startup_report s, advance 0 s)
  | SetReport report =>
      (tt, advance 0 (add_log (EvReport t report) (set_report report s)))
  | PersistReport report =>
      (tt, advance 0
             (set_disk match w_persist w n with
                       | Persisted => Some (VDict report)
                       | NotWritten => disk s
                       | Truncated => None
                       end s))
  | LoadDisk => (disk s, advance 0 s)
  end.

(** A thread running a program alone, to its end. *)
Fixpoint run {A : Type} (t : Tid) (p : Prog A) (s : State) : option A * State :=
  match p with
  | Ret a => (Some a, s)
  | Spin => (None, s)
  | Op e k => let (x, s') := handle t e s in run t (k x) s'
  end.


(** ** HealthChecker *)

Definition OLLAMA_HEALTH_URL : string := "http://127.0.0.1:11434/api/tags".
Definition OLLAMA_VERSION_URL : string := "http://127.0.0.1:11434/api/version".
Definition OLLAMA_PROBE_TIMEOUT_S : Z := 3.

Definition status_ok (r : HttpOutcome) : bool :=
  match r with
  | HttpResponse status => (200 <=? status) && (status <? 300)
  | HttpRaised => false
  end.

Definition _http_get_ok (url : string) (timeout_ms : Z) : Prog bool :=
  response <- call (Urlopen url timeout_ms) ;;
  Ret (status_ok response).

Definition is_ollama_running : Prog bool :=
  version_ok <- _http_get_ok OLLAMA_VERSION_URL 1500 ;;
  if version_ok then Ret true
  else _http_get_ok OLLAMA_HEALTH_URL 1500.

(** ** DiagnosticsStore *)

Definition _set_startup_report (report : Dict) : Prog unit :=
  call (SetReport report) ;;;
  call (PersistReport report).

Definition get_last_startup_report : Prog (Exc + Dict) :=
  report <- call GetReport ;;
  match report with
  | _ :: _ => Ret (inr report)
  | [] =>
      h <- call ReadHost ;;
      payload <- call LoadDisk ;;
      Ret (Raising._load_startup_report_from_disk h payload)
  end.

(** [int(time.time())] *)
Definition timestamp : Prog Value :=
  now <- call TimeTime ;; Ret (VInt (Z.quot now 1000)).

(** ** ProcessSupervisor *)

Definition string_of_Z (z : Z) : string := NilZero.string_of_int (Z.to_int z).

(** [inl exc]: the call raised; [get_ollama_env] is called before the
    [try] of the function. *)
Definition probe_ollama_binary (binary : Path) (timeout : Z)
  : Prog (Exc + Dict) :=
  h <- call ReadHost ;;
  match Raising.get_ollama_env h (Some binary) with
  | inl exc => Ret (inl exc)
  | inr env =>
      start <- call TimeTime ;;
      result <- call (RunVersion binary env timeout) ;;
      match result with
      | RunDone returncode stdout stderr =>
          let stderr_tail := _tail stderr 4000 in
          now <- call TimeTime ;;
          Ret (inr [ ("binary", VStr (str binary));
                     ("ok", VBool (returncode =? 0));
                     ("returncode", VInt returncode);
                     ("duration_s", VSeconds (now - start));
                     ("stdout", VStr (_tail stdout 500));
                     ("stderr_tail", VStr stderr_tail);
                     ("mlx_crash", VBool (_is_mlx_crash (Some stderr_tail))) ])
      | RunTimeoutExpired =>
          now <- call TimeTime ;;
          Ret (inr [ ("binary", VStr (str binary));
                     ("ok", VBool false);
                     ("returncode", VNone);
                     ("duration_s", VSeconds (now - start));
                     ("stdout", VStr "");
                     ("stderr_tail",
                      VStr ("Probe timed out after " ++ string_of_Z timeout
                            ++ "s")%string);
                     ("mlx_crash", VBool false) ])
      | RunRaised msg =>
          now <- call TimeTime ;;
          Ret (inr [ ("binary", VStr (str binary));
                     ("ok", VBool false);
                     ("returncode", VNone);
                     ("duration_s", VSeconds (now - start));
                     ("stdout", VStr "");
                     ("stderr_tail", VStr msg);
                     ("mlx_crash", VBool false) ])
      end
  end.

(** How a block of statements ends. *)
Inductive Completion : Type :=
| Fallthrough
| Return (b : bool)
| Raise (exc : Exc).


(** The polling loop of [_with_startup_lock]; the result is [acquired]. *)
Fixpoint acquire_loop (fuel : nat) (start timeout_ms : Z) : Prog bool :=
  match fuel with
  | O => Spin
  | S fuel' =>
      now <- call TimeTime ;;
      if now - start <? timeout_ms then
        acquired <- call LockAcquire ;;
        if acquired then Ret true
        else call (TimeSleep 100) ;;; acquire_loop fuel' start timeout_ms
      else Ret false
  end.

(** [with _with_startup_lock(timeout_s): body].  [inl exc]: the context
    manager raised before the body ran.  Otherwise the body ran and the
    lock was released, however the body ended. *)
Definition _with_startup_lock {A : Type} (fuel : nat) (timeout_s : Z)
    (body : Prog A) : Prog (Exc + A) :=
  start <- call TimeTime ;;
  acquired <- acquire_loop fuel start (timeout_s * 1000) ;;
  if negb acquired
  then Ret (inl (TimeoutError "Timed out acquiring Ollama startup lock"))
  else
    r <- body ;;
    call LockRelease ;;;
    Ret (inr r).

(** A [subprocess.Popen] object: [poll()] keeps the return code once the
    process is known to have ended. *)
Record Proc : Type := { pid : Z; returncode : option Z }.

Definition poll (proc : Proc) : Prog Proc :=
  match returncode proc with
  | Some _ => Ret proc
  | None =>
      rc <- call (ProcPoll (pid proc)) ;;
      Ret {| pid := pid proc; returncode := rc |}
  end.

(** [attempt[key] = v] for the attempt under way, the last of [attempts]. *)
Fixpoint set_attempt (key : string) (v : Value) (attempts : list Dict)
  : list Dict :=
  match attempts with
  | [] => []
  | [attempt] => [dict_set attempt key v]
  | a :: rest => a :: set_attempt key v rest
  end.

Definition attempts_value (attempts : list Dict) : Value :=
  VList (map VDict attempts).

(** The readiness loop of one spawned candidate.  [Return true]: the
    function returned from inside the loop; [Fallthrough]: the loop ended,
    by [break] or because its time was up. *)
Fixpoint wait_ready (fuel : nat) (candidate : Path) (started_proc : Proc)
    (start_time timeout : Z) (attempts : list Dict)
  : Prog (list Dict * Proc * Completion) :=
  match fuel with
  | O => Spin
  | S fuel' =>
      now <- call TimeTime ;;
      if now - start_time <? timeout * 1000 then
        running <- is_ollama_running ;;
        if running then
          call (SetSelected candidate) ;;;
          ready <- call TimeTime ;;
          ts <- timestamp ;;
          _set_startup_report
            [ ("success", VBool true);
              ("waited", VBool true);
              ("selected_binary", VStr (str candidate));
              ("ready_after_s", VSeconds (ready - start_time));
              ("attempts", attempts_value attempts);
              ("timestamp", ts) ] ;;;
          Ret (attempts, started_proc, Return true)
        else
          started_proc <- poll started_proc ;;
          match returncode started_proc with
          | Some rc =>
              let attempts := set_attempt "returncode" (VInt rc) attempts in
              comm <- call (ProcCommunicate (pid started_proc) 200) ;;
              let stderr_text :=
                match comm with
                | CommDone proc_stderr => _tail (or_empty proc_stderr) 4000
                | CommRaised => ""
                end in
              let attempts := set_attempt "stderr_tail" (VStr stderr_text) attempts in
              let attempts :=
                set_attempt "mlx_crash"
                  (VBool (_is_mlx_crash (Some stderr_text))) attempts in
              Ret (attempts, started_proc, Fallthrough)
          | None =>
              call (TimeSleep 500) ;;;
              wait_ready fuel' candidate started_proc start_time timeout attempts
          end
      else Ret (attempts, started_proc, Fallthrough)
  end.

(** Stopping a candidate that did not become ready in time. *)
Definition terminate_proc (started_proc : Proc) : Prog unit :=
  terminated <- call (ProcTerminate (pid started_proc)) ;;
  waited <- (if terminated then call (ProcWait (pid started_proc) 2000)
             else Ret false) ;;
  if waited then Ret tt
  else call (ProcKill (pid started_proc)) ;;; Ret tt.

(** The [for candidate in candidates] loop. *)
Fixpoint try_candidates (fuel : nat) (wait : bool) (timeout : Z)
    (candidates : list Path) (attempts : list Dict)
  : Prog (list Dict * Completion) :=
  match candidates with
  | [] => Ret (attempts, Fallthrough)
  | candidate :: rest =>
      probed <- probe_ollama_binary candidate OLLAMA_PROBE_TIMEOUT_S ;;
      match probed with
      | inl exc => Ret (attempts, Raise exc)
      | inr probe =>
      let attempts :=
        attempts ++ [[("binary", VStr (str candidate)); ("probe", VDict probe)]] in
      if negb (truthy (dict_get probe "ok")) then
        try_candidates fuel wait timeout rest attempts
      else
        h <- call ReadHost ;;
        match Raising.get_ollama_env h (Some candidate) with
        | inl exc => Ret (attempts, Raise exc)
        | inr env =>
        started <- call (Popen candidate env) ;;
        match started with
        | PopenRaised msg => Ret (attempts, Raise (OSError msg))
        | PopenStarted new_pid =>
            let started_proc := {| pid := new_pid; returncode := None |} in
            let attempts := set_attempt "pid" (VInt new_pid) attempts in
            if negb wait then
              call (SetSelected candidate) ;;;
              ts <- timestamp ;;
              _set_startup_report
                [ ("success", VBool true);
                  ("waited", VBool false);
                  ("selected_binary", VStr (str candidate));
                  ("attempts", attempts_value attempts);
                  ("timestamp", ts) ] ;;;
              Ret (attempts, Return true)
            else
              start_time <- call TimeTime ;;
              '(attempts, started_proc, completion) <-
                 wait_ready fuel candidate started_proc start_time timeout
                   attempts ;;
              match completion with
              | Fallthrough =>
                  started_proc <- poll started_proc ;;
                  match returncode started_proc with
                  | None =>
                      let attempts :=
                        set_attempt "timeout" (VBool true) attempts in
                      terminate_proc started_proc ;;;
                      try_candidates fuel wait timeout rest attempts
                  | Some _ => try_candidates fuel wait timeout rest attempts
                  end
              | _ => Ret (attempts, completion)
              end
        end
        end
      end
  end.

(** [get_ollama_binary_candidates()]; [inl exc]: the call raised. *)
Definition call_get_ollama_binary_candidates : Prog (Exc + list Path) :=
  h <- call ReadHost ;;
  selected <- call GetSelected ;;
  payload <- call LoadDisk ;;
  Ret (Raising.get_ollama_binary_candidates h selected payload).

(** The body of the [with _with_startup_lock():] block. *)
Definition locked_section (fuel : nat) (wait : bool) (timeout : Z)
    (candidates : list Path) : Prog (list Dict * Completion) :=
  running <- is_ollama_running ;;
  if running then
    ts <- timestamp ;;
    _set_startup_report
      [ ("success", VBool true);
        ("already_running", VBool true);
        ("timestamp", ts) ] ;;;
    Ret ([], Return true)
  else
    '(attempts, completion) <- try_candidates fuel wait timeout candidates [] ;;
    match completion with
    | Fallthrough =>
        ts <- timestamp ;;
        _set_startup_report
          [ ("success", VBool false);
            ("error", VStr "startup_failed");
            ("attempts", attempts_value attempts);
            ("timestamp", ts) ] ;;;
        Ret (attempts, Return false)
    | _ => Ret (attempts, completion)
    end.

Definition start_ollama_server (fuel : nat) (wait : bool) (timeout : Z)
  : Prog Completion :=
  running <- is_ollama_running ;;
  if running then
    ts <- timestamp ;;
    _set_startup_report
      [ ("success", VBool true);
        ("already_running", VBool true);
        ("timestamp", ts) ] ;;;
    Ret (Return true)
  else
    discovery <- call_get_ollama_binary_candidates ;;
    match discovery with
    | inl exc => Ret (Raise exc)        (* outside the [try]: the caller gets it *)
    | inr candidates =>
    match candidates with
    | [] =>
        ts <- timestamp ;;
        _set_startup_report
          [ ("success", VBool false);
            ("error", VStr "binary_not_found");
            ("timestamp", ts) ] ;;;
        Ret (Return false)
    | _ :: _ =>
        locked <- _with_startup_lock fuel 20
                    (locked_section fuel wait timeout candidates) ;;
        let '(attempts, completion) :=
          match locked with
          | inl exc => ([], Raise exc)
          | inr r => r
          end in
        match completion with
        | Raise exc =>
            ts <- timestamp ;;
            _set_startup_report
              [ ("success", VBool false);
                ("error", VStr (str_exc exc));
                ("attempts", attempts_value attempts);
                ("timestamp", ts) ] ;;;
            Ret (Return false)
        | _ => Ret completion
        end
    end
    end.

(** [inl exc]: the call raised. *)
Definition get_ollama_binary : Prog (Exc + option Path) :=
  selected <- call GetSelected ;;
  h <- call ReadHost ;;
  let discover : Prog (Exc + option Path) :=
    discovery <- call_get_ollama_binary_candidates ;;
    match discovery with
    | inl exc => Ret (inl exc)
    | inr [] => Ret (inr None)
    | inr (first :: _) => call (SetSelected first) ;;; Ret (inr (Some first))
    end in
  match selected with
  | Some p =>
      match Raising.exists_ h p with
      | inl exc => Ret (inl exc)
      | inr true => Ret (inr (Some p))
      | inr false => discover
      end
  | None => discover
  end.


(** ** Several callers in one process *)




(** A program keeps the lock discipline, started with the lock [held] or
    not by its thread: it acquires only when it does not hold the lock,
    releases and spawns only when it does, and ends in [Q]. *)
Fixpoint disciplined {A : Type} (p : Prog A) (held : bool)
    (Q : A -> bool -> Prop) {struct p} : Prop :=
  match p with
  | Ret a => Q a held
  | Spin => True
  | Op e k =>
      match e as e' return (Resp e' -> Prog A) -> Prop with
      | LockAcquire => fun k =>
          held = false /\ disciplined (k true) true Q
          /\ disciplined (k false) false Q
      | LockRelease => fun k => held = true /\ disciplined (k tt) false Q
      | Popen _ _ => fun k => held = true /\ forall x, disciplined (k x) held Q
      | _ => fun k => forall x, disciplined (k x) held Q
      end k
  end.





(** ** Reading the log *)

Definition is_spawn (e : Entry) : bool :=
  match e with
  | EvSpawn _ _ _ (PopenStarted _) => true
  | _ => false
  end.


Definition is_lock_event (e : Entry) : bool :=
  match e with
  | EvAcquire _ _ | EvRelease _ => true
  | _ => false
  end.

Definition is_probe (e : Entry) : bool :=
  match e with
  | EvProbe _ _ => true
  | _ => false
  end.



(** The binary of the most recent started process. *)
Fixpoint last_spawned (l : list Entry) : option Path :=
  match l with
  | [] => None
  | EvSpawn _ binary _ (PopenStarted _) :: _ => Some binary
  | _ :: rest => last_spawned rest
  end.

Definition path_is (o : option Path) (p : Path) : bool :=
  match o with
  | Some q => String.eqb q p
  | None => false
  end.

(** The newest entry is a health request that was answered with a 2xx. *)
Definition healthy_head (l : list Entry) : bool :=
  match l with
  | EvHttp _ _ _ r :: _ => status_ok r
  | _ => false
  end.

(** The newest entry is the start of a process from [p]. *)
Definition spawned_head (l : list Entry) (p : Path) : bool :=
  match l with
  | EvSpawn _ binary _ (PopenStarted _) :: _ => String.eqb binary p
  | _ => false
  end.

(** Every write of the cache comes right after a successful health
    request, and is of the binary started last. *)
Fixpoint selects_confirmed (l : list Entry) : bool :=
  match l with
  | [] => true
  | EvSelect _ p :: rest =>
      healthy_head rest && path_is (last_spawned rest) p
      && selects_confirmed rest
  | _ :: rest => selects_confirmed rest
  end.

(** Every write of the cache comes right after the start of a process
    from that binary. *)
Fixpoint selects_spawned (l : list Entry) : bool :=
  match l with
  | [] => true
  | EvSelect _ p :: rest => spawned_head rest p && selects_spawned rest
  | _ :: rest => selects_spawned rest
  end.


(** ** The specification's wording, and sample surroundings *)

(** "A previously successful binary is known (the in-memory cache, else the
    path recorded in the last persisted report)". *)
Definition previously_successful (selected : option Path) (disk : Disk)
  : option Path :=
  match selected with
  | Some p => Some p
  | None =>
      match dict_get (_load_startup_report_from_disk disk) "selected_binary" with
      | Some (VStr recorded) =>
          if String.eqb recorded "" then None else Some (Path_of_string recorded)
      | _ => None
      end
  end.

(** A development checkout whose file system holds exactly [files], all of
    them executable, with the symbolic links [links], and where every query
    answers. *)
Definition mk_host (env : list (string * string)) (files : list Path)
    (links : list (Path * Path)) (which : WhichOutcome) : Host :=
  {| environ := env;
     sys_frozen := false;
     sys_MEIPASS := "/tmp/_MEI";
     executable_dir := "/Applications/OpenScribe.app/Contents/MacOS";
     package_dir := "/opt/openscribe/backend";
     path_exists := fun p => existsb (String.eqb p) files;
     exists_error := fun _ => None;
     access_X_OK := fun p => existsb (String.eqb p) files;
     path_resolve := fun p =>
       Some match dict_get links p with Some q => q | None => p end;
     which_ollama := which;
     report_path_error := None |}.

(** An override next to a system installation. *)
Definition host_override : Host :=
  mk_host [("OPENSCRIBE_OLLAMA_BINARY", "/tmp/override-ollama")]
          ["/tmp/override-ollama"; "/usr/bin/ollama"] [] WhichRaised.

(** A Homebrew installation with [/usr/local/bin/ollama] linked to it. *)
Definition host_symlink : Host :=
  mk_host [] ["/opt/homebrew/bin/ollama"; "/usr/local/bin/ollama"]
          [("/usr/local/bin/ollama", "/opt/homebrew/bin/ollama")]
          (WhichDone 0 "/opt/homebrew/bin/ollama
").

(** A bundled binary next to two system installations. *)
Definition host_bundled : Host :=
  mk_host []
          ["/opt/openscribe/backend/bin"; "/opt/openscribe/backend/bin/ollama";
           "/usr/bin/ollama"; "/opt/homebrew/bin/ollama"] []
          (WhichDone 0 "/opt/homebrew/bin/ollama
").


(** Surroundings in which every probe passes and every process starts and
    keeps running, the HTTP endpoints answering as [http] says. *)
Definition mk_world (http : nat -> HttpOutcome) : World :=
  {| w_urlopen := fun n _ => http n;
     w_run := fun _ _ => RunDone 0 "ollama version is 0.15.4" "";
     w_popen := fun n _ => PopenStarted (4000 + Z.of_nat n);
     w_poll := fun _ _ => None;
     w_communicate := fun _ _ => CommDone None;
     w_terminate := fun _ _ => true;
     w_wait := fun _ _ => true;
     w_kill := fun _ _ => true;
     w_persist := fun _ => Persisted;
     w_elapsed := fun _ => 1%N |}.

(** Nothing listens on the port, whatever is started. *)
Definition world_down : World := mk_world (fun _ => HttpRaised).

(** Nothing listens on the port, and every started process is found to
    have ended with code 134 as soon as it is polled. *)
Definition world_crashing : World :=
  {| w_urlopen := w_urlopen world_down;
     w_run := w_run world_down;
     w_popen := w_popen world_down;
     w_poll := fun _ _ => Some 134;
     w_communicate := fun _ _ => CommDone (Some "libmlx: NSRangeException");
     w_terminate := w_terminate world_down;
     w_wait := w_wait world_down;
     w_kill := w_kill world_down;
     w_persist := w_persist world_down;
     w_elapsed := w_elapsed world_down |}.

(** The server answers from the [n]-th event on. *)
Definition world_up_from (n : nat) : World :=
  mk_world (fun k => if Nat.leb n k then HttpResponse 200 else HttpRaised).

(** A fresh process: no lock held, no cache, no report, an empty log. *)
Definition fresh (h : Host) (w : World) : State :=
  {| host := h; world := w; tick := 0; clock := 1700000000000;
     _startup_lock := None;
     _selected_ollama_binary := None;
     _last_startup_report := [];
     disk := None;
     log := [] |}.


(** The exceptions that the file system of [h] gives to the module: an
    [OSError] of [exists()] on some path, or what the look-up of the path of
    the startup report raises. *)
Definition file_system_error (h : Host) (exc : Exc) : Prop :=
  (exists p msg, exists_error h p = Some msg /\ exc = OSError msg)
  \/ report_path_error h = Some exc.

(** A host with nothing installed, and one with a single system binary. *)
Definition host_empty : Host := mk_host [] [] [] WhichRaised.
Definition host_system : Host := mk_host [] ["/usr/bin/ollama"] [] WhichRaised.


(** ** Reasoning about runs *)

(** [wp t p Q s]: thread [t] running [p] alone from [s] ends, within the
    iteration budgets of [p], with a value and a state that satisfy [Q]. *)
Fixpoint wp {A : Type} (t : Tid) (p : Prog A) (Q : A -> State -> Prop)
    (s : State) : Prop :=
  match p with
  | Ret a => Q a s
  | Spin => False
  | Op e k => wp t (k (fst (handle t e s))) Q (snd (handle t e s))
  end.


(** The globals after the events behind the entries [new] (newest first),
    from their values before. *)
Fixpoint lock_after (new : list Entry) (before : option Tid) : option Tid :=
  match new with
  | [] => before
  | EvAcquire t true :: _ => Some t
  | EvRelease _ :: _ => None
  | _ :: rest => lock_after rest before
  end.

Fixpoint selected_after (new : list Entry) (before : option Path)
  : option Path :=
  match new with
  | [] => before
  | EvSelect _ p :: _ => Some p
  | _ :: rest => selected_after rest before
  end.

Fixpoint report_after (new : list Entry) (before : Dict) : Dict :=
  match new with
  | [] => before
  | EvReport _ report :: _ => report
  | _ :: rest => report_after rest before
  end.

(** [s'] comes after [s], the entries [new] having been logged between. *)
Definition Frame (s s' : State) (new : list Entry) : Prop :=
  log s' = new ++ log s
  /\ clock s <= clock s'
  /\ _startup_lock s' = lock_after new (_startup_lock s)
  /\ _selected_ollama_binary s' = selected_after new (_selected_ollama_binary s)
  /\ _last_startup_report s' = report_after new (_last_startup_report s).

(** Entries that touch neither the lock nor the globals. *)
Definition is_plain (e : Entry) : bool :=
  match e with
  | EvAcquire _ _ | EvRelease _ | EvSelect _ _ | EvReport _ _ => false
  | _ => true
  end.

Definition is_http (e : Entry) : bool :=
  match e with
  | EvHttp _ _ _ _ => true
  | _ => false
  end.

Definition is_failed_acquire (t : Tid) (e : Entry) : bool :=
  match e with
  | EvAcquire t' false => Nat.eqb t' t
  | _ => false
  end.

(** What [acquire_loop] logs, by its result. *)
Definition acquire_shape (t : Tid) (before : option Tid) (acquired : bool)
    (new : list Entry) : Prop :=
  if acquired then before = None /\ new = [EvAcquire t true]
  else forallb (is_failed_acquire t) new = true.


(** What [wait_ready] logs, by the way it ends. *)
Definition wait_shape (t : Tid) (candidate : Path) (completion : Completion)
    (new : list Entry) : Prop :=
  match completion with
  | Return true =>
      exists report new',
        new = EvReport t report :: EvSelect t candidate :: new'
        /\ forallb is_http new' = true
        /\ healthy_head new' = true
        /\ dict_get report "success" = Some (VBool true)
  | Fallthrough => forallb is_http new = true
  | _ => False
  end.

(** What a successful [try_candidates] logs: plain entries, then the write
    of the cache and of the report. *)
Definition ready_shape (t : Tid) (wait : bool) (new : list Entry) : Prop :=
  exists report candidate new',
    new = EvReport t report :: EvSelect t candidate :: new'
    /\ forallb is_plain new' = true
    /\ dict_get report "success" = Some (VBool true)
    /\ if wait
       then healthy_head new' = true /\ last_spawned new' = Some candidate
       else spawned_head new' candidate = true.

Definition try_shape (t : Tid) (wait : bool) (completion : Completion)
    (new : list Entry) : Prop :=
  match completion with
  | Return true => ready_shape t wait new
  | Return false => False
  | _ => forallb is_plain new = true
  end.


(** Entries that leave the lock, the cache and the report as they were. *)
Definition is_quiet (e : Entry) : bool :=
  match e with
  | EvAcquire _ acquired => negb acquired
  | EvRelease _ | EvSelect _ _ | EvReport _ _ => false
  | _ => true
  end.

Definition selects_ok (wait : bool) (l : list Entry) : bool :=
  if wait then selects_confirmed l else selects_spawned l.

(** What a call of [start_ollama_server] that returned [b] has logged. *)
Definition outcome (t : Tid) (wait : bool) (lock_before : option Tid)
    (b : bool) (new : list Entry) : Prop :=
  (exists report,
      In (EvReport t report) new
      /\ (forall before, report_after new before = report)
      /\ dict_get report "success" = Some (VBool b))
  /\ lock_after new lock_before = lock_before
  /\ (forall old, selects_ok wait old = true ->
                  selects_ok wait (new ++ old) = true).


(** ** Kinds of surroundings, and what a report says *)

(** The look-up of the bundled directory answers. *)
Definition bundled_lookup_answers (h : Host) : Prop :=
  Raising.get_bundled_ollama_dir h = inr (get_bundled_ollama_dir h).

(** The runtime never answers a health request. *)
Definition never_answers (w : World) : Prop :=
  forall n url, status_ok (w_urlopen w n url) = false.

(** No [--version] run ends with return code 0. *)
Definition no_probe_passes (w : World) : Prop :=
  forall n binary,
    match w_run w n binary with
    | RunDone returncode _ _ => returncode =? 0
    | _ => false
    end = false.

(** Every [--version] run ends with return code 0. *)
Definition every_probe_passes (w : World) : Prop :=
  forall n binary, exists stdout stderr, w_run w n binary = RunDone 0 stdout stderr.

(** Starting a process always raises, with message [msg]. *)
Definition spawn_raises (w : World) (msg : string) : Prop :=
  forall n binary, w_popen w n binary = PopenRaised msg.

(** Every process starts, and none is ever found to have ended. *)
Definition processes_linger (w : World) : Prop :=
  (forall n binary, exists new_pid, w_popen w n binary = PopenStarted new_pid)
  /\ forall n p, w_poll w n p = None.

(** No single event takes as long as the lock timeout. *)
Definition events_are_short (w : World) : Prop :=
  forall n, Z.of_N (w_elapsed w n) < 20000.

(** The binaries that a list of attempts names, in order. *)
Definition binaries (attempts : list Dict) : list (option Value) :=
  map (fun attempt => dict_get attempt "binary") attempts.

Definition named (candidates : list Path) : list (option Value) :=
  map (fun c => Some (VStr (str c))) candidates.

(** The attempts recorded in a report. *)
Definition report_attempts (report : Dict) (attempts : list Dict) : Prop :=
  dict_get report "attempts" = Some (attempts_value attempts).

Definition is_terminate (e : Entry) : bool :=
  match e with
  | EvTerminate _ _ => true
  | _ => false
  end.

(** Nothing listens on the port and no binary can be run. *)
Definition world_unrunnable : World :=
  {| w_urlopen := w_urlopen world_down;
     w_run := fun _ _ => RunRaised "Exec format error";
     w_popen := w_popen world_down;
     w_poll := w_poll world_down;
     w_communicate := w_communicate world_down;
     w_terminate := w_terminate world_down;
     w_wait := w_wait world_down;
     w_kill := w_kill world_down;
     w_persist := w_persist world_down;
     w_elapsed := w_elapsed world_down |}.

(** Nothing listens on the port; the probes pass, and no process starts. *)
Definition world_no_spawn : World :=
  {| w_urlopen := w_urlopen world_down;
     w_run := w_run world_down;
     w_popen := fun _ _ => PopenRaised "Permission denied";
     w_poll := w_poll world_down;
     w_communicate := w_communicate world_down;
     w_terminate := w_terminate world_down;
     w_wait := w_wait world_down;
     w_kill := w_kill world_down;
     w_persist := w_persist world_down;
     w_elapsed := w_elapsed world_down |}.

(** An attempt to start a process, successful or not. *)
Definition is_popen (e : Entry) : bool :=
  match e with
  | EvSpawn _ _ _ _ => true
  | _ => false
  end.

(** The processes started, and those told to terminate, newest first. *)
Definition started_pids (l : list Entry) : list Z :=
  flat_map (fun e => match e with
                     | EvSpawn _ _ _ (PopenStarted p) => [p]
                     | _ => []
                     end) l.

Definition terminated_pids (l : list Entry) : list Z :=
  flat_map (fun e => match e with
                     | EvTerminate _ p => [p]
                     | _ => []
                     end) l.

(** What the report of a successful start says. *)
Definition success_report (wait : bool) (candidate : Path)
    (attempts : list Dict) (report : Dict) : Prop :=
  dict_get report "success" = Some (VBool true)
  /\ dict_get report "waited" = Some (VBool wait)
  /\ dict_get report "selected_binary" = Some (VStr (str candidate))
  /\ report_attempts report attempts.

(** What [wait_ready] answers and logs, by the way it ends. *)
Definition wait_result (t : Tid) (candidate : Path)
    (attempts attempts' : list Dict) (completion : Completion)
    (new : list Entry) : Prop :=
  binaries attempts' = binaries attempts
  /\ match completion with
     | Return true =>
         attempts' = attempts
         /\ exists report http,
              new = EvReport t report :: EvSelect t candidate :: http
              /\ forallb is_http http = true
              /\ success_report true candidate attempts report
     | Fallthrough => forallb is_http new = true
     | _ => False
     end.

(** What [try_candidates] answers and logs, by the way it ends: the
    attempts made are of the first [k] candidates, in order. *)
Definition try_result (t : Tid) (wait : bool) (candidates : list Path)
    (attempts attempts' : list Dict) (completion : Completion)
    (new : list Entry) : Prop :=
  exists k,
    binaries attempts' = binaries attempts ++ named (firstn k candidates)
    /\ match completion with
       | Return true =>
           exists report c tried plain,
             firstn k candidates = tried ++ [c]
             /\ new = EvReport t report :: EvSelect t c :: plain
             /\ forallb is_plain plain = true
             /\ success_report wait c attempts' report
       | Return false => False
       | Fallthrough =>
           firstn k candidates = candidates /\ forallb is_plain new = true
       | Raise _ => forallb is_plain new = true
       end.

(** What a call that started the runtime leaves: the cache holds the
    candidate started, and the report names it and lists the attempts, which
    are of the candidates before it and of it. *)
Definition started_result (wait : bool) (candidates : list Path)
    (after : State) : Prop :=
  exists c tried rest attempts,
    candidates = tried ++ c :: rest
    /\ _selected_ollama_binary after = Some c
    /\ success_report wait c attempts (_last_startup_report after)
    /\ binaries attempts = named (tried ++ [c]).

(** What a call that failed leaves: the cache as it was, and a report with
    an error; unless there was no candidate, the report lists the attempts,
    which are of the first candidates. *)
Definition failed_result (candidates : list Path) (before after : State)
  : Prop :=
  _selected_ollama_binary after = _selected_ollama_binary before
  /\ dict_get (_last_startup_report after) "success" = Some (VBool false)
  /\ ((candidates = []
       /\ dict_get (_last_startup_report after) "error"
          = Some (VStr "binary_not_found"))
      \/ exists err tried rest attempts,
           candidates = tried ++ rest
           /\ dict_get (_last_startup_report after) "error" = Some (VStr err)
           /\ report_attempts (_last_startup_report after) attempts
           /\ binaries attempts = named tried).

(** The same, for a call whose discovery answered [discovery]. *)
Definition started_call (wait : bool) (discovery : Exc + list Path)
    (after : State) : Prop :=
  exists candidates,
    discovery = inr candidates /\ started_result wait candidates after.

Definition failed_call (discovery : Exc + list Path) (before after : State)
  : Prop :=
  exists candidates,
    discovery = inr candidates /\ failed_result candidates before after.

(** ** The Ollama client, and the functions that use it *)

(** A field of a model entry: [None] or a string. *)
Inductive Field : Type :=
| FNone
| FStr (s : string).

(** What [ollama.list()] answers has been a [dict] in some versions of the
    client and an object with attributes in others, and so have the entries
    of its [models]. *)
Inductive Shaped (A : Type) : Type :=
| AsDict (items : list (string * A))
| AsObject (attrs : list (string * A)).

Arguments AsDict {A} items.
Arguments AsObject {A} attrs.

Definition Model := Shaped Field.

(** The value of [models]: [None] or a list of entries. *)
Inductive Models : Type :=
| ModelsNone
| ModelsList (l : list Model).

Definition ListResponse := Shaped Models.

(** [x.get("models", []) or []], [getattr(x, "models", []) or []] *)
Definition models_or_empty (v : option Models) : list Model :=
  match v with
  | Some (ModelsList l) => l
  | Some ModelsNone | None => []
  end.

(** [x.get(key)], [getattr(x, key, None)] *)
Definition field_of (v : option Field) : Field :=
  match v with
  | Some f => f
  | None => FNone
  end.

Definition field_truthy (f : Field) : bool :=
  match f with
  | FStr s => negb (String.eqb s "")
  | FNone => false
  end.

(** [a or b] *)
Definition field_or (a b : Field) : Field := if field_truthy a then a else b.

(** The name under which an entry is listed, if any. *)
Definition model_name_of (model : Model) : Field :=
  match model with
  | AsDict items =>
      field_or (field_of (dict_get items "model")) (field_of (dict_get items "name"))
  | AsObject attrs =>
      field_or (field_of (dict_get attrs "model")) (field_of (dict_get attrs "name"))
  end.

Definition _extract_model_names (list_response : ListResponse) : list string :=
  let models :=
    match list_response with
    | AsDict items => models_or_empty (dict_get items "models")
    | AsObject attrs => models_or_empty (dict_get attrs "models")
    end in
  flat_map (fun model =>
              let name := model_name_of model in
              if field_truthy name
              then match name with FStr s => [s] | FNone => [] end
              else [])
           models.

Inductive ListOutcome : Type :=
| ListDone (response : ListResponse)
| ListRaised (msg : string).

(** What the client and the command line answer to the [n]-th event. *)
Record Client : Type := {
  c_list : nat -> ListOutcome;                        (* ollama.list() *)
  c_pull : nat -> string -> bool;                     (* ollama.pull(name): false, it raised *)
  c_run : nat -> Path -> list string -> RunOutcome    (* subprocess.run([binary] + args) *)
}.

(** The [for _ in range(n)] loop of [list_models], and what follows it. *)
Fixpoint list_attempts (n : nat) (cl : Client) (t : Tid) (s : State)
  : list string * State :=
  match n with
  | O => ([], s)
  | S n' =>
      match c_list cl (tick s) with
      | ListDone response => (_extract_model_names response, advance 0 s)
      | ListRaised _ =>
          list_attempts n' cl t (snd (handle t (TimeSleep 500) (advance 0 s)))
      end
  end.

(** [None]: an iteration budget was used up.  [inl]: the call raised.  The
    client module is taken to be installed: [import ollama], which is
    outside the [try], answers. *)
Definition list_models (fuel : nat) (cl : Client) (t : Tid) (s : State)
  : option (Exc + list string) * State :=
  match run t is_ollama_running s with
  | (None, s1) => (None, s1)
  | (Some true, s1) =>
      let (names, s2) := list_attempts 3 cl t s1 in (Some (inr names), s2)
  | (Some false, s1) =>
      match run t (start_ollama_server fuel true 30) s1 with
      | (None, s2) => (None, s2)
      | (Some (Raise exc), s2) => (Some (inl exc), s2)
      | (Some (Return true), s2) =>
          let (names, s3) := list_attempts 3 cl t s2 in (Some (inr names), s3)
      | (Some (Return false), s2) | (Some Fallthrough, s2) => (Some (inr []), s2)
      end
  end.

Definition has_model (fuel : nat) (cl : Client) (t : Tid) (model_name : string)
    (s : State) : option (Exc + bool) * State :=
  let (r, s') := list_models fuel cl t s in
  (match r with
   | Some (inr models) => Some (inr (existsb (String.eqb model_name) models))
   | Some (inl exc) => Some (inl exc)
   | None => None
   end, s').

(** The result is [(success, stdout, stderr)]; [inl exc]: the call raised,
    which [get_ollama_binary], called before the [try], can make it do. *)
Definition run_ollama_command (cl : Client) (t : Tid) (args : list string)
    (timeout : Z) (s : State)
  : option (Exc + bool * string * string) * State :=
  match run t get_ollama_binary s with
  | (None, s1) => (None, s1)
  | (Some (inl exc), s1) => (Some (inl exc), s1)
  | (Some (inr None), s1) =>
      (Some (inr (false, "", "Ollama binary not found")), s1)
  | (Some (inr (Some ollama_binary)), s1) =>
      let (h, s2) := handle t ReadHost s1 in
      match Raising.get_ollama_env h (Some ollama_binary) with
      | inl exc => (Some (inr (false, "", str_exc exc)), s2)
      | inr env =>
          (Some (inr match c_run cl (tick s2) ollama_binary args with
                     | RunDone returncode stdout stderr =>
                         (returncode =? 0, stdout, stderr)
                     | RunTimeoutExpired =>
                         (false, "",
                          ("Command timed out after " ++ string_of_Z timeout
                           ++ " seconds")%string)
                     | RunRaised msg => (false, "", msg)
                     end),
           advance 0 s2)
      end
  end.

(** ** The summarizer ([summarizer.py]): making the runtime and the model ready *)

Definition fallback_models : list string := ["llama3.2:3b"; "gemma3:4b"].

(** [name in model_names] *)
Definition field_in (name : string) (model_names : list Field) : bool :=
  existsb (fun f => match f with
                    | FStr s => String.eqb name s
                    | FNone => false
                    end) model_names.

(** [[getattr(m, 'model', '') for m in getattr(response, 'models', []) or []]] *)
Definition listed_model_names (response : ListResponse) : list Field :=
  let models :=
    match response with
    | AsDict _ => []
    | AsObject attrs => models_or_empty (dict_get attrs "models")
    end in
  map (fun m => match m with
                | AsDict _ => FStr ""
                | AsObject attrs =>
                    match dict_get attrs "model" with
                    | Some f => f
                    | None => FStr ""
                    end
                end) models.

(** The loop that pulls the fallback models in turn. *)
Fixpoint pull_fallbacks (cl : Client) (fallbacks : list string) (s : State)
  : option string * State :=
  match fallbacks with
  | [] => (None, s)
  | fallback :: rest =>
      if c_pull cl (tick s) fallback then (Some fallback, advance 0 s)
      else pull_fallbacks cl rest (advance 0 s)
  end.

(** The result is the returned boolean with [self.model_name] as the call
    leaves it. *)
Definition _ensure_model_available (cl : Client) (model_name : string)
    (s : State) : bool * string * State :=
  match c_list cl (tick s) with
  | ListRaised _ => (false, model_name, advance 0 s)
  | ListDone response =>
      let s1 := advance 0 s in
      let model_names := listed_model_names response in
      if field_in model_name model_names then (true, model_name, s1)
      else
        match find (fun fallback => field_in fallback model_names)
                   fallback_models with
        | Some fallback => (true, fallback, s1)
        | None =>
            if c_pull cl (tick s1) model_name
            then (true, model_name, advance 0 s1)
            else
              match pull_fallbacks cl fallback_models (advance 0 s1) with
              | (Some fallback, s2) => (true, fallback, s2)
              | (None, s2) => (false, model_name, s2)
              end
        end
  end.

(** [inl msg]: the call raised an exception with the message [msg]. *)
Definition _ensure_ollama_ready (fuel : nat) (cl : Client) (t : Tid)
    (model_name : string) (s : State)
  : option (string + bool) * string * State :=
  let check (s1 : State) :=
    let '(available, model_name', s2) := _ensure_model_available cl model_name s1 in
    if available then (Some (inr true), model_name', s2)
    else (Some (inl ("Failed to ensure model " ++ model_name'
                     ++ " is available")%string), model_name', s2) in
  match run t is_ollama_running s with
  | (None, s1) => (None, model_name, s1)
  | (Some true, s1) => check s1
  | (Some false, s1) =>
      match run t (start_ollama_server fuel true 30) s1 with
      | (None, s2) => (None, model_name, s2)
      | (Some (Raise exc), s2) => (Some (inl (str_exc exc)), model_name, s2)
      | (Some (Return true), s2) => check s2
      | (Some (Return false), s2) | (Some Fallthrough, s2) =>
          (Some (inl "Failed to start Ollama service"), model_name, s2)
      end
  end.

(* ===================================================================== *)
(** * Part II: the properties                                               *)
(* ===================================================================== *)

(** ** Strings *)

Lemma startswith_spec (s p : string) :
  startswith s p = true <-> exists r : string, s = (p ++ r)%string.
Proof.
  revert s. induction p as [|b p IH]; intros s; simpl.
  - split; [intros _; now exists s | reflexivity].
  - destruct s as [|a s]; simpl.
    + split; [discriminate | intros [r H]; discriminate].
    + rewrite andb_true_iff, Ascii.eqb_eq, IH. split.
      * intros [-> [r ->]]. now exists r.
      * intros [r H]. injection H as -> ->. split; [reflexivity | now exists r].
Qed.

Lemma contains_spec (hay needle : string) :
  contains hay needle = true <-> occurs_in needle hay.
Proof.
  unfold occurs_in. induction hay as [|c hay IH]; simpl.
  - rewrite orb_false_r, startswith_spec. split.
    + intros [r H]. now exists ""%string, r.
    + intros [pre [post H]]. destruct pre; simpl in H; [now exists post | discriminate].
  - rewrite orb_true_iff, startswith_spec, IH. split.
    + intros [[r H] | [pre [post H]]].
      * now exists ""%string, r.
      * exists (String c pre), post. simpl. now rewrite H.
    + intros [pre [post H]]. destruct pre as [|d pre]; simpl in H.
      * left. now exists post.
      * right. injection H as _ H. now exists pre, post.
Qed.

(** ** CrashClassifier *)

Example crash_test_signature :
  _is_mlx_crash (Some "*** Terminating app due to uncaught exception 'NSRangeException', reason: index 0 beyond bounds for empty array in libmlx") = true
  /\ _is_mlx_crash (Some "random startup warning") = false.
Proof. split; reflexivity. Qed.

(** C9: the crash classifier answers true exactly when the lowered stderr
    text contains one of the fixed crash markers; a missing ([None]) or empty
    stderr is accepted and classified as no crash. *)
Theorem is_mlx_crash_iff_marker :
  forall stderr : option string,
    (_is_mlx_crash stderr = true <->
     exists marker, In marker crash_markers
                    /\ occurs_in marker (lower (or_empty stderr)))
    /\ (_is_mlx_crash stderr = false <->
        forall marker, In marker crash_markers ->
                       ~ occurs_in marker (lower (or_empty stderr)))
    /\ _is_mlx_crash None = false
    /\ _is_mlx_crash (Some "") = false.
Proof.
  intros stderr.
  assert (T : _is_mlx_crash stderr = true <->
              exists marker, In marker crash_markers
                             /\ occurs_in marker (lower (or_empty stderr))).
  { unfold _is_mlx_crash. rewrite existsb_exists.
    split; intros [m [Hin Hm]]; exists m; split; auto;
      now apply contains_spec. }
  split; [exact T | split; [| split; reflexivity]].
  split.
  - intros F m Hin Hocc.
    assert (_is_mlx_crash stderr = true) as E by (apply T; eauto).
    congruence.
  - intros H. destruct (_is_mlx_crash stderr) eqn:E; [| reflexivity].
    destruct (proj1 T eq_refl) as [m [Hin Hocc]]. now destruct (H m Hin).
Qed.

(** ** BinaryLocator *)

Lemma existsb_eqb_In (x : string) (l : list string) :
  existsb (String.eqb x) l = true <-> In x l.
Proof.
  rewrite existsb_exists. split.
  - intros [y [Hin Heq]]. apply String.eqb_eq in Heq. now subst.
  - intros Hin. exists x. split; [assumption | apply String.eqb_refl].
Qed.

Lemma existsb_eqb_notIn (x : string) (l : list string) :
  existsb (String.eqb x) l = false <-> ~ In x l.
Proof.
  rewrite <- existsb_eqb_In. symmetry. apply not_true_iff_false.
Qed.

Lemma dedupe_acc (h : Host) (l : list Path) :
  forall seen acc, dedupe h l seen acc = acc ++ dedupe h l seen [].
Proof.
  induction l as [|c l IH]; intros seen acc; simpl.
  - now rewrite app_nil_r.
  - destruct (existsb (String.eqb (str c)) seen); [apply IH |].
    destruct (path_exists h c && access_X_OK h c); [| apply IH].
    rewrite (IH _ (acc ++ [c])), (IH _ [c]). now rewrite <- app_assoc.
Qed.

Lemma dedupe_cons (h : Host) (c : Path) (l : list Path) (seen : list string) :
  dedupe h (c :: l) seen [] =
  if existsb (String.eqb (str c)) seen then dedupe h l seen []
  else if path_exists h c && access_X_OK h c
       then c :: dedupe h l (str c :: seen) []
       else dedupe h l (str c :: seen) [].
Proof.
  simpl. destruct (existsb (String.eqb (str c)) seen); [reflexivity |].
  destruct (path_exists h c && access_X_OK h c); [| reflexivity].
  now rewrite dedupe_acc.
Qed.

Lemma dedupe_In (h : Host) (l : list Path) :
  forall seen x, In x (dedupe h l seen []) ->
    In x l /\ ~ In (str x) seen
    /\ path_exists h x = true /\ access_X_OK h x = true.
Proof.
  induction l as [|c l IH]; intros seen x Hin; [destruct Hin |].
  rewrite dedupe_cons in Hin.
  destruct (existsb (String.eqb (str c)) seen) eqn:Es.
  - destruct (IH _ _ Hin) as [H1 H2]. split; [now right | exact H2].
  - apply existsb_eqb_notIn in Es.
    destruct (path_exists h c && access_X_OK h c) eqn:Eok.
    + destruct Hin as [<- | Hin].
      * apply andb_true_iff in Eok. split; [now left | tauto].
      * destruct (IH _ _ Hin) as [H1 [H2 H3]].
        split; [now right | split; [| exact H3]].
        intros Hs. apply H2. now right.
    + destruct (IH _ _ Hin) as [H1 [H2 H3]].
      split; [now right | split; [| exact H3]].
      intros Hs. apply H2. now right.
Qed.

Lemma dedupe_NoDup (h : Host) (l : list Path) :
  forall seen, NoDup (dedupe h l seen []).
Proof.
  induction l as [|c l IH]; intros seen; [constructor |].
  rewrite dedupe_cons.
  destruct (existsb (String.eqb (str c)) seen); [apply IH |].
  destruct (path_exists h c && access_X_OK h c); [| apply IH].
  constructor; [| apply IH].
  intros Hin. apply dedupe_In in Hin. destruct Hin as [_ [Hn _]].
  apply Hn. now left.
Qed.

Lemma discovered_override (h : Host) (o : string) :
  getenv h "OPENSCRIBE_OLLAMA_BINARY" = Some o -> o <> "" ->
  exists rest, discovered h = Path_of_string o :: rest.
Proof.
  intros Ho Hne. unfold discovered. rewrite Ho. simpl.
  destruct (String.eqb_spec o ""); [contradiction |]. simpl. eauto.
Qed.

(** C2, as the code has it: with the override variable set to a non-empty
    string, the result is the deduplicated discovery list, whatever the cache
    and the persisted report hold and without any reordering; the override
    comes first (once) when it exists and is executable, followed by the
    other executables discovered, and is absent otherwise. *)
Theorem override_first_without_reordering :
  forall (h : Host) (selected : option Path) (disk : Disk) (o : string),
    getenv h "OPENSCRIBE_OLLAMA_BINARY" = Some o ->
    o <> "" ->
    get_ollama_binary_candidates h selected disk = dedupe h (discovered h) [] []
    /\ if path_exists h (Path_of_string o) && access_X_OK h (Path_of_string o)
       then exists others,
              get_ollama_binary_candidates h selected disk
              = Path_of_string o :: others
              /\ ~ In (Path_of_string o) others
       else ~ In (Path_of_string o) (get_ollama_binary_candidates h selected disk).
Proof.
  intros h selected disk o Ho Hne.
  assert (E : get_ollama_binary_candidates h selected disk
              = dedupe h (discovered h) [] []).
  { unfold get_ollama_binary_candidates. rewrite Ho. simpl.
    destruct (String.eqb_spec o ""); [contradiction | reflexivity]. }
  split; [exact E |]. rewrite E.
  destruct (discovered_override h o Ho Hne) as [rest ->].
  rewrite dedupe_cons. simpl existsb. cbv iota.
  destruct (path_exists h (Path_of_string o) && access_X_OK h (Path_of_string o)).
  - eexists. split; [reflexivity |].
    intros Hin. apply dedupe_In in Hin. destruct Hin as [_ [Hn _]].
    apply Hn. now left.
  - intros Hin. apply dedupe_In in Hin. destruct Hin as [_ [Hn _]].
    apply Hn. now left.
Qed.

Lemma override_first_without_reordering_witness :
  get_ollama_binary_candidates host_override (Some "/tmp/other-ollama") None
  = dedupe host_override (discovered host_override) [] []
  /\ exists others,
       get_ollama_binary_candidates host_override (Some "/tmp/other-ollama") None
       = "/tmp/override-ollama" :: others
       /\ ~ In "/tmp/override-ollama" others.
Proof.
  exact (override_first_without_reordering host_override
           (Some "/tmp/other-ollama") None "/tmp/override-ollama"
           eq_refl ltac:(discriminate)).
Defined.

(** The repository's tests of the locator, on the sample hosts: the override
    has priority over a cached binary, and a system binary is preferred to
    the bundled one by default. *)
Example override_has_priority_over_cached :
  nth_error (get_ollama_binary_candidates host_override
               (Some "/tmp/other-ollama") None) 0
  = Some "/tmp/override-ollama".
Proof. reflexivity. Qed.

Example default_prefers_system_binary :
  get_ollama_binary_candidates host_bundled None None
  = ["/opt/homebrew/bin/ollama"; "/usr/bin/ollama";
     "/opt/openscribe/backend/bin/ollama"].
Proof. reflexivity. Qed.

(** C2 as stated fails: with the override set and a system installation
    present, the result has two entries. *)
Lemma override_not_singleton :
  getenv host_override "OPENSCRIBE_OLLAMA_BINARY" = Some "/tmp/override-ollama"
  /\ get_ollama_binary_candidates host_override None None
     = ["/tmp/override-ollama"; "/usr/bin/ollama"]
  /\ get_ollama_binary_candidates host_override None None
     <> [Path_of_string "/tmp/override-ollama"].
Proof. repeat split. discriminate. Qed.

Lemma filter_partition_perm {A : Type} (f : A -> bool) (l : list A) :
  Permutation l (filter f l ++ filter (fun x => negb (f x)) l).
Proof.
  induction l as [|a l IH]; simpl; [constructor |].
  destruct (f a); simpl.
  - now constructor.
  - now apply Permutation_cons_app.
Qed.

Lemma system_first_perm (h : Host) (l : list Path) :
  Permutation l (system_first h l).
Proof.
  unfold system_first.
  destruct (prefer_system h && match l with [] => false | _ => true end);
    [apply filter_partition_perm | apply Permutation_refl].
Qed.

Lemma list_remove_In (x y : Path) (l : list Path) :
  In y (list_remove x l) -> In y l.
Proof.
  induction l as [|a l IH]; simpl; [tauto |].
  destruct (String.eqb a x); simpl; tauto.
Qed.

Lemma list_remove_NoDup (x : Path) (l : list Path) :
  NoDup l -> NoDup (list_remove x l) /\ ~ In x (list_remove x l).
Proof.
  induction 1 as [|a l Ha Hl [IH1 IH2]]; simpl.
  - split; [constructor | tauto].
  - destruct (String.eqb_spec a x) as [-> | Hne].
    + split; assumption.
    + split.
      * constructor; [| assumption]. intros Hin. apply Ha.
        now apply list_remove_In in Hin.
      * simpl. intros [E | Hin]; [now apply Hne | now apply IH2].
Qed.

Lemma move_to_front_NoDup (pref : option string) (l : list Path) :
  NoDup l -> NoDup (move_to_front pref l).
Proof.
  intros Hl. unfold move_to_front.
  destruct (nonempty pref); [| assumption].
  destruct (existsb (String.eqb (Path_of_string (or_empty pref))) l);
    [| assumption].
  destruct (list_remove_NoDup (Path_of_string (or_empty pref)) l Hl).
  now constructor.
Qed.

(** C6, as the code has it: the returned list never holds the same path
    string twice. *)
Theorem candidates_distinct_strings :
  forall (h : Host) (selected : option Path) (disk : Disk),
    NoDup (map str (get_ollama_binary_candidates h selected disk)).
Proof.
  intros h selected disk. unfold str. rewrite map_id.
  unfold get_ollama_binary_candidates.
  destruct (nonempty (getenv h "OPENSCRIBE_OLLAMA_BINARY"));
    [apply dedupe_NoDup |].
  apply move_to_front_NoDup.
  eapply Permutation_NoDup; [apply system_first_perm | apply dedupe_NoDup].
Qed.

(** C6 as stated fails: two entries of the returned list may resolve to the
    same canonical path, here a link and its target. *)
Lemma candidates_share_canonical_path :
  get_ollama_binary_candidates host_symlink None None
  = ["/opt/homebrew/bin/ollama"; "/usr/local/bin/ollama"]
  /\ canonical host_symlink "/usr/local/bin/ollama"
     = canonical host_symlink "/opt/homebrew/bin/ollama"
  /\ ~ NoDup (map (canonical host_symlink)
                  (get_ollama_binary_candidates host_symlink None None)).
Proof.
  split; [reflexivity | split; [reflexivity |]].
  intros H. inversion H as [| x l Hx Hl]; subst. apply Hx. now left.
Qed.

Lemma Path_of_string_nonempty (s : string) : Path_of_string s <> "".
Proof.
  unfold Path_of_string. destruct (String.eqb_spec s ""); [discriminate | assumption].
Qed.

Lemma Path_of_string_str (p : Path) : p <> "" -> Path_of_string (str p) = p.
Proof.
  intros Hp. unfold Path_of_string, str.
  destruct (String.eqb_spec p ""); [contradiction | reflexivity].
Qed.

Lemma joinpath_nonempty (p : Path) (c : ascii) (name : string) :
  joinpath p (String c name) <> "".
Proof.
  unfold joinpath. destruct (String.eqb p "/"); [discriminate |].
  destruct (String.eqb p "."); [discriminate |].
  destruct p; discriminate.
Qed.

Lemma discovered_nonempty (h : Host) (p : Path) :
  In p (discovered h) -> p <> "".
Proof.
  unfold discovered. intros Hin.
  repeat (apply in_app_or in Hin; destruct Hin as [Hin | Hin]).
  - destruct (nonempty _); [| destruct Hin].
    destruct Hin as [<- | []]. apply Path_of_string_nonempty.
  - destruct (get_bundled_ollama_dir h); [| destruct Hin].
    destruct Hin as [<- | [<- | []]]; apply joinpath_nonempty.
  - destruct (which_ollama h) as [rc out |]; [| destruct Hin].
    destruct (rc =? 0); [| destruct Hin].
    destruct Hin as [<- | []]. apply Path_of_string_nonempty.
  - destruct Hin as [<- | [<- | [<- | []]]]; discriminate.
Qed.

Lemma move_to_front_In (p : Path) (l : list Path) :
  p <> "" -> In p l ->
  move_to_front (Some (str p)) l = p :: list_remove p l.
Proof.
  intros Hp Hin. unfold move_to_front. simpl nonempty. unfold str at 1.
  destruct (String.eqb_spec p ""); [contradiction |]. simpl negb. cbv iota.
  simpl or_empty. rewrite (Path_of_string_str p Hp).
  now rewrite (proj2 (existsb_eqb_In p l) Hin).
Qed.

(** C7: without an override, a previously successful binary (the cache,
    else the non-empty path recorded in the persisted report) that is among
    the deduplicated candidates is returned at position 0, the other
    candidates following in their order, whichever way the system/bundled
    preference is set. *)
Theorem previously_successful_first :
  forall (h : Host) (selected : option Path) (disk : Disk) (p : Path),
    nonempty (getenv h "OPENSCRIBE_OLLAMA_BINARY") = false ->
    previously_successful selected disk = Some p ->
    In p (dedupe h (discovered h) [] []) ->
    nth_error (get_ollama_binary_candidates h selected disk) 0 = Some p
    /\ get_ollama_binary_candidates h selected disk
       = p :: list_remove p (system_first h (dedupe h (discovered h) [] [])).
Proof.
  intros h selected disk p Hov Hprev Hin.
  assert (Hne : p <> "").
  { apply (discovered_nonempty h). now apply dedupe_In in Hin. }
  assert (Hex : path_exists h p = true) by (apply dedupe_In in Hin; tauto).
  assert (Hin' : In p (system_first h (dedupe h (discovered h) [] []))).
  { eapply Permutation_in; [apply system_first_perm | exact Hin]. }
  assert (Hpref : preferred h selected disk = Some (str p)).
  { unfold preferred, previously_successful in *.
    destruct selected as [q |].
    - injection Hprev as ->. now rewrite Hex.
    - destruct (dict_get _ "selected_binary") as [[| | | | recorded | |] |];
        try discriminate.
      destruct (String.eqb_spec recorded ""); [discriminate |].
      injection Hprev as <-. unfold str, Path_of_string.
      destruct (String.eqb_spec recorded ""); [contradiction | reflexivity]. }
  assert (E : get_ollama_binary_candidates h selected disk
              = p :: list_remove p (system_first h (dedupe h (discovered h) [] []))).
  { unfold get_ollama_binary_candidates. rewrite Hov, Hpref.
    now apply move_to_front_In. }
  split; [now rewrite E | exact E].
Qed.

Lemma previously_successful_first_witness :
  nth_error (get_ollama_binary_candidates host_bundled
               (Some "/opt/openscribe/backend/bin/ollama") None) 0
  = Some "/opt/openscribe/backend/bin/ollama"
  /\ nth_error (get_ollama_binary_candidates host_bundled None
                  (Some (VDict [("selected_binary", VStr "/usr/bin/ollama")]))) 0
     = Some "/usr/bin/ollama".
Proof.
  split.
  - apply (previously_successful_first host_bundled
             (Some "/opt/openscribe/backend/bin/ollama") None
             "/opt/openscribe/backend/bin/ollama");
      [reflexivity | reflexivity | vm_compute; tauto].
  - apply (previously_successful_first host_bundled None
             (Some (VDict [("selected_binary", VStr "/usr/bin/ollama")]))
             "/usr/bin/ollama");
      [reflexivity | reflexivity | vm_compute; tauto].
Defined.

(** ** When the file system fails *)

Lemma exists_answers (h : Host) (p : Path) (b : bool) :
  Raising.exists_ h p = inr b -> b = path_exists h p.
Proof.
  unfold Raising.exists_. destruct (exists_error h p); [discriminate |].
  intros H; now inversion H.
Qed.

Lemma exists_raises (h : Host) (p : Path) (exc : Exc) :
  Raising.exists_ h p = inl exc ->
  exists msg, exists_error h p = Some msg /\ exc = OSError msg.
Proof.
  unfold Raising.exists_. destruct (exists_error h p) as [msg |];
    [| discriminate].
  intros H; inversion H. now exists msg.
Qed.

(** What a call answers, when it answers, is what the functions of
    BinaryLocator say. *)
Ltac ask_exists h p :=
  let E := fresh "E" in
  let exc := fresh "exc" in
  destruct (Raising.exists_ h p) as [exc | []] eqn:E;
  [ try discriminate
  | apply exists_answers in E; rewrite <- ?E; simpl
  | apply exists_answers in E; rewrite <- ?E; simpl ].

Lemma get_bundled_ollama_dir_answers (h : Host) (d : option Path) :
  Raising.get_bundled_ollama_dir h = inr d -> d = get_bundled_ollama_dir h.
Proof.
  unfold Raising.get_bundled_ollama_dir, get_bundled_ollama_dir, exc_bind.
  assert (Dev : match Raising.exists_ h (joinpath (package_dir h) "bin") with
                | inl exc => inl exc
                | inr true =>
                    match Raising.exists_ h
                            (joinpath (joinpath (package_dir h) "bin") "ollama")
                    with
                    | inl exc => inl exc
                    | inr binary_exists =>
                        inr (if binary_exists
                             then Some (joinpath (package_dir h) "bin") else None)
                    end
                | inr false => inr None
                end = inr d ->
                d = (if path_exists h (joinpath (package_dir h) "bin")
                        && path_exists h
                             (joinpath (joinpath (package_dir h) "bin") "ollama")
                     then Some (joinpath (package_dir h) "bin") else None)).
  { ask_exists h (joinpath (package_dir h) "bin").
    - ask_exists h (joinpath (joinpath (package_dir h) "bin") "ollama");
        intros H; now inversion H.
    - intros H; now inversion H. }
  destruct (sys_frozen h); [| exact Dev].
  ask_exists h (joinpath (sys_MEIPASS h) "ollama"); [intros H; now inversion H |].
  ask_exists h (joinpath (executable_dir h) "ollama");
    [intros H; now inversion H | exact Dev].
Qed.

Lemma dedupe_answers (h : Host) (candidates : list Path) :
  forall seen deduped l,
    Raising.dedupe h candidates seen deduped = inr l ->
    l = dedupe h candidates seen deduped.
Proof.
  induction candidates as [|c rest IH]; intros seen deduped l; simpl.
  - intros H; now inversion H.
  - destruct (existsb (String.eqb (str c)) seen); [apply IH |].
    unfold exc_bind.
    destruct (Raising.exists_ h c) as [exc | b] eqn:E; [discriminate |].
    apply exists_answers in E. rewrite <- E.
    destruct (b && access_X_OK h c); apply IH.
Qed.

Lemma preferred_answers (h : Host) (selected : option Path) (disk : Disk)
    (pref : option string) :
  Raising.preferred h selected disk = inr pref -> pref = preferred h selected disk.
Proof.
  unfold Raising.preferred, preferred, Raising._load_startup_report_from_disk,
    exc_bind.
  destruct selected as [p |].
  - destruct (Raising.exists_ h p) as [exc | b] eqn:E; [discriminate |].
    apply exists_answers in E. rewrite <- E. destruct b; [intros H; now inversion H |].
    destruct (report_path_error h); [discriminate | intros H; now inversion H].
  - destruct (report_path_error h); [discriminate | intros H; now inversion H].
Qed.

Lemma get_ollama_binary_candidates_answers (h : Host) (selected : option Path)
    (disk : Disk) (l : list Path) :
  Raising.get_ollama_binary_candidates h selected disk = inr l ->
  l = get_ollama_binary_candidates h selected disk.
Proof.
  unfold Raising.get_ollama_binary_candidates, get_ollama_binary_candidates,
    discovered, system_first.
  unfold exc_bind at 1.
  destruct (Raising.get_bundled_ollama_dir h) as [exc | d] eqn:Ed;
    [discriminate |].
  apply get_bundled_ollama_dir_answers in Ed. rewrite <- Ed.
  unfold exc_bind at 1.
  match goal with
  | |- context [Raising.dedupe h ?c [] []] =>
      destruct (Raising.dedupe h c [] []) as [exc | deduped] eqn:Eq;
      [discriminate | apply dedupe_answers in Eq; rewrite <- Eq]
  end.
  destruct (nonempty (getenv h "OPENSCRIBE_OLLAMA_BINARY")); [intros H; now inversion H |].
  destruct (prefer_system h && match deduped with [] => false | _ => true end);
    unfold exc_bind; simpl.
  - destruct (Raising.preferred h selected disk) as [exc | pref] eqn:Ep;
      [discriminate |].
    apply preferred_answers in Ep. rewrite <- Ep. intros H; now inversion H.
  - destruct (Raising.preferred h selected disk) as [exc | pref] eqn:Ep;
      [discriminate |].
    apply preferred_answers in Ep. rewrite <- Ep. intros H; now inversion H.
Qed.

(** A discovery that answers has found the bundled directory, or its
    absence, without an error; so then does [get_ollama_env]. *)
Lemma get_ollama_binary_candidates_bundled (h : Host) (selected : option Path)
    (disk : Disk) (l : list Path) :
  Raising.get_ollama_binary_candidates h selected disk = inr l ->
  Raising.get_bundled_ollama_dir h = inr (get_bundled_ollama_dir h).
Proof.
  unfold Raising.get_ollama_binary_candidates. unfold exc_bind at 1.
  destruct (Raising.get_bundled_ollama_dir h) as [exc | d] eqn:Ed;
    [discriminate |].
  intros _. now rewrite (get_bundled_ollama_dir_answers _ _ Ed).
Qed.

Lemma get_ollama_env_answers (h : Host) (binary : option Path) :
  Raising.get_bundled_ollama_dir h = inr (get_bundled_ollama_dir h) ->
  Raising.get_ollama_env h binary = inr (get_ollama_env h binary).
Proof.
  intros E. unfold Raising.get_ollama_env, get_ollama_env, exc_bind.
  rewrite E. reflexivity.
Qed.

Lemma get_ollama_env_raises (h : Host) (binary : option Path) (exc : Exc) :
  Raising.get_ollama_env h binary = inl exc ->
  Raising.get_bundled_ollama_dir h = inl exc.
Proof.
  unfold Raising.get_ollama_env, exc_bind.
  destruct (Raising.get_bundled_ollama_dir h); [intros H; now inversion H | discriminate].
Qed.

Lemma exists_raises_file_system (h : Host) (p : Path) (exc : Exc) :
  Raising.exists_ h p = inl exc -> file_system_error h exc.
Proof.
  intros E. apply exists_raises in E. destruct E as (msg & E & ->).
  left. now exists p, msg.
Qed.

Lemma get_bundled_ollama_dir_raises (h : Host) (exc : Exc) :
  Raising.get_bundled_ollama_dir h = inl exc -> file_system_error h exc.
Proof.
  unfold Raising.get_bundled_ollama_dir, exc_bind.
  destruct (sys_frozen h);
    repeat lazymatch goal with
           | |- match Raising.exists_ h ?p with _ => _ end = _ -> _ =>
               let E := fresh "E" in
               let exc' := fresh "exc" in
               destruct (Raising.exists_ h p) as [exc' | []] eqn:E;
               [apply exists_raises_file_system in E | |]
           end;
    try discriminate; intros H; inversion H; subst; assumption.
Qed.

Lemma dedupe_raises (h : Host) (candidates : list Path) :
  forall seen deduped exc,
    Raising.dedupe h candidates seen deduped = inl exc ->
    file_system_error h exc.
Proof.
  induction candidates as [|c rest IH]; intros seen deduped exc; simpl;
    [discriminate |].
  destruct (existsb (String.eqb (str c)) seen); [apply IH |].
  unfold exc_bind.
  destruct (Raising.exists_ h c) as [exc' | b] eqn:E.
  - apply exists_raises_file_system in E.
    intros H; inversion H; subst; assumption.
  - destruct (b && access_X_OK h c); apply IH.
Qed.

Lemma preferred_raises (h : Host) (selected : option Path) (disk : Disk)
    (exc : Exc) :
  Raising.preferred h selected disk = inl exc -> file_system_error h exc.
Proof.
  unfold Raising.preferred, Raising._load_startup_report_from_disk, exc_bind.
  destruct selected as [p |].
  - destruct (Raising.exists_ h p) as [exc' | b] eqn:E.
    + apply exists_raises_file_system in E.
      intros H; inversion H; subst; assumption.
    + destruct b; [discriminate |].
      destruct (report_path_error h) eqn:Er; [| discriminate].
      intros H; inversion H; subst. now right.
  - destruct (report_path_error h) eqn:Er; [| discriminate].
    intros H; inversion H; subst. now right.
Qed.

(** What the discovery raises, when it raises, is an error of the file
    system. *)
Lemma get_ollama_binary_candidates_raises (h : Host) (selected : option Path)
    (disk : Disk) (exc : Exc) :
  Raising.get_ollama_binary_candidates h selected disk = inl exc ->
  file_system_error h exc.
Proof.
  unfold Raising.get_ollama_binary_candidates.
  unfold exc_bind at 1.
  destruct (Raising.get_bundled_ollama_dir h) as [exc' | d] eqn:Ed.
  { intros H; inversion H; subst. now apply get_bundled_ollama_dir_raises in Ed. }
  unfold exc_bind at 1.
  match goal with
  | |- context [Raising.dedupe h ?c [] []] =>
      destruct (Raising.dedupe h c [] []) as [exc' | deduped] eqn:Eq
  end.
  { intros H; inversion H; subst. now apply dedupe_raises in Eq. }
  destruct (nonempty (getenv h "OPENSCRIBE_OLLAMA_BINARY")); [discriminate |].
  destruct (prefer_system h && match deduped with [] => false | _ => true end);
    unfold exc_bind; simpl.
  - destruct (Raising.preferred h selected disk) as [exc' | pref] eqn:Ep;
      [| discriminate].
    intros H; inversion H; subst. now apply preferred_raises in Ep.
  - destruct (Raising.preferred h selected disk) as [exc' | pref] eqn:Ep;
      [| discriminate].
    intros H; inversion H; subst. now apply preferred_raises in Ep.
Qed.

(** On a host whose file system gives no error, the discovery answers what
    [get_ollama_binary_candidates] of BinaryLocator says. *)
Lemma get_ollama_binary_candidates_total (h : Host) (selected : option Path)
    (disk : Disk) :
  (forall exc, ~ file_system_error h exc) ->
  Raising.get_ollama_binary_candidates h selected disk
  = inr (get_ollama_binary_candidates h selected disk).
Proof.
  intros Hok.
  destruct (Raising.get_ollama_binary_candidates h selected disk)
    as [exc | l] eqn:E.
  - now apply get_ollama_binary_candidates_raises, Hok in E.
  - now rewrite (get_ollama_binary_candidates_answers _ _ _ _ E).
Qed.

(** ** Runs *)

#[local] Arguments Z.mul : simpl never.
#[local] Arguments Z.add : simpl never.
#[local] Arguments Z.sub : simpl never.
#[local] Arguments Z.max : simpl never.
#[local] Arguments Z.quot : simpl never.
#[local] Arguments Z.of_N : simpl never.
#[local] Arguments Z.of_nat : simpl never.
#[local] Arguments Z.ltb : simpl never.

Lemma wp_run {A : Type} (t : Tid) (p : Prog A) (Q : A -> State -> Prop) :
  forall s, wp t p Q s <-> exists a s', run t p s = (Some a, s') /\ Q a s'.
Proof.
  induction p as [a | | e k IH]; intros s; simpl.
  - split; [intros H; now exists a, s | intros [a' [s' [E H]]]; now inversion E].
  - split; [tauto | intros [a' [s' [E H]]]; discriminate].
  - rewrite IH. destruct (handle t e s) as [x s1]. reflexivity.
Qed.

Lemma wp_bind {A B : Type} (t : Tid) (p : Prog A) (f : A -> Prog B)
    (Q : B -> State -> Prop) :
  forall s, wp t (bind p f) Q s <-> wp t p (fun a s' => wp t (f a) Q s') s.
Proof.
  induction p as [a | | e k IH]; intros s; simpl; try reflexivity. apply IH.
Qed.


Lemma wp_mono {A : Type} (t : Tid) (p : Prog A) (Q Q' : A -> State -> Prop) :
  (forall a s', Q a s' -> Q' a s') -> forall s, wp t p Q s -> wp t p Q' s.
Proof.
  intros HQ. induction p as [a | | e k IH]; intros s; simpl; auto.
Qed.

(** ** HealthChecker *)

(** C8: the health check asks the version endpoint first and the tags
    endpoint second, the second only when the first did not succeed, each
    with a 1.5 s timeout; it answers true exactly when one of the requests
    it made came back with a 2xx status, and a request that raised counts as
    a failed one: the check itself always returns a boolean. *)
Theorem is_ollama_running_two_endpoints :
  forall (t : Tid) (s : State),
    let first := w_urlopen (world s) (tick s) OLLAMA_VERSION_URL in
    let second := w_urlopen (world s) (S (tick s)) OLLAMA_HEALTH_URL in
    exists s',
      run t is_ollama_running s
      = (Some (status_ok first || (negb (status_ok first) && status_ok second)), s')
      /\ log s'
         = (if status_ok first
            then [EvHttp t OLLAMA_VERSION_URL 1500 first]
            else [EvHttp t OLLAMA_HEALTH_URL 1500 second;
                  EvHttp t OLLAMA_VERSION_URL 1500 first]) ++ log s
      /\ status_ok HttpRaised = false
      /\ (forall status, status_ok (HttpResponse status) = true
                         <-> 200 <= status < 300).
Proof.
  intros t s first second. unfold is_ollama_running, _http_get_ok. simpl.
  fold first.
  destruct (status_ok first) eqn:E1; simpl.
  - eexists. repeat split; intros; simpl in *; lia.
  - fold second. eexists. repeat split; intros; simpl in *; lia.
Qed.

(** ** Frames *)

Lemma frame_refl (s : State) : Frame s s [].
Proof. unfold Frame. simpl. repeat split; lia. Qed.

Lemma lock_after_app (n2 n1 : list Entry) (l : option Tid) :
  lock_after (n2 ++ n1) l = lock_after n2 (lock_after n1 l).
Proof.
  induction n2 as [|e n2 IH]; simpl; [reflexivity |].
  destruct e; try apply IH; try reflexivity. destruct acquired; [reflexivity | apply IH].
Qed.

Lemma selected_after_app (n2 n1 : list Entry) (l : option Path) :
  selected_after (n2 ++ n1) l = selected_after n2 (selected_after n1 l).
Proof.
  induction n2 as [|e n2 IH]; simpl; [reflexivity |].
  destruct e; try apply IH; reflexivity.
Qed.

Lemma report_after_app (n2 n1 : list Entry) (l : Dict) :
  report_after (n2 ++ n1) l = report_after n2 (report_after n1 l).
Proof.
  induction n2 as [|e n2 IH]; simpl; [reflexivity |].
  destruct e; try apply IH; reflexivity.
Qed.

Lemma frame_trans (s s1 s2 : State) (n1 n2 : list Entry) :
  Frame s s1 n1 -> Frame s1 s2 n2 -> Frame s s2 (n2 ++ n1).
Proof.
  intros (L1 & C1 & K1 & S1 & R1) (L2 & C2 & K2 & S2 & R2).
  unfold Frame.
  rewrite lock_after_app, selected_after_app, report_after_app.
  rewrite L2, L1, K2, K1, S2, S1, R2, R1, app_assoc.
  repeat split; lia.
Qed.

Ltac frame_now :=
  unfold Frame; simpl; repeat split; try reflexivity; try lia.

(** ** The startup lock *)

Lemma acquire_loop_spec (t : Tid) (fuel : nat) :
  forall (s : State) (start timeout_ms : Z) (Q : bool -> State -> Prop),
    (1 <= fuel)%nat ->
    timeout_ms - (clock s - start) + 100 <= 100 * Z.of_nat fuel ->
    (forall acquired s' new,
        Frame s s' new ->
        acquire_shape t (_startup_lock s) acquired new ->
        (acquired = false -> timeout_ms <= clock s' - start) ->
        Q acquired s') ->
    wp t (acquire_loop fuel start timeout_ms) Q s.
Proof.
  induction fuel as [|fuel IH]; intros s start timeout_ms Q Hf Hb HQ; [lia |].
  simpl.
  destruct (clock s - start <? timeout_ms) eqn:Ein; simpl.
  - destruct (_startup_lock s) as [o |] eqn:El; simpl.
    + apply IH.
      * apply Z.ltb_lt in Ein. rewrite Nat2Z.inj_succ in Hb. lia.
      * simpl. apply Z.ltb_lt in Ein. rewrite Nat2Z.inj_succ in Hb. lia.
      * intros acquired s' new Hfr Hsh Hlate. simpl in Hsh. rewrite El in Hsh.
        apply (HQ acquired s' (new ++ [EvAcquire t false])).
        -- eapply frame_trans; [| exact Hfr]. frame_now.
        -- unfold acquire_shape in *. destruct acquired.
           ++ destruct Hsh; discriminate.
           ++ rewrite forallb_app, Hsh. simpl. now rewrite Nat.eqb_refl.
        -- exact Hlate.
    + apply (HQ true _ [EvAcquire t true]); [frame_now | now split | discriminate].
  - apply (HQ false _ []); [frame_now | reflexivity |].
    intros _. apply Z.ltb_ge in Ein. simpl. lia.
Qed.

(** ** Building blocks of the supervisor *)

Lemma wp_bind_intro {A B : Type} (t : Tid) (p : Prog A) (f : A -> Prog B)
    (Q : B -> State -> Prop) (s : State) :
  wp t p (fun a s' => wp t (f a) Q s') s -> wp t (bind p f) Q s.
Proof. apply wp_bind. Qed.

Lemma is_ollama_running_spec (t : Tid) (s : State) (Q : bool -> State -> Prop) :
  (forall running s' new,
      Frame s s' new -> forallb is_http new = true ->
      healthy_head new = running -> Q running s') ->
  wp t is_ollama_running Q s.
Proof.
  intros HQ. unfold is_ollama_running, _http_get_ok. simpl.
  destruct (status_ok (w_urlopen (world s) (tick s) OLLAMA_VERSION_URL)) eqn:E1;
    simpl.
  - apply (HQ true _ [EvHttp t OLLAMA_VERSION_URL 1500
                         (w_urlopen (world s) (tick s) OLLAMA_VERSION_URL)]);
      [frame_now | reflexivity | exact E1].
  - apply (HQ _ _ [EvHttp t OLLAMA_HEALTH_URL 1500
                     (w_urlopen (world s) (S (tick s)) OLLAMA_HEALTH_URL);
                   EvHttp t OLLAMA_VERSION_URL 1500
                     (w_urlopen (world s) (tick s) OLLAMA_VERSION_URL)]);
      [frame_now | reflexivity | reflexivity].
Qed.

Lemma timestamp_spec (t : Tid) (s : State) (Q : Value -> State -> Prop) :
  (forall ts s', Frame s s' [] -> Q ts s') -> wp t timestamp Q s.
Proof. intros HQ. unfold timestamp. simpl. apply HQ. frame_now. Qed.

Lemma set_startup_report_spec (t : Tid) (report : Dict) (s : State)
    (Q : unit -> State -> Prop) :
  (forall s', Frame s s' [EvReport t report] -> Q tt s') ->
  wp t (_set_startup_report report) Q s.
Proof. intros HQ. unfold _set_startup_report. simpl. apply HQ. frame_now. Qed.

Lemma probe_spec (t : Tid) (binary : Path) (timeout : Z) (s : State)
    (Q : Exc + Dict -> State -> Prop) :
  (forall exc s', Frame s s' [] -> Q (inl exc) s') ->
  (forall probe s', Frame s s' [EvProbe t binary] -> Q (inr probe) s') ->
  wp t (probe_ollama_binary binary timeout) Q s.
Proof.
  intros HE HQ. unfold probe_ollama_binary. simpl.
  destruct (Raising.get_ollama_env (host s) (Some binary)) as [exc | env]; simpl.
  - apply HE. frame_now.
  - destruct (w_run (world s) (S (S (tick s))) binary); simpl;
      apply HQ; frame_now.
Qed.

Lemma poll_spec (t : Tid) (proc : Proc) (s : State) (Q : Proc -> State -> Prop) :
  (forall proc' s', Frame s s' [] -> pid proc' = pid proc -> Q proc' s') ->
  wp t (poll proc) Q s.
Proof.
  intros HQ. unfold poll. destruct (returncode proc); simpl.
  - apply HQ; [apply frame_refl | reflexivity].
  - apply HQ; [frame_now | reflexivity].
Qed.

Lemma terminate_spec (t : Tid) (proc : Proc) (s : State)
    (Q : unit -> State -> Prop) :
  (forall s' new, Frame s s' new -> forallb is_plain new = true ->
                  last_spawned new = None -> Q tt s') ->
  wp t (terminate_proc proc) Q s.
Proof.
  intros HQ. unfold terminate_proc. simpl.
  destruct (w_terminate (world s) (tick s) (pid proc)); simpl.
  - destruct (w_wait (world s) (S (tick s)) (pid proc)); simpl.
    + apply (HQ _ [EvTerminate t (pid proc)]);
        [frame_now | reflexivity | reflexivity].
    + apply (HQ _ [EvKill t (pid proc); EvTerminate t (pid proc)]);
        [frame_now | reflexivity | reflexivity].
  - apply (HQ _ [EvKill t (pid proc); EvTerminate t (pid proc)]);
      [frame_now | reflexivity | reflexivity].
Qed.

Lemma http_is_plain (new : list Entry) :
  forallb is_http new = true -> forallb is_plain new = true.
Proof.
  induction new as [|e new IH]; simpl; [reflexivity |].
  rewrite !andb_true_iff. intros [He Hn]. split; [| now apply IH].
  destruct e; try discriminate; reflexivity.
Qed.

Lemma http_last_spawned (new old : list Entry) :
  forallb is_http new = true -> last_spawned (new ++ old) = last_spawned old.
Proof.
  induction new as [|e new IH]; simpl; [reflexivity |].
  rewrite andb_true_iff. intros [He Hn]. destruct e; try discriminate.
  now apply IH.
Qed.
Lemma is_ollama_running_state (t : Tid) (s : State) :
  exists s1 new,
    run t is_ollama_running s = (Some (healthy_head new), s1)
    /\ Frame s s1 new
    /\ forallb is_http new = true
    /\ host s1 = host s /\ world s1 = world s /\ disk s1 = disk s.
Proof.
  unfold is_ollama_running, _http_get_ok. simpl.
  destruct (status_ok (w_urlopen (world s) (tick s) OLLAMA_VERSION_URL)) eqn:E1;
    simpl.
  - exists (advance 0 (add_log (EvHttp t OLLAMA_VERSION_URL 1500
                                  (w_urlopen (world s) (tick s) OLLAMA_VERSION_URL)) s)),
           [EvHttp t OLLAMA_VERSION_URL 1500
              (w_urlopen (world s) (tick s) OLLAMA_VERSION_URL)].
    simpl. rewrite E1. repeat split; frame_now.
  - eexists _,
           [EvHttp t OLLAMA_HEALTH_URL 1500
              (w_urlopen (world s) (S (tick s)) OLLAMA_HEALTH_URL);
            EvHttp t OLLAMA_VERSION_URL 1500
              (w_urlopen (world s) (tick s) OLLAMA_VERSION_URL)].
    simpl. repeat split; frame_now.
Qed.

Opaque is_ollama_running timestamp _set_startup_report probe_ollama_binary
       poll terminate_proc.

Ltac base_of b :=
  lazymatch b with
  | advance _ ?x => base_of x
  | add_log _ ?x => base_of x
  | set_lock _ ?x => base_of x
  | set_selected _ ?x => base_of x
  | set_report _ ?x => base_of x
  | set_disk _ ?x => base_of x
  | ?x => x
  end.

Ltac strip_log l base :=
  lazymatch l with
  | base => constr:(@nil Entry)
  | ?e :: ?r => let r' := strip_log r base in constr:(e :: r')
  end.

(** [Frame a b ?n], for [b] built from [a] by the handler. *)
Ltac frame_concrete :=
  lazymatch goal with
  | |- Frame ?a ?b ?n =>
      let l := eval simpl in (log b) in
      let l0 := eval simpl in (log a) in
      let new := strip_log l l0 in
      unify n new; frame_now
  end.

(** [Frame a b ?n], through the frames in the context. *)
Ltac frame_auto :=
  lazymatch goal with
  | |- Frame ?a ?a _ => apply frame_refl
  | |- Frame ?a ?b _ =>
      let m := base_of b in
      first
        [ constr_eq m b;
          lazymatch goal with
          | H : Frame ?c b _ |- _ =>
              eapply (frame_trans a c b); [| exact H]; frame_auto
          end
        | eapply (frame_trans a m b); [| frame_concrete]; frame_auto ]
  end.

(** [Frame a b n], for a given [n]. *)
Ltac frame_exact :=
  lazymatch goal with
  | |- Frame ?a ?b _ =>
      let F := fresh in
      eassert (F : Frame a b _) by frame_auto;
      simpl in F; rewrite ?app_nil_r in F; exact F
  end.

Lemma wait_ready_spec (t : Tid) (candidate : Path) (fuel : nat) :
  forall (s : State) (proc : Proc) (start_time timeout : Z)
         (attempts : list Dict)
         (Q : list Dict * Proc * Completion -> State -> Prop),
    (1 <= fuel)%nat ->
    timeout * 1000 - (clock s - start_time) + 500 <= 500 * Z.of_nat fuel ->
    (forall attempts' proc' completion s' new,
        Frame s s' new ->
        wait_shape t candidate completion new ->
        Q (attempts', proc', completion) s') ->
    wp t (wait_ready fuel candidate proc start_time timeout attempts) Q s.
Proof.
  induction fuel as [|fuel IH]; intros s proc start_time timeout attempts Q Hf Hb HQ;
    [lia |].
  simpl.
  destruct (clock s - start_time <? timeout * 1000) eqn:Ein.
  - apply Z.ltb_lt in Ein. rewrite Nat2Z.inj_succ in Hb.
    apply wp_bind_intro, is_ollama_running_spec.
    intros running s1 n1 F1 H1 R1.
    destruct running.
    + simpl. apply wp_bind_intro, timestamp_spec. intros ts s2 F2.
      apply wp_bind_intro, set_startup_report_spec. intros s3 F3.
      simpl. eapply HQ; [frame_auto |].
      simpl. rewrite ?app_nil_r. do 2 eexists. repeat split; eauto.
    + simpl. apply wp_bind_intro, poll_spec. intros proc1 s2 F2 _.
      destruct (returncode proc1) as [rc |]; simpl.
      * eapply HQ; [frame_auto |]. simpl. now rewrite ?app_nil_r.
      * apply IH; [lia | |].
        -- destruct F1 as (_ & C1 & _), F2 as (_ & C2 & _). simpl in *. lia.
        -- intros attempts' proc' completion s' new F3 Hsh.
           eapply HQ; [frame_auto |].
           simpl. rewrite ?app_nil_r.
           destruct completion as [| [|] |]; simpl in *; try contradiction.
           ++ now rewrite forallb_app, Hsh, H1.
           ++ destruct Hsh as (report & new' & -> & Hh & Hd & Hs).
              exists report, (new' ++ n1). repeat split; try assumption.
              ** now rewrite forallb_app, Hh, H1.
              ** destruct new'; [discriminate | exact Hd].
  - simpl. eapply HQ; [frame_auto | reflexivity].
Qed.

Lemma healthy_head_app (n p : list Entry) :
  healthy_head n = true -> healthy_head (n ++ p) = true.
Proof. destruct n; [discriminate | trivial]. Qed.

Lemma spawned_head_app (n p : list Entry) (c : Path) :
  spawned_head n c = true -> spawned_head (n ++ p) c = true.
Proof. destruct n; [discriminate | trivial]. Qed.

Lemma last_spawned_app (n p : list Entry) (c : Path) :
  last_spawned n = Some c -> last_spawned (n ++ p) = Some c.
Proof.
  induction n as [|e n IH]; simpl; [discriminate |].
  destruct e; auto. destruct r; auto.
Qed.

Lemma try_shape_app (t : Tid) (wait : bool) (completion : Completion)
    (n p : list Entry) :
  try_shape t wait completion n -> forallb is_plain p = true ->
  try_shape t wait completion (n ++ p).
Proof.
  intros Hn Hp.
  assert (Hplain : forall l, forallb is_plain l = true ->
                             forallb is_plain (l ++ p) = true).
  { intros l Hl. now rewrite forallb_app, Hl, Hp. }
  destruct completion as [| [|] |]; simpl in *; auto.
  destruct Hn as (report & candidate & new' & -> & Hpl & Hs & Hw).
  exists report, candidate, (new' ++ p). repeat split; auto.
  destruct wait.
  - destruct Hw. split; [now apply healthy_head_app | now apply last_spawned_app].
  - now apply spawned_head_app.
Qed.

Lemma try_candidates_spec (t : Tid) (fuel : nat) (wait : bool) (timeout : Z) :
  (1 <= fuel)%nat ->
  2 * timeout + 1 <= Z.of_nat fuel ->
  forall (candidates : list Path) (s : State) (attempts : list Dict)
         (Q : list Dict * Completion -> State -> Prop),
    (forall attempts' completion s' new,
        Frame s s' new ->
        try_shape t wait completion new ->
        Q (attempts', completion) s') ->
    wp t (try_candidates fuel wait timeout candidates attempts) Q s.
Proof.
  intros Hf Hb.
  induction candidates as [|candidate rest IH]; intros s attempts Q HQ; simpl.
  - eapply HQ; [apply frame_refl | reflexivity].
  - apply wp_bind_intro, probe_spec; [intros exc s1 F1 | intros probe s1 F1].
    { simpl. eapply HQ; [exact F1 | reflexivity]. }
    destruct (negb (truthy (dict_get probe "ok"))).
    + apply IH. intros attempts' completion s' new F2 Hsh.
      eapply HQ; [frame_auto |]. now apply try_shape_app.
    + simpl.
      destruct (Raising.get_ollama_env (host s1) (Some candidate))
        as [exc | env]; simpl.
      { eapply HQ; [frame_auto | reflexivity]. }
      destruct (w_popen (world s1) (S (tick s1)) candidate) as [new_pid | msg] eqn:Ep;
        simpl.
      * destruct wait; simpl.
        -- apply wp_bind_intro, wait_ready_spec; [exact Hf | |].
           { destruct F1 as (_ & C1 & _). simpl. lia. }
           intros attempts1 proc1 completion s2 n2 F2 Hw. simpl.
           destruct completion as [| [|] |]; simpl in Hw; try contradiction.
           ++ apply wp_bind_intro, poll_spec. intros proc2 s3 F3 _.
              destruct (returncode proc2).
              ** apply IH. intros attempts' completion s' new F4 Hsh.
                 eapply HQ; [frame_auto |].
                 rewrite ?app_nil_r, <- ?app_assoc.
                 apply try_shape_app; [exact Hsh |]. simpl.
                 now rewrite !forallb_app, (http_is_plain _ Hw).
              ** apply wp_bind_intro, terminate_spec. intros s4 n4 F4 Hp4 _.
                 apply IH. intros attempts' completion s' new F5 Hsh.
                 eapply HQ; [frame_auto |].
                 rewrite ?app_nil_r, <- ?app_assoc.
                 apply try_shape_app; [exact Hsh |].
                 simpl.
                 now rewrite !forallb_app, Hp4, (http_is_plain _ Hw).
           ++ simpl. eapply HQ; [frame_auto |].
              destruct Hw as (report & new' & -> & Hh & Hd & Hs).
              simpl. rewrite ?app_nil_r.
              exists report, candidate, (new' ++ [EvSpawn t candidate (_startup_lock s1) (PopenStarted new_pid); EvProbe t candidate]).
              repeat split.
              ** now rewrite forallb_app, (http_is_plain _ Hh).
              ** exact Hs.
              ** now apply healthy_head_app.
              ** now rewrite http_last_spawned.
        -- apply wp_bind_intro, timestamp_spec. intros ts s2 F2.
           apply wp_bind_intro, set_startup_report_spec. intros s3 F3. simpl.
           eapply HQ; [frame_auto |]. simpl. rewrite ?app_nil_r.
           do 3 eexists. repeat split; simpl; eauto.
           apply String.eqb_refl.
      * eapply HQ; [frame_auto |]. reflexivity.
Qed.

Opaque acquire_loop wait_ready try_candidates.

(** ** What the entries do to the globals *)

Lemma plain_is_quiet (l : list Entry) :
  forallb is_plain l = true -> forallb is_quiet l = true.
Proof.
  induction l as [|e l IH]; simpl; [reflexivity |].
  rewrite !andb_true_iff. intros [He Hl]. split; [| now apply IH].
  destruct e; try discriminate; reflexivity.
Qed.

Lemma failed_acquire_is_quiet (t : Tid) (l : list Entry) :
  forallb (is_failed_acquire t) l = true -> forallb is_quiet l = true.
Proof.
  induction l as [|e l IH]; simpl; [reflexivity |].
  rewrite !andb_true_iff. intros [He Hl]. split; [| now apply IH].
  destruct e; try discriminate. destruct acquired; [discriminate | reflexivity].
Qed.

Lemma quiet_lock_after (l : list Entry) (before : option Tid) :
  forallb is_quiet l = true -> lock_after l before = before.
Proof.
  induction l as [|e l IH]; simpl; [reflexivity |].
  rewrite andb_true_iff. intros [He Hl].
  destruct e; try discriminate; auto. destruct acquired; [discriminate | auto].
Qed.

Lemma quiet_report_after (l : list Entry) (before : Dict) :
  forallb is_quiet l = true -> report_after l before = before.
Proof.
  induction l as [|e l IH]; simpl; [reflexivity |].
  rewrite andb_true_iff. intros [He Hl]. destruct e; try discriminate; auto.
Qed.

Lemma quiet_selected_after (l : list Entry) (before : option Path) :
  forallb is_quiet l = true -> selected_after l before = before.
Proof.
  induction l as [|e l IH]; simpl; [reflexivity |].
  rewrite andb_true_iff. intros [He Hl]. destruct e; try discriminate; auto.
Qed.

Lemma quiet_selects_ok (wait : bool) (l old : list Entry) :
  forallb is_quiet l = true -> selects_ok wait (l ++ old) = selects_ok wait old.
Proof.
  induction l as [|e l IH]; simpl; [reflexivity |].
  rewrite andb_true_iff. intros [He Hl].
  destruct wait; destruct e; try discriminate; simpl in *; auto.
Qed.

Lemma ready_selects_ok (t : Tid) (wait : bool) (new old : list Entry) :
  ready_shape t wait new ->
  selects_ok wait old = true -> selects_ok wait (new ++ old) = true.
Proof.
  intros (report & candidate & new' & -> & Hp & _ & Hw) Hold.
  pose proof (quiet_selects_ok wait new' old (plain_is_quiet _ Hp)) as Hq.
  destruct wait; simpl in *.
  - destruct Hw as [Hh Hl].
    rewrite (healthy_head_app _ _ Hh), (last_spawned_app _ _ _ Hl). simpl.
    now rewrite String.eqb_refl, Hq.
  - now rewrite (spawned_head_app _ _ _ Hw), Hq.
Qed.

(** ** The supervisor *)

Lemma outcome_report_quiet (t : Tid) (wait : bool) (lock_before : option Tid)
    (b : bool) (report : Dict) (q : list Entry) :
  forallb is_quiet q = true ->
  dict_get report "success" = Some (VBool b) ->
  outcome t wait lock_before b (EvReport t report :: q).
Proof.
  intros Hq Hs. split; [| split].
  - exists report. split; [now left | split; [reflexivity | exact Hs]].
  - simpl. now apply quiet_lock_after.
  - intros old Hold.
    assert (E : selects_ok wait ((EvReport t report :: q) ++ old)
                = selects_ok wait (q ++ old)) by (destruct wait; reflexivity).
    now rewrite E, quiet_selects_ok.
Qed.

Lemma report_quiet_selects (t : Tid) (wait : bool) (report : Dict)
    (q old : list Entry) :
  forallb is_quiet q = true ->
  selects_ok wait old = true ->
  selects_ok wait ((EvReport t report :: q) ++ old) = true.
Proof.
  intros Hq Hold.
  assert (E : selects_ok wait ((EvReport t report :: q) ++ old)
              = selects_ok wait (q ++ old)) by (destruct wait; reflexivity).
  now rewrite E, quiet_selects_ok.
Qed.

(** The entries of a locked section [body] that ended with a report, between
    the acquisition and the release of the lock. *)
Lemma outcome_locked (t : Tid) (wait : bool) (b : bool) (report : Dict)
    (body q1 : list Entry) :
  forallb is_quiet q1 = true ->
  In (EvReport t report) body ->
  (forall before, report_after body before = report) ->
  dict_get report "success" = Some (VBool b) ->
  (forall old, selects_ok wait old = true -> selects_ok wait (body ++ old) = true) ->
  outcome t wait None b (EvRelease t :: body ++ EvAcquire t true :: q1).
Proof.
  intros Hq Hin Hr Hs Hsel. split; [| split].
  - exists report. split; [right; apply in_or_app; now left |].
    split; [| exact Hs]. intros before. simpl.
    change (EvAcquire t true :: q1) with ([EvAcquire t true] ++ q1).
    now rewrite report_after_app.
  - reflexivity.
  - intros old Hold.
    assert (E : selects_ok wait ((EvRelease t :: body ++ EvAcquire t true :: q1) ++ old)
                = selects_ok wait (body ++ (EvAcquire t true :: q1 ++ old))).
    { simpl. rewrite <- app_assoc. simpl. destruct wait; reflexivity. }
    rewrite E. apply Hsel.
    assert (E2 : selects_ok wait (EvAcquire t true :: q1 ++ old)
                 = selects_ok wait (q1 ++ old)) by (destruct wait; reflexivity).
    now rewrite E2, quiet_selects_ok.
Qed.

Lemma outcome_locked_report (t : Tid) (wait : bool) (b : bool) (report : Dict)
    (q2 q1 : list Entry) :
  forallb is_quiet q1 = true ->
  forallb is_quiet q2 = true ->
  dict_get report "success" = Some (VBool b) ->
  outcome t wait None b
    (EvRelease t :: EvReport t report :: q2 ++ EvAcquire t true :: q1).
Proof.
  intros H1 H2 Hs.
  apply (outcome_locked t wait b report (EvReport t report :: q2) q1); auto.
  - now left.
  - intros. now apply report_quiet_selects.
Qed.

(** The same when the section raised: the report comes after the release. *)
Lemma outcome_raised (t : Tid) (wait : bool) (b : bool) (report : Dict)
    (body q1 : list Entry) :
  forallb is_quiet q1 = true ->
  forallb is_quiet body = true ->
  dict_get report "success" = Some (VBool b) ->
  outcome t wait None b
    (EvReport t report :: EvRelease t :: body ++ EvAcquire t true :: q1).
Proof.
  intros Hq Hb Hs. split; [| split].
  - exists report. split; [now left | split; [reflexivity | exact Hs]].
  - reflexivity.
  - intros old Hold.
    assert (E : selects_ok wait
                  ((EvReport t report :: EvRelease t :: body ++ EvAcquire t true :: q1) ++ old)
                = selects_ok wait (body ++ (EvAcquire t true :: q1 ++ old))).
    { simpl. rewrite <- app_assoc. simpl. destruct wait; reflexivity. }
    rewrite E, quiet_selects_ok by exact Hb.
    assert (E2 : selects_ok wait (EvAcquire t true :: q1 ++ old)
                 = selects_ok wait (q1 ++ old)) by (destruct wait; reflexivity).
    now rewrite E2, quiet_selects_ok.
Qed.

Lemma is_ollama_running_full (t : Tid) (s : State) (Q : bool -> State -> Prop) :
  (forall running s' new,
      Frame s s' new -> forallb is_http new = true ->
      healthy_head new = running ->
      host s' = host s -> disk s' = disk s ->
      fst (run t is_ollama_running s) = Some running ->
      Q running s') ->
  wp t is_ollama_running Q s.
Proof.
  intros HQ. apply wp_run.
  destruct (is_ollama_running_state t s) as (s1 & new & E & F & H & Hh & _ & Hd).
  exists (healthy_head new), s1. split; [exact E |].
  apply (HQ _ _ new); auto. now rewrite E.
Qed.

(** What a call of [start_ollama_server] leaves, by the way it ends: with
    a boolean, or with the exception that the discovery of the candidates
    raised, which happens before anything but health requests. *)
Lemma start_ollama_server_spec (t : Tid) (fuel : nat) (wait : bool)
    (timeout : Z) (s : State) (Q : Completion -> State -> Prop) :
  (201 <= fuel)%nat ->
  2 * timeout + 1 <= Z.of_nat fuel ->
  (forall b s' new,
      Frame s s' new ->
      outcome t wait (_startup_lock s) b new ->
      Q (Return b) s') ->
  (forall exc s' new,
      Frame s s' new ->
      forallb is_http new = true ->
      fst (run t is_ollama_running s) = Some false ->
      Raising.get_ollama_binary_candidates (host s) (_selected_ollama_binary s)
        (disk s) = inl exc ->
      Q (Raise exc) s') ->
  wp t (start_ollama_server fuel wait timeout) Q s.
Proof.
  intros Hf Hb HQ HE. unfold start_ollama_server.
  apply wp_bind_intro, is_ollama_running_full.
  intros running s1 n1 F1 H1 R1 Hh1 Hd1 Hrun1.
  pose proof (plain_is_quiet _ (http_is_plain _ H1)) as Q1.
  destruct running.
  - apply wp_bind_intro, timestamp_spec. intros ts s2 F2.
    apply wp_bind_intro, set_startup_report_spec. intros s3 F3. simpl.
    eapply HQ; [frame_auto |]. simpl. rewrite app_nil_r.
    now apply outcome_report_quiet.
  - simpl.
    assert (Hsel1 : _selected_ollama_binary s1 = _selected_ollama_binary s).
    { destruct F1 as (_ & _ & _ & K & _). rewrite K.
      now apply quiet_selected_after. }
    rewrite Hh1, Hsel1, Hd1.
    destruct (Raising.get_ollama_binary_candidates (host s)
                (_selected_ollama_binary s) (disk s)) as [exc | [|c cs]] eqn:Ec.
    { simpl. eapply HE; [frame_exact | exact H1 | exact Hrun1 | reflexivity]. }
    + apply wp_bind_intro, timestamp_spec. intros ts s2 F2.
      apply wp_bind_intro, set_startup_report_spec. intros s3 F3. simpl.
      eapply HQ; [frame_auto |]. simpl. rewrite app_nil_r.
      now apply outcome_report_quiet.
    + unfold _with_startup_lock. simpl.
      do 2 apply wp_bind_intro. apply acquire_loop_spec; [lia | simpl; lia |].
      intros acquired s2 n2 F2 Ha _.
      assert (L1 : _startup_lock s1 = _startup_lock s).
      { destruct F1 as (_ & _ & K & _). rewrite K. now apply quiet_lock_after. }
      simpl in Ha. rewrite L1 in Ha.
      destruct acquired; simpl.
      * destruct Ha as [L0 ->]. rewrite L0 in *.
        apply wp_bind_intro. unfold locked_section.
        apply wp_bind_intro, is_ollama_running_spec. intros running s3 n3 F3 H3 R3.
        pose proof (plain_is_quiet _ (http_is_plain _ H3)) as Q3.
        destruct running.
        -- apply wp_bind_intro, timestamp_spec. intros ts s4 F4.
           apply wp_bind_intro, set_startup_report_spec. intros s5 F5. simpl.
           eapply HQ; [frame_auto |]. simpl. rewrite ?app_nil_r.
           now apply outcome_locked_report.
        -- apply wp_bind_intro, try_candidates_spec; [lia | exact Hb |].
           intros attempts completion s4 n4 F4 Hsh.
           destruct completion as [| [|] | exc]; simpl in Hsh; try contradiction.
           ++ pose proof (plain_is_quiet _ Hsh) as Q4.
              apply wp_bind_intro, timestamp_spec. intros ts s5 F5.
              apply wp_bind_intro, set_startup_report_spec. intros s6 F6. simpl.
              eapply HQ; [frame_auto |]. simpl. rewrite ?app_nil_r.
              rewrite app_assoc. apply outcome_locked_report; auto.
              now rewrite forallb_app, Q4, Q3.
           ++ simpl. eapply HQ; [frame_auto |]. simpl. rewrite ?app_nil_r.
              pose proof Hsh as (report & candidate & new' & E4 & Hp & Hs & Hw).
              rewrite app_assoc.
              apply (outcome_locked t wait true report (n4 ++ n3) n1); auto.
              ** apply in_or_app. left. rewrite E4. now left.
              ** intros before. rewrite E4. reflexivity.
              ** intros old Hold. rewrite <- app_assoc.
                 apply (ready_selects_ok t); [exact Hsh |].
                 now rewrite quiet_selects_ok.
           ++ pose proof (plain_is_quiet _ Hsh) as Q4. simpl.
              apply wp_bind_intro, timestamp_spec. intros ts s5 F5.
              apply wp_bind_intro, set_startup_report_spec. intros s6 F6. simpl.
              eapply HQ; [frame_auto |]. simpl. rewrite ?app_nil_r.
              rewrite app_assoc.
              apply outcome_raised; auto.
              now rewrite forallb_app, Q4, Q3.
      * apply wp_bind_intro, timestamp_spec. intros ts s3 F3.
        apply wp_bind_intro, set_startup_report_spec. intros s4 F4. simpl.
        eapply HQ; [frame_auto |]. simpl. rewrite ?app_nil_r.
        apply outcome_report_quiet; [| reflexivity].
        now rewrite forallb_app, (failed_acquire_is_quiet t _ Ha), Q1.
Qed.

Lemma http_only (l : list Entry) :
  forallb is_http l = true ->
  existsb is_lock_event l = false /\ existsb is_probe l = false
  /\ existsb is_spawn l = false.
Proof.
  induction l as [|e l IH]; simpl; [auto |].
  rewrite andb_true_iff. intros [He Hl]. destruct e; try discriminate.
  simpl. now apply IH.
Qed.

Lemma frame_http_selected (s s1 : State) (n : list Entry) :
  Frame s s1 n -> forallb is_http n = true ->
  _selected_ollama_binary s1 = _selected_ollama_binary s
  /\ _startup_lock s1 = _startup_lock s.
Proof.
  intros (_ & _ & K & S & _) H.
  pose proof (plain_is_quiet _ (http_is_plain _ H)) as Hq.
  now rewrite K, S, quiet_lock_after, quiet_selected_after.
Qed.

Lemma get_last_startup_report_in_memory (t : Tid) (s : State) :
  _last_startup_report s <> [] ->
  fst (run t get_last_startup_report s) = Some (inr (_last_startup_report s)).
Proof.
  intros Hne. unfold get_last_startup_report. simpl.
  destruct (_last_startup_report s); [contradiction | reflexivity].
Qed.





(** C3, as the code has it: when the runtime does not answer and the
    discovery finds no candidate, [start_ollama_server] returns false with the report's
    error set to "binary_not_found"; it does so without touching the startup
    lock and without probing or starting anything. *)
Theorem no_candidates_binary_not_found :
  forall (t : Tid) (s : State) (fuel : nat) (wait : bool) (timeout : Z),
    fst (run t is_ollama_running s) = Some false ->
    Raising.get_ollama_binary_candidates (host s) (_selected_ollama_binary s)
      (disk s) = inr [] ->
    exists (s' : State) (report : Dict) (new : list Entry),
      run t (start_ollama_server fuel wait timeout) s = (Some (Return false), s')
      /\ _last_startup_report s' = report
      /\ dict_get report "success" = Some (VBool false)
      /\ dict_get report "error" = Some (VStr "binary_not_found")
      /\ fst (run t get_last_startup_report s') = Some (inr report)
      /\ log s' = new ++ log s
      /\ existsb is_lock_event new = false
      /\ existsb is_probe new = false
      /\ existsb is_spawn new = false
      /\ _startup_lock s' = _startup_lock s.
Proof.
  intros t s fuel wait timeout Hnr Hc.
  destruct (is_ollama_running_state t s) as (s1 & n1 & Hrun & F1 & H1 & Hh & _ & Hd).
  rewrite Hrun in Hnr. simpl in Hnr. injection Hnr as Hhead.
  destruct (frame_http_selected _ _ _ F1 H1) as [Hsel Hlock].
  destruct (http_only _ H1) as (Nl & Np & Ns).
  assert (W : wp t (start_ollama_server fuel wait timeout)
                 (fun c s' =>
                    c = Return false
                    /\ exists report new,
                         _last_startup_report s' = report
                         /\ dict_get report "success" = Some (VBool false)
                         /\ dict_get report "error" = Some (VStr "binary_not_found")
                         /\ fst (run t get_last_startup_report s') = Some (inr report)
                         /\ log s' = new ++ log s
                         /\ existsb is_lock_event new = false
                         /\ existsb is_probe new = false
                         /\ existsb is_spawn new = false
                         /\ _startup_lock s' = _startup_lock s) s);
    [| apply wp_run in W; destruct W as (c & s' & R & -> & report & new & W);
       now exists s', report, new].
  unfold start_ollama_server.
  apply wp_bind_intro, wp_run. exists false, s1.
  split; [now rewrite Hrun, Hhead |].
  simpl. rewrite Hh, Hsel, Hd, Hc.
  apply wp_bind_intro, timestamp_spec. intros ts s2 F2.
  apply wp_bind_intro, set_startup_report_spec. intros s3 F3. simpl.
  eassert (F : Frame s s3 _) by frame_auto.
  simpl in F. rewrite app_nil_r in F.
  destruct F as (Hlog & _ & K & _ & R). simpl in K, R.
  split; [reflexivity |].
  eexists _, (_ :: n1). split; [exact R |].
  repeat split; try eassumption; try reflexivity.
  - rewrite <- R. apply get_last_startup_report_in_memory. now rewrite R.
  - rewrite K. apply quiet_lock_after, plain_is_quiet, http_is_plain, H1.
Qed.

Lemma no_candidates_binary_not_found_witness :
  exists (s' : State) (report : Dict) (new : list Entry),
    run 0%nat (start_ollama_server 201 true 30) (fresh host_empty world_down)
    = (Some (Return false), s')
    /\ _last_startup_report s' = report
    /\ dict_get report "success" = Some (VBool false)
    /\ dict_get report "error" = Some (VStr "binary_not_found")
    /\ fst (run 0%nat get_last_startup_report s') = Some (inr report)
    /\ log s' = new ++ log (fresh host_empty world_down)
    /\ existsb is_lock_event new = false
    /\ existsb is_probe new = false
    /\ existsb is_spawn new = false
    /\ _startup_lock s' = _startup_lock (fresh host_empty world_down).
Proof.
  apply (no_candidates_binary_not_found 0%nat (fresh host_empty world_down)
           201 true 30); vm_compute; reflexivity.
Defined.

(** C3 as stated fails in its second half: with no candidate the lock is
    neither acquired nor released, and a lock held by another thread does
    not delay the answer. *)
Lemma no_candidates_lock_not_acquired :
  let s := set_lock (Some 1%nat) (fresh host_empty world_down) in
  let r := run 0%nat (start_ollama_server 201 true 30) s in
  fst (run 0%nat is_ollama_running s) = Some false
  /\ get_ollama_binary_candidates (host s) (_selected_ollama_binary s) (disk s) = []
  /\ fst r = Some (Return false)
  /\ dict_get (_last_startup_report (snd r)) "error" = Some (VStr "binary_not_found")
  /\ existsb is_lock_event (log (snd r)) = false
  /\ _startup_lock (snd r) = Some 1%nat.
Proof. vm_compute. repeat split. Qed.


(** A call ends: with a boolean, or with the exception of the discovery. *)
Lemma start_ollama_server_returns (t : Tid) (s : State) (fuel : nat)
    (wait : bool) (timeout : Z) :
  (201 <= fuel)%nat ->
  2 * timeout + 1 <= Z.of_nat fuel ->
  exists (c : Completion) (s' : State) (new : list Entry),
    run t (start_ollama_server fuel wait timeout) s = (Some c, s')
    /\ log s' = new ++ log s
    /\ ((exists b, c = Return b)
        \/ (exists exc,
               c = Raise exc
               /\ file_system_error (host s) exc
               /\ Raising.get_ollama_binary_candidates (host s)
                    (_selected_ollama_binary s) (disk s) = inl exc
               /\ fst (run t is_ollama_running s) = Some false
               /\ forallb is_http new = true)).
Proof.
  intros Hf Hb.
  pose proof (start_ollama_server_spec t fuel wait timeout s
                (fun c s' =>
                   exists new,
                     log s' = new ++ log s
                     /\ ((exists b, c = Return b)
                         \/ (exists exc,
                                c = Raise exc
                                /\ file_system_error (host s) exc
                                /\ Raising.get_ollama_binary_candidates (host s)
                                     (_selected_ollama_binary s) (disk s)
                                   = inl exc
                                /\ fst (run t is_ollama_running s) = Some false
                                /\ forallb is_http new = true)))
                Hf Hb) as H.
  apply wp_run in H.
  - destruct H as (c & s' & Hrun & new & H). now exists c, s', new.
  - intros b s' new (L & _) _. exists new. split; [exact L |]. left. now exists b.
  - intros exc s' new (L & _) Hh Hr Hc. exists new. split; [exact L |]. right.
    exists exc. split; [reflexivity |].
    split; [exact (get_ollama_binary_candidates_raises _ _ _ _ Hc) |]. auto.
Qed.








(** ** The lock discipline *)


Lemma disciplined_mono {A : Type} (p : Prog A) (Q Q' : A -> bool -> Prop) :
  (forall a h, Q a h -> Q' a h) ->
  forall held, disciplined p held Q -> disciplined p held Q'.
Proof.
  intros HQ. induction p as [a | | e k IH]; intros held H; simpl in *; auto.
  destruct e; simpl in *;
    repeat match goal with
           | H : _ /\ _ |- _ => destruct H
           | |- _ /\ _ => split
           | |- forall _, _ => intro
           end; auto.
Qed.

Transparent is_ollama_running timestamp _set_startup_report probe_ollama_binary
            poll terminate_proc acquire_loop wait_ready try_candidates.










Opaque is_ollama_running timestamp _set_startup_report probe_ollama_binary
       poll terminate_proc acquire_loop.






Opaque wait_ready try_candidates.



(** ** Several callers *)











(* ===================================================================== *)
(** * Part III: further properties of the module                           *)
(* ===================================================================== *)

(** ** Text tails *)

Lemma substring_all (s : string) : substring 0 (String.length s) s = s.
Proof. induction s as [|c s IH]; simpl; [reflexivity | now rewrite IH]. Qed.

Lemma substring_suffix (s : string) :
  forall k, (k <= String.length s)%nat ->
    exists pre : string,
      s = (pre ++ substring k (String.length s - k) s)%string
      /\ String.length pre = k.
Proof.
  induction s as [|c s IH]; intros k Hk.
  - simpl in Hk. assert (k = 0%nat) by lia. subst. now exists ""%string.
  - destruct k as [|k].
    + exists ""%string. split; [| reflexivity].
      rewrite Nat.sub_0_r. now rewrite substring_all.
    + simpl in Hk. destruct (IH k) as (pre & E & L); [lia |].
      exists (String c pre). simpl. split; [now rewrite <- E | now rewrite L].
Qed.

Lemma length_append (a b : string) :
  String.length (a ++ b)%string = (String.length a + String.length b)%nat.
Proof. induction a as [|c a IH]; simpl; [reflexivity | now rewrite IH]. Qed.

Lemma tail_length_bound (text : string) (max_chars : nat) :
  (exists pre : string, text = (pre ++ _tail text max_chars)%string)
  /\ (max_chars <> 0%nat ->
      String.length (_tail text max_chars) <= max_chars)%nat.
Proof.
  unfold _tail.
  destruct (Nat.leb_spec (String.length text) max_chars) as [Hle | Hgt].
  - split; [now exists ""%string | intros _; exact Hle].
  - destruct max_chars as [|m]; [split; [now exists ""%string | congruence] |].
    destruct (substring_suffix text (String.length text - S m)) as (pre & E & L);
      [lia |].
    replace (String.length text - (String.length text - S m))%nat with (S m) in E
      by lia.
    split; [now exists pre | intros _].
    apply (f_equal String.length) in E. rewrite length_append, L in E. lia.
Qed.

(** X1: [_tail] returns a suffix of the text: the whole text when it has at
    most [max_chars] characters (or when [max_chars] is 0, as the slice
    [text[-0:]] is the whole text), its last [max_chars] characters
    otherwise. *)
Theorem tail_is_suffix :
  forall (text : string) (max_chars : nat),
    exists pre : string,
      text = (pre ++ _tail text max_chars)%string
      /\ String.length (_tail text max_chars)
         = match max_chars with
           | O => String.length text
           | _ => Nat.min (String.length text) max_chars
           end.
Proof.
  intros text n. unfold _tail.
  destruct (Nat.leb_spec (String.length text) n) as [Hle | Hgt].
  - exists ""%string. split; [reflexivity |]. destruct n; lia.
  - destruct n as [|m]; [exists ""%string; now split |].
    destruct (substring_suffix text (String.length text - S m)) as (pre & E & L);
      [lia |].
    replace (String.length text - (String.length text - S m))%nat with (S m) in E
      by lia.
    exists pre. split; [exact E |].
    apply (f_equal String.length) in E. rewrite length_append, L in E. lia.
Qed.

(** ** The locator, further *)

Lemma dedupe_complete (h : Host) (l : list Path) :
  forall seen p,
    In p l -> ~ In (str p) seen ->
    path_exists h p = true -> access_X_OK h p = true ->
    In p (dedupe h l seen []).
Proof.
  induction l as [|c l IH]; intros seen p Hin Hs He Ha; [destruct Hin |].
  rewrite dedupe_cons.
  destruct (String.eqb_spec c p) as [-> | Hne].
  - rewrite (proj2 (existsb_eqb_notIn (str p) seen) Hs), He, Ha. now left.
  - destruct Hin as [E | Hin]; [contradiction |].
    destruct (existsb (String.eqb (str c)) seen); [now apply IH |].
    assert (Hs' : ~ In (str p) (str c :: seen)).
    { intros [E | H']; [now apply Hne | now apply Hs]. }
    destruct (path_exists h c && access_X_OK h c); [right |]; now apply IH.
Qed.

Lemma list_remove_perm (p : Path) (l : list Path) :
  In p l -> Permutation (p :: list_remove p l) l.
Proof.
  induction l as [|a l IH]; intros Hin; [destruct Hin |]. simpl.
  destruct (String.eqb_spec a p) as [-> | Hne]; [apply Permutation_refl |].
  destruct Hin as [E | Hin]; [contradiction |].
  eapply perm_trans; [apply perm_swap |]. constructor. now apply IH.
Qed.

Lemma move_to_front_perm (pref : option string) (l : list Path) :
  Permutation (move_to_front pref l) l.
Proof.
  unfold move_to_front. destruct (nonempty pref); [| apply Permutation_refl].
  destruct (existsb (String.eqb (Path_of_string (or_empty pref))) l) eqn:E;
    [| apply Permutation_refl].
  apply list_remove_perm. now apply existsb_eqb_In.
Qed.

Lemma candidates_perm (h : Host) (selected : option Path) (disk : Disk) :
  Permutation (get_ollama_binary_candidates h selected disk)
              (dedupe h (discovered h) [] []).
Proof.
  unfold get_ollama_binary_candidates.
  destruct (nonempty (getenv h "OPENSCRIBE_OLLAMA_BINARY"));
    [apply Permutation_refl |].
  eapply perm_trans; [apply move_to_front_perm |].
  apply Permutation_sym, system_first_perm.
Qed.

(** X3: neither the cache, nor the persisted report, nor the system/bundled
    preference adds or drops a candidate: whatever they hold, the result is
    a reordering of the deduplicated discovery list. *)
Theorem candidates_only_reordered :
  forall (h : Host) (selected : option Path) (disk : Disk),
    Permutation (get_ollama_binary_candidates h selected disk)
                (dedupe h (discovered h) [] [])
    /\ Permutation (get_ollama_binary_candidates h selected disk)
                   (get_ollama_binary_candidates h None None).
Proof.
  intros h selected disk. split; [apply candidates_perm |].
  eapply perm_trans; [apply candidates_perm | apply Permutation_sym, candidates_perm].
Qed.

(** X2: the result holds exactly the discovered paths that exist and are
    executable at call time: nothing else gets in, and none of them is
    left out. *)
Theorem candidates_are_the_discovered_executables :
  forall (h : Host) (selected : option Path) (disk : Disk) (p : Path),
    In p (get_ollama_binary_candidates h selected disk)
    <-> In p (discovered h)
        /\ path_exists h p = true /\ access_X_OK h p = true.
Proof.
  intros h selected disk p.
  pose proof (candidates_perm h selected disk) as P.
  split.
  - intros Hin. apply (Permutation_in _ P) in Hin.
    apply dedupe_In in Hin. tauto.
  - intros (Hin & He & Ha).
    apply (Permutation_in _ (Permutation_sym P)).
    apply dedupe_complete; auto.
Qed.

Lemma previously_successful_none (h : Host) (selected : option Path)
    (disk : Disk) :
  previously_successful selected disk = None -> preferred h selected disk = None.
Proof.
  unfold previously_successful, preferred.
  destruct selected; [discriminate |].
  destruct (dict_get _ "selected_binary") as [[| | | | recorded | |] |]; auto.
  destruct (String.eqb recorded ""); [reflexivity | discriminate].
Qed.

(** X4: by default (and whenever the system preference is on), with no
    override and no previously successful binary known, the result is the
    system candidates followed by the candidates under the bundled
    directory, each group in discovery order. *)
Theorem system_candidates_before_bundled :
  forall (h : Host) (selected : option Path) (disk : Disk),
    nonempty (getenv h "OPENSCRIBE_OLLAMA_BINARY") = false ->
    prefer_system h = true ->
    previously_successful selected disk = None ->
    exists system bundled,
      get_ollama_binary_candidates h selected disk = system ++ bundled
      /\ system = filter (is_system_path (get_bundled_ollama_dir h))
                    (dedupe h (discovered h) [] [])
      /\ (forall p, In p system ->
            forall d, get_bundled_ollama_dir h = Some d ->
                      startswith (str p) (str d) = false)
      /\ (forall p, In p bundled ->
            exists d, get_bundled_ollama_dir h = Some d
                      /\ startswith (str p) (str d) = true).
Proof.
  intros h selected disk Hov Hpref Hprev.
  set (l := dedupe h (discovered h) [] []).
  exists (filter (is_system_path (get_bundled_ollama_dir h)) l),
         (filter (fun p => negb (is_system_path (get_bundled_ollama_dir h) p)) l).
  split; [| split; [reflexivity | split]].
  - unfold get_ollama_binary_candidates. fold l.
    rewrite Hov, (previously_successful_none h _ _ Hprev).
    unfold move_to_front, system_first. simpl. rewrite Hpref. simpl.
    destruct l; reflexivity.
  - intros p Hin d Hd. apply filter_In in Hin. destruct Hin as [_ Hs].
    rewrite Hd in Hs. simpl in Hs. now apply negb_true_iff in Hs.
  - intros p Hin. apply filter_In in Hin. destruct Hin as [_ Hs].
    destruct (get_bundled_ollama_dir h) as [d |]; [| discriminate].
    exists d. split; [reflexivity |]. simpl in Hs.
    now apply negb_true_iff, negb_false_iff in Hs.
Qed.

Lemma system_candidates_before_bundled_witness :
  exists system bundled,
    get_ollama_binary_candidates host_bundled None None = system ++ bundled
    /\ system = filter (is_system_path (get_bundled_ollama_dir host_bundled))
                  (dedupe host_bundled (discovered host_bundled) [] [])
    /\ (forall p, In p system ->
          forall d, get_bundled_ollama_dir host_bundled = Some d ->
                    startswith (str p) (str d) = false)
    /\ (forall p, In p bundled ->
          exists d, get_bundled_ollama_dir host_bundled = Some d
                    /\ startswith (str p) (str d) = true).
Proof.
  apply (system_candidates_before_bundled host_bundled None None);
    reflexivity.
Defined.

(** X5: a bundled directory that is reported exists; in a development
    checkout it is the [bin] directory of the package, and it holds a file
    named [ollama]. *)
Theorem bundled_dir_exists :
  forall (h : Host) (d : Path),
    get_bundled_ollama_dir h = Some d ->
    path_exists h d = true
    /\ (sys_frozen h = false ->
        d = joinpath (package_dir h) "bin"
        /\ path_exists h (joinpath d "ollama") = true).
Proof.
  intros h d. unfold get_bundled_ollama_dir.
  destruct (path_exists h (joinpath (package_dir h) "bin")
            && path_exists h (joinpath (joinpath (package_dir h) "bin") "ollama"))
    eqn:Edev.
  - apply andb_true_iff in Edev. destruct Edev as [E1 E2].
    destruct (sys_frozen h).
    + destruct (path_exists h (joinpath (sys_MEIPASS h) "ollama")) eqn:Em.
      * intros [= <-]. split; [exact Em | discriminate].
      * destruct (path_exists h (joinpath (executable_dir h) "ollama")) eqn:Ee;
          intros [= <-]; (split; [assumption | discriminate]).
    + intros [= <-]. split; [exact E1 | intros _; now split].
  - destruct (sys_frozen h); [| discriminate].
    destruct (path_exists h (joinpath (sys_MEIPASS h) "ollama")) eqn:Em.
    + intros [= <-]. split; [exact Em | discriminate].
    + destruct (path_exists h (joinpath (executable_dir h) "ollama")) eqn:Ee;
        [| discriminate].
      intros [= <-]. split; [exact Ee | discriminate].
Qed.

Lemma bundled_dir_exists_witness :
  path_exists host_bundled "/opt/openscribe/backend/bin" = true
  /\ (sys_frozen host_bundled = false ->
      "/opt/openscribe/backend/bin" = joinpath (package_dir host_bundled) "bin"
      /\ path_exists host_bundled (joinpath "/opt/openscribe/backend/bin" "ollama")
         = true).
Proof.
  apply (bundled_dir_exists host_bundled "/opt/openscribe/backend/bin").
  reflexivity.
Defined.

(** ** The environment of the subprocesses *)

Lemma dict_get_set_same {V : Type} (d : list (string * V)) (k : string) (v : V) :
  dict_get (dict_set d k v) k = Some v.
Proof.
  induction d as [|[k' w] d IH]; simpl.
  - now rewrite String.eqb_refl.
  - destruct (String.eqb_spec k' k) as [-> | Hne]; simpl.
    + now rewrite String.eqb_refl.
    + destruct (String.eqb_spec k' k); [contradiction | exact IH].
Qed.

Lemma dict_get_set_other {V : Type} (d : list (string * V)) (k k' : string)
    (v : V) :
  k' <> k -> dict_get (dict_set d k v) k' = dict_get d k'.
Proof.
  intros Hne. induction d as [|[k0 w] d IH]; simpl.
  - destruct (String.eqb_spec k k'); [congruence | reflexivity].
  - destruct (String.eqb_spec k0 k) as [-> | H0]; simpl.
    + destruct (String.eqb_spec k k'); [congruence | reflexivity].
    + destruct (String.eqb_spec k0 k'); [reflexivity | exact IH].
Qed.

(** X6: the environment handed to a subprocess always binds [OLLAMA_HOST]:
    to the caller's value when there is one, to the loopback address and
    port otherwise. *)
Theorem ollama_env_binds_host :
  forall (h : Host) (binary : option Path),
    dict_get (get_ollama_env h binary) "OLLAMA_HOST"
    = Some match getenv h "OLLAMA_HOST" with
           | Some v => v
           | None => "127.0.0.1:11434"
           end.
Proof.
  intros h binary. unfold get_ollama_env, getenv.
  match goal with
  | |- dict_get (match dict_get ?e _ with _ => _ end) _ = _ =>
      assert (E : dict_get e "OLLAMA_HOST" = dict_get (environ h) "OLLAMA_HOST")
  end.
  { destruct (get_bundled_ollama_dir h) as [d |]; [| reflexivity].
    match goal with |- context [if ?b then _ else _] => destruct b end;
      [| reflexivity].
    rewrite dict_get_set_other by discriminate.
    destruct (String.eqb _ ""); now rewrite dict_get_set_other by discriminate. }
  match goal with
  | |- dict_get (match dict_get ?e _ with _ => _ end) _ = _ =>
      destruct (dict_get e "OLLAMA_HOST") as [v |] eqn:Ev
  end.
  - rewrite Ev. now rewrite <- E.
  - rewrite dict_get_set_same. now rewrite <- E.
Qed.

Lemma setdefault_other (env : list (string * string)) (k : string) :
  k <> "OLLAMA_HOST" ->
  dict_get match dict_get env "OLLAMA_HOST" with
           | Some _ => env
           | None => dict_set env "OLLAMA_HOST" "127.0.0.1:11434"
           end k
  = dict_get env k.
Proof.
  intros Hk. destruct (dict_get env "OLLAMA_HOST"); [reflexivity |].
  now apply dict_get_set_other.
Qed.

(** X7: apart from [DYLD_LIBRARY_PATH], [MLX_METAL_PATH] and [OLLAMA_HOST],
    a subprocess sees every variable of the caller's environment with its
    value, and no other variable.  When there is no bundled directory, or
    no binary is given, the two library variables are passed on unchanged
    as well. *)
Theorem ollama_env_passes_environment_on :
  forall (h : Host) (binary : option Path) (k : string),
    k <> "OLLAMA_HOST" ->
    (k <> "DYLD_LIBRARY_PATH" /\ k <> "MLX_METAL_PATH"
     \/ get_bundled_ollama_dir h = None \/ binary = None) ->
    dict_get (get_ollama_env h binary) k = getenv h k.
Proof.
  intros h binary k Hk Hcase. unfold get_ollama_env, getenv.
  rewrite setdefault_other by exact Hk.
  destruct (get_bundled_ollama_dir h) as [d |]; [| reflexivity].
  destruct binary as [b |]; [| reflexivity].
  destruct Hcase as [[Hd Hm] | [H | H]]; try discriminate.
  match goal with |- context [if ?c then _ else _] => destruct c end;
    [| reflexivity].
  rewrite dict_get_set_other by exact Hm.
  destruct (String.eqb _ ""); now rewrite dict_get_set_other by exact Hd.
Qed.

Lemma ollama_env_passes_environment_on_witness :
  dict_get (get_ollama_env
              (mk_host [("HOME", "/Users/alice")] ["/usr/bin/ollama"] [] WhichRaised)
              (Some "/usr/bin/ollama")) "HOME"
  = Some "/Users/alice".
Proof.
  apply (ollama_env_passes_environment_on
           (mk_host [("HOME", "/Users/alice")] ["/usr/bin/ollama"] [] WhichRaised)
           (Some "/usr/bin/ollama") "HOME");
    [discriminate | left; split; discriminate].
Defined.

(** X8: for a binary that resolves to a path under the resolved bundled
    directory (or, when resolving fails, whose path starts with that of the
    bundled directory), the subprocess gets the bundled directory in front
    of its [DYLD_LIBRARY_PATH], the caller's value following after a colon
    when it is not empty, and [MLX_METAL_PATH] set to the bundled
    [mlx.metallib]. *)
Theorem ollama_env_bundled_libraries :
  forall (h : Host) (binary d : Path),
    get_bundled_ollama_dir h = Some d ->
    ((exists rb rd, path_resolve h binary = Some rb
                    /\ path_resolve h d = Some rd
                    /\ startswith (str rb) (str rd) = true)
     \/ ((path_resolve h binary = None \/ path_resolve h d = None)
         /\ startswith (str binary) (str d) = true)) ->
    dict_get (get_ollama_env h (Some binary)) "DYLD_LIBRARY_PATH"
    = Some match getenv h "DYLD_LIBRARY_PATH" with
           | Some existing =>
               if String.eqb existing "" then str d
               else (str d ++ ":" ++ existing)%string
           | None => str d
           end
    /\ dict_get (get_ollama_env h (Some binary)) "MLX_METAL_PATH"
       = Some (str (joinpath d "mlx.metallib")).
Proof.
  intros h binary d Hd Huse. unfold get_ollama_env, getenv.
  rewrite !setdefault_other by discriminate. rewrite Hd.
  assert (U : match path_resolve h binary, path_resolve h d with
              | Some rb, Some rd => startswith (str rb) (str rd)
              | _, _ => startswith (str binary) (str d)
              end = true).
  { destruct Huse as [(rb & rd & -> & -> & H) | [[-> | E] H]]; auto.
    destruct (path_resolve h binary); [now rewrite E | exact H]. }
  rewrite U. split.
  - rewrite dict_get_set_other by discriminate.
    destruct (dict_get (environ h) "DYLD_LIBRARY_PATH") as [e |]; simpl.
    + destruct (String.eqb e ""); now rewrite dict_get_set_same.
    + now rewrite dict_get_set_same.
  - now rewrite dict_get_set_same.
Qed.

Lemma ollama_env_bundled_libraries_witness :
  dict_get (get_ollama_env host_bundled (Some "/opt/openscribe/backend/bin/ollama"))
           "DYLD_LIBRARY_PATH"
  = Some "/opt/openscribe/backend/bin"
  /\ dict_get (get_ollama_env host_bundled
                 (Some "/opt/openscribe/backend/bin/ollama")) "MLX_METAL_PATH"
     = Some "/opt/openscribe/backend/bin/mlx.metallib".
Proof.
  apply (ollama_env_bundled_libraries host_bundled
           "/opt/openscribe/backend/bin/ollama" "/opt/openscribe/backend/bin");
    [reflexivity |].
  left. exists "/opt/openscribe/backend/bin/ollama", "/opt/openscribe/backend/bin".
  repeat split.
Defined.

(** ** The cached binary *)

Lemma candidates_exist (h : Host) (selected : option Path) (disk : Disk)
    (p : Path) :
  In p (get_ollama_binary_candidates h selected disk) ->
  path_exists h p = true /\ access_X_OK h p = true.
Proof.
  intros Hin. apply (Permutation_in _ (candidates_perm h selected disk)) in Hin.
  apply dedupe_In in Hin. tauto.
Qed.

(** X9: [get_ollama_binary] answers the cached binary while its path
    exists, without discovering again.  Otherwise it answers the first
    candidate, if there is one, and caches it: a binary it answers exists and
    is the cache afterwards.  With no candidate it answers [None] and leaves
    the cache as it was, stale or empty.  It raises only an error of the
    file system, met when examining the cached path or in the discovery, and
    then it has written nothing. *)
Theorem get_ollama_binary_answers_cache :
  forall (t : Tid) (s : State),
    exists (r : Exc + option Path) (s' : State),
      run t get_ollama_binary s = (Some r, s')
      /\ match r with
         | inr (Some p) =>
             _selected_ollama_binary s' = Some p
             /\ path_exists (host s) p = true
             /\ (log s' = log s \/ log s' = EvSelect t p :: log s)
         | inr None =>
             Raising.get_ollama_binary_candidates (host s)
               (_selected_ollama_binary s) (disk s) = inr []
             /\ _selected_ollama_binary s' = _selected_ollama_binary s
             /\ log s' = log s
         | inl exc =>
             file_system_error (host s) exc
             /\ _selected_ollama_binary s' = _selected_ollama_binary s
             /\ log s' = log s
         end
      /\ (forall p, _selected_ollama_binary s = Some p ->
                    Raising.exists_ (host s) p = inr true ->
                    r = inr (Some p) /\ log s' = log s).
Proof.
  intros t s. unfold get_ollama_binary. simpl.
  assert (D : forall sel,
             sel = _selected_ollama_binary s ->
             (forall p, sel = Some p ->
                        Raising.exists_ (host s) p <> inr true) ->
             exists r s',
               run t
                 (match
                    Raising.get_ollama_binary_candidates (host s) sel (disk s)
                  with
                  | inl exc => Ret (inl exc)
                  | inr [] => Ret (inr None)
                  | inr (first :: _) =>
                      call (SetSelected first) ;;; Ret (inr (Some first))
                  end)%prog
                 (advance 0 (advance 0 (advance 0 (advance 0 (advance 0 s)))))
               = (Some r, s')
               /\ match r with
                  | inr (Some p) =>
                      _selected_ollama_binary s' = Some p
                      /\ path_exists (host s) p = true
                      /\ (log s' = log s \/ log s' = EvSelect t p :: log s)
                  | inr None =>
                      Raising.get_ollama_binary_candidates (host s) sel (disk s)
                      = inr []
                      /\ _selected_ollama_binary s' = sel
                      /\ log s' = log s
                  | inl exc =>
                      file_system_error (host s) exc
                      /\ _selected_ollama_binary s' = sel
                      /\ log s' = log s
                  end
               /\ (forall p, sel = Some p ->
                             Raising.exists_ (host s) p = inr true ->
                             r = inr (Some p) /\ log s' = log s)).
  { intros sel Es Hstale.
    destruct (Raising.get_ollama_binary_candidates (host s) sel (disk s))
      as [exc | [|first rest]] eqn:Ec; simpl.
    - exists (inl exc). eexists. split; [reflexivity |]. split.
      + split; [exact (get_ollama_binary_candidates_raises _ _ _ _ Ec) |].
        simpl. now rewrite Es.
      + intros p Hp He. exfalso. exact (Hstale p Hp He).
    - exists (inr None). eexists. split; [reflexivity |].
      split; [now rewrite Es |].
      intros p Hp He. exfalso. exact (Hstale p Hp He).
    - exists (inr (Some first)). eexists. split; [reflexivity |]. split.
      + repeat split; [| now right].
        apply (candidates_exist (host s) sel (disk s)).
        rewrite <- (get_ollama_binary_candidates_answers _ _ _ _ Ec). now left.
      + intros p Hp He. exfalso. exact (Hstale p Hp He). }
  destruct (_selected_ollama_binary s) as [p |] eqn:Es.
  - destruct (Raising.exists_ (host s) p) as [exc | []] eqn:Ep; simpl.
    + exists (inl exc). eexists. split; [reflexivity |]. simpl. rewrite Es.
      split;
        [| intros q Hq He; injection Hq as <-; rewrite Ep in He; discriminate].
      split; [exact (exists_raises_file_system _ _ _ Ep) | auto].
    + exists (inr (Some p)). eexists. split; [reflexivity |]. simpl. rewrite Es.
      split; [repeat split; [| now left] |].
      * now rewrite <- (exists_answers _ _ _ Ep).
      * intros q Hq _. injection Hq as <-. now split.
    + rewrite Es. apply (D (Some p) eq_refl). intros q Hq.
      injection Hq as <-. rewrite Ep. discriminate.
  - simpl. rewrite Es. apply (D None eq_refl). discriminate.
Qed.

(** ** The probe *)

Transparent probe_ollama_binary.

Lemma probe_state (t : Tid) (binary : Path) (timeout : Z) (s : State)
    (env : list (string * string)) :
  Raising.get_ollama_env (host s) (Some binary) = inr env ->
  exists (probe : Dict) (s1 : State),
    run t (probe_ollama_binary binary timeout) s = (Some (inr probe), s1)
    /\ Frame s s1 [EvProbe t binary]
    /\ world s1 = world s /\ host s1 = host s /\ disk s1 = disk s
    /\ tick s1 = (4 + tick s)%nat
    /\ truthy (dict_get probe "ok")
       = match w_run (world s) (2 + tick s) binary with
         | RunDone returncode _ _ => returncode =? 0
         | _ => false
         end.
Proof.
  intros He. unfold probe_ollama_binary. simpl. rewrite He. simpl.
  destruct (w_run (world s) (S (S (tick s))) binary); simpl;
    eexists _, _; (split; [reflexivity |]); repeat split; frame_now.
Qed.

(** X10: a probe raises only when the look-up of the bundled directory
    raises, and then nothing has been run.  Otherwise it answers a record
    with the same seven keys whatever happened, naming the binary probed.
    [ok] holds exactly when the run ended with return code 0; a run that
    timed out or could not be started has no return code, an empty [stdout]
    and is never classified as a crash; and the crash flag, when the run
    ended, is the classification of the recorded stderr tail. *)
Theorem probe_record :
  forall (t : Tid) (binary : Path) (timeout : Z) (s : State),
    exists (r : Exc + Dict) (s' : State),
      run t (probe_ollama_binary binary timeout) s = (Some r, s')
      /\ _startup_lock s' = _startup_lock s
      /\ _selected_ollama_binary s' = _selected_ollama_binary s
      /\ _last_startup_report s' = _last_startup_report s
      /\ match r with
         | inl exc =>
             Raising.get_bundled_ollama_dir (host s) = inl exc
             /\ log s' = log s
         | inr probe =>
             (exists d, Raising.get_bundled_ollama_dir (host s) = inr d)
             /\ map fst probe
                = ["binary"; "ok"; "returncode"; "duration_s"; "stdout";
                   "stderr_tail"; "mlx_crash"]
             /\ dict_get probe "binary" = Some (VStr (str binary))
             /\ (truthy (dict_get probe "ok") = true
                 <-> dict_get probe "returncode" = Some (VInt 0))
             /\ (dict_get probe "returncode" = Some VNone ->
                 dict_get probe "ok" = Some (VBool false)
                 /\ dict_get probe "stdout" = Some (VStr "")
                 /\ dict_get probe "mlx_crash" = Some (VBool false))
             /\ (dict_get probe "returncode" <> Some VNone ->
                 exists tail,
                   dict_get probe "stderr_tail" = Some (VStr tail)
                   /\ (String.length tail <= 4000)%nat
                   /\ dict_get probe "mlx_crash"
                      = Some (VBool (_is_mlx_crash (Some tail))))
             /\ log s' = EvProbe t binary :: log s
         end.
Proof.
  intros t binary timeout s. unfold probe_ollama_binary. simpl.
  destruct (Raising.get_ollama_env (host s) (Some binary)) as [exc | env] eqn:Ee;
    simpl.
  - exists (inl exc). eexists. split; [reflexivity |]. simpl.
    repeat split. now apply get_ollama_env_raises in Ee.
  - assert (Hd : exists d, Raising.get_bundled_ollama_dir (host s) = inr d).
    { unfold Raising.get_ollama_env, exc_bind in Ee.
      destruct (Raising.get_bundled_ollama_dir (host s)) as [exc | d];
        [discriminate | now exists d]. }
    destruct (w_run (world s) (S (S (tick s))) binary) as [rc out err | | msg];
      simpl; eexists (inr _), _; (split; [reflexivity |]); simpl;
      (split; [reflexivity |]); (split; [reflexivity |]);
      (split; [reflexivity |]); (split; [exact Hd |]);
      repeat split; try discriminate; try congruence.
    + intros H. apply Z.eqb_eq in H. now subst.
    + intros [= ->]. reflexivity.
    + intros _. exists (_tail err 4000). repeat split.
      destruct (tail_length_bound err 4000) as [_ H]. apply H. discriminate.
Qed.

Opaque probe_ollama_binary.

(** ** The lock as a context manager *)

Transparent acquire_loop.

Lemma handle_log_extends (t : Tid) (e : Event) (s : State) :
  exists new, log (snd (handle t e s)) = new ++ log s.
Proof.
  destruct e; simpl; try (now exists []); try (eexists [_]; reflexivity).
  destruct (_startup_lock s); simpl; eexists [_]; reflexivity.
Qed.

Lemma run_log_extends {A : Type} (t : Tid) (p : Prog A) :
  forall s, exists new, log (snd (run t p s)) = new ++ log s.
Proof.
  induction p as [a | | e k IH]; intros s; simpl; try (now exists []).
  destruct (handle_log_extends t e s) as [n1 E1].
  destruct (handle t e s) as [x s1]. simpl in E1.
  destruct (IH x s1) as [n2 E2]. exists (n2 ++ n1).
  now rewrite E2, E1, app_assoc.
Qed.

(** X11: the lock is released however the block under it ends.  With the
    lock free and the first reading of the clock within the timeout,
    [_with_startup_lock] acquires the lock at its first attempt, runs the
    block holding it, and releases it after the block, whatever the block
    answered. *)
Theorem with_startup_lock_releases :
  forall (A : Type) (t : Tid) (fuel : nat) (timeout_s : Z) (body : Prog A)
         (s : State),
    (1 <= fuel)%nat ->
    _startup_lock s = None ->
    Z.of_N (w_elapsed (world s) (tick s)) < timeout_s * 1000 ->
    (forall s1, _startup_lock s1 = Some t ->
                exists a s2, run t body s1 = (Some a, s2)
                             /\ _startup_lock s2 = Some t) ->
    exists (a : A) (s' : State),
      run t (_with_startup_lock fuel timeout_s body) s = (Some (inr a), s')
      /\ _startup_lock s' = None
      /\ exists between,
           log s' = EvRelease t :: between ++ EvAcquire t true :: log s.
Proof.
  intros A t fuel timeout_s body s Hf Hl He Hbody.
  destruct fuel as [|fuel]; [lia |].
  unfold _with_startup_lock. simpl.
  assert (E : (clock s + Z.max 0 0 + Z.of_N (w_elapsed (world s) (tick s))
               - clock s <? timeout_s * 1000) = true)
    by (apply Z.ltb_lt; lia).
  rewrite E. simpl. rewrite Hl. simpl.
  match goal with
  | |- context [run t (bind body ?f) ?s1] =>
      destruct (Hbody s1 eq_refl) as (a & s2 & Hrun & Hl2);
      assert (W : wp t (bind body f)
                    (fun r s' => r = inr a /\ _startup_lock s' = None
                                 /\ log s' = EvRelease t :: log s2) s1)
  end.
  { apply wp_bind_intro, wp_run. exists a, s2. split; [exact Hrun |].
    simpl. repeat split. }
  apply wp_run in W. destruct W as (r & s' & Hr & -> & Hl' & Hlog).
  exists a, s'. split; [exact Hr | split; [exact Hl' |]].
  match type of Hrun with
  | run t body ?s1 = _ => destruct (run_log_extends t body s1) as [between Hb]
  end.
  rewrite Hrun in Hb. simpl in Hb. exists between. now rewrite Hlog, Hb.
Qed.

Lemma with_startup_lock_releases_witness :
  exists (a : unit) (s' : State),
    run 0%nat (_with_startup_lock 1 20 (Ret tt)) (fresh host_system world_down)
    = (Some (inr a), s')
    /\ _startup_lock s' = None
    /\ exists between,
         log s' = EvRelease 0%nat :: between
                  ++ EvAcquire 0%nat true :: log (fresh host_system world_down).
Proof.
  apply (with_startup_lock_releases unit 0%nat 1 20 (Ret tt)
           (fresh host_system world_down));
    [lia | reflexivity | vm_compute; reflexivity |].
  intros s1 H1. now exists tt, s1.
Defined.

(** X12: with a timeout that is not positive the lock is not even tried:
    [_with_startup_lock] raises the timeout error at once, free lock or
    not, and the block does not run. *)
Theorem with_startup_lock_no_time :
  forall (A : Type) (t : Tid) (fuel : nat) (timeout_s : Z) (body : Prog A)
         (s : State),
    (1 <= fuel)%nat ->
    timeout_s <= 0 ->
    exists s',
      run t (_with_startup_lock fuel timeout_s body) s
      = (Some (inl (TimeoutError "Timed out acquiring Ollama startup lock")), s')
      /\ log s' = log s
      /\ _startup_lock s' = _startup_lock s.
Proof.
  intros A t fuel timeout_s body s Hf Ht.
  destruct fuel as [|fuel]; [lia |].
  unfold _with_startup_lock. simpl.
  assert (E : (clock s + Z.max 0 0 + Z.of_N (w_elapsed (world s) (tick s))
               - clock s <? timeout_s * 1000) = false)
    by (apply Z.ltb_ge; lia).
  rewrite E. simpl. eexists. repeat split.
Qed.

Lemma with_startup_lock_no_time_witness :
  exists s',
    run 0%nat (_with_startup_lock 1 0 (Ret tt)) (fresh host_system world_down)
    = (Some (inl (TimeoutError "Timed out acquiring Ollama startup lock")), s')
    /\ log s' = log (fresh host_system world_down)
    /\ _startup_lock s' = _startup_lock (fresh host_system world_down).
Proof.
  apply (with_startup_lock_no_time unit 0%nat 1 0 (Ret tt)
           (fresh host_system world_down)); lia.
Defined.

Opaque acquire_loop.

(** X13: while someone else holds the lock, [_with_startup_lock] polls it
    for at least the timeout and then raises the timeout error: the block
    does not run, nothing but failed attempts is logged, and the lock stays
    with its holder. *)
Theorem with_startup_lock_contended :
  forall (A : Type) (t : Tid) (fuel : nat) (timeout_s : Z) (body : Prog A)
         (s : State) (holder : Tid),
    (1 <= fuel)%nat ->
    10 * timeout_s + 1 <= Z.of_nat fuel ->
    _startup_lock s = Some holder ->
    exists (s' : State) (new : list Entry),
      run t (_with_startup_lock fuel timeout_s body) s
      = (Some (inl (TimeoutError "Timed out acquiring Ollama startup lock")), s')
      /\ log s' = new ++ log s
      /\ forallb (is_failed_acquire t) new = true
      /\ _startup_lock s' = Some holder
      /\ timeout_s * 1000 <= clock s' - clock s.
Proof.
  intros A t fuel timeout_s body s holder Hf Hb Hl.
  assert (W : wp t (_with_startup_lock fuel timeout_s body)
                 (fun r s' =>
                    r = inl (TimeoutError "Timed out acquiring Ollama startup lock")
                    /\ exists new,
                         log s' = new ++ log s
                         /\ forallb (is_failed_acquire t) new = true
                         /\ _startup_lock s' = Some holder
                         /\ timeout_s * 1000 <= clock s' - clock s) s);
    [| apply wp_run in W; destruct W as (r & s' & R & -> & new & W);
       now exists s', new].
  unfold _with_startup_lock. simpl.
  apply wp_bind_intro, acquire_loop_spec; [exact Hf | simpl; lia |].
  intros acquired s1 n1 F1 Ha Hlate. simpl in Ha. rewrite Hl in Ha.
  destruct acquired; [destruct Ha; discriminate |]. simpl in Ha.
  specialize (Hlate eq_refl). simpl.
  split; [reflexivity |]. exists n1.
  destruct F1 as (Hlog & _ & K & _). simpl in Hlog, K.
  split; [exact Hlog | split; [exact Ha | split; [| lia]]].
  rewrite K, quiet_lock_after; [exact Hl |].
  now apply (failed_acquire_is_quiet t).
Qed.

Lemma with_startup_lock_contended_witness :
  exists (s' : State) (new : list Entry),
    run 0%nat (_with_startup_lock 201 20 (Ret tt))
        (set_lock (Some 1%nat) (fresh host_system world_down))
    = (Some (inl (TimeoutError "Timed out acquiring Ollama startup lock")), s')
    /\ log s' = new ++ log (set_lock (Some 1%nat) (fresh host_system world_down))
    /\ forallb (is_failed_acquire 0%nat) new = true
    /\ _startup_lock s' = Some 1%nat
    /\ 20 * 1000
       <= clock s' - clock (set_lock (Some 1%nat) (fresh host_system world_down)).
Proof.
  apply (with_startup_lock_contended unit 0%nat 201 20 (Ret tt)
           (set_lock (Some 1%nat) (fresh host_system world_down)) 1%nat);
    [lia | lia | reflexivity].
Defined.


(** ** The supervisor, further *)

(** X14: when the runtime already answers, [start_ollama_server] returns
    true from its fast path: it reports [already_running] and touches
    neither the lock nor the cache, and probes and starts nothing. *)
Theorem already_running_fast_path :
  forall (t : Tid) (s : State) (fuel : nat) (wait : bool) (timeout : Z),
    fst (run t is_ollama_running s) = Some true ->
    exists (s' : State) (report : Dict) (new : list Entry),
      run t (start_ollama_server fuel wait timeout) s = (Some (Return true), s')
      /\ _last_startup_report s' = report
      /\ dict_get report "success" = Some (VBool true)
      /\ dict_get report "already_running" = Some (VBool true)
      /\ log s' = new ++ log s
      /\ existsb is_lock_event new = false
      /\ existsb is_probe new = false
      /\ existsb is_spawn new = false
      /\ _startup_lock s' = _startup_lock s
      /\ _selected_ollama_binary s' = _selected_ollama_binary s.
Proof.
  intros t s fuel wait timeout Hr.
  destruct (is_ollama_running_state t s) as (s1 & n1 & Hrun & F1 & H1 & _).
  rewrite Hrun in Hr. simpl in Hr. injection Hr as Hhead.
  destruct (http_only _ H1) as (Nl & Np & Ns).
  pose proof (plain_is_quiet _ (http_is_plain _ H1)) as Q1.
  assert (W : wp t (start_ollama_server fuel wait timeout)
                 (fun c s' =>
                    c = Return true
                    /\ exists report new,
                         _last_startup_report s' = report
                         /\ dict_get report "success" = Some (VBool true)
                         /\ dict_get report "already_running" = Some (VBool true)
                         /\ log s' = new ++ log s
                         /\ existsb is_lock_event new = false
                         /\ existsb is_probe new = false
                         /\ existsb is_spawn new = false
                         /\ _startup_lock s' = _startup_lock s
                         /\ _selected_ollama_binary s'
                            = _selected_ollama_binary s) s);
    [| apply wp_run in W; destruct W as (c & s' & R & -> & report & new & W);
       now exists s', report, new].
  unfold start_ollama_server.
  apply wp_bind_intro, wp_run. exists true, s1.
  split; [now rewrite Hrun, Hhead |].
  apply wp_bind_intro, timestamp_spec. intros ts s2 F2.
  apply wp_bind_intro, set_startup_report_spec. intros s3 F3. simpl.
  eassert (F : Frame s s3 _) by frame_auto.
  simpl in F. rewrite ?app_nil_r in F.
  destruct F as (Hlog & _ & K & S & R). simpl in K, S, R.
  split; [reflexivity |].
  eexists _, (_ :: n1). split; [exact R |].
  repeat split; try eassumption; try reflexivity.
  - rewrite K. now apply quiet_lock_after.
  - rewrite S. now apply quiet_selected_after.
Qed.

Lemma already_running_fast_path_witness :
  exists (s' : State) (report : Dict) (new : list Entry),
    run 0%nat (start_ollama_server 201 true 30)
        (fresh host_system (world_up_from 0))
    = (Some (Return true), s')
    /\ _last_startup_report s' = report
    /\ dict_get report "success" = Some (VBool true)
    /\ dict_get report "already_running" = Some (VBool true)
    /\ log s' = new ++ log (fresh host_system (world_up_from 0))
    /\ existsb is_lock_event new = false
    /\ existsb is_probe new = false
    /\ existsb is_spawn new = false
    /\ _startup_lock s' = _startup_lock (fresh host_system (world_up_from 0))
    /\ _selected_ollama_binary s'
       = _selected_ollama_binary (fresh host_system (world_up_from 0)).
Proof.
  apply (already_running_fast_path 0%nat (fresh host_system (world_up_from 0))
           201 true 30).
  vm_compute. reflexivity.
Defined.

(** ** The diagnostics store *)

Transparent _set_startup_report.

(** X15: the store reads back what was written.  Right after
    [_set_startup_report] of a non-empty report, [get_last_startup_report]
    answers that report, whether or not it could be persisted.  A process
    whose in-memory report is empty answers the payload of the report file
    when that is a dictionary, and the empty report when the file is absent,
    unreadable or holds something else: so a report that was persisted is
    what a later process with the same file starts from.  Only that reading
    of the file can raise: when the path of the report file cannot be
    determined or examined, [get_last_startup_report] raises that error. *)
Theorem startup_report_round_trip :
  forall (t : Tid) (s : State) (report : Dict),
    report <> [] ->
    (exists s1,
        run t (_set_startup_report report) s = (Some tt, s1)
        /\ fst (run t get_last_startup_report s1) = Some (inr report)
        /\ (w_persist (world s) (S (tick s)) = Persisted ->
            disk s1 = Some (VDict report)
            /\ (report_path_error (host s) = None ->
                fst (run t get_last_startup_report (set_report [] s1))
                = Some (inr report)))
        /\ (w_persist (world s) (S (tick s)) = NotWritten -> disk s1 = disk s))
    /\ (_last_startup_report s = [] ->
        fst (run t get_last_startup_report s)
        = Some match report_path_error (host s) with
               | Some exc => inl exc
               | None =>
                   inr match disk s with
                       | Some (VDict payload) => payload
                       | _ => []
                       end
               end).
Proof.
  intros t s report Hne. split.
  - unfold _set_startup_report, get_last_startup_report. simpl.
    eexists. split; [reflexivity |]. simpl.
    destruct report as [|kv report]; [contradiction |]. simpl.
    split; [reflexivity | split]; intros Hp; rewrite Hp; simpl; auto.
    split; [reflexivity |]. intros Hr.
    unfold Raising._load_startup_report_from_disk. simpl. now rewrite Hr.
  - intros He. unfold get_last_startup_report. simpl. rewrite He. simpl.
    unfold Raising._load_startup_report_from_disk.
    destruct (report_path_error (host s)); reflexivity.
Qed.

Opaque _set_startup_report.

Lemma startup_report_round_trip_witness :
  exists s1,
    run 0%nat (_set_startup_report [("success", VBool true)])
        (fresh host_system world_down)
    = (Some tt, s1)
    /\ fst (run 0%nat get_last_startup_report s1)
       = Some (inr [("success", VBool true)]).
Proof.
  destruct (startup_report_round_trip 0%nat (fresh host_system world_down)
              [("success", VBool true)]) as [(s1 & H1 & H2 & _) _];
    [discriminate |].
  now exists s1.
Defined.

(** ** Runs in surroundings of one kind *)

Lemma handle_keeps (t : Tid) (e : Event) (s : State) :
  world (snd (handle t e s)) = world s /\ host (snd (handle t e s)) = host s.
Proof.
  destruct e; simpl; auto. destruct (_startup_lock s); simpl; auto.
Qed.

Lemma run_keeps {A : Type} (t : Tid) (p : Prog A) :
  forall s, world (snd (run t p s)) = world s /\ host (snd (run t p s)) = host s.
Proof.
  induction p as [a | | e k IH]; intros s; simpl; auto.
  destruct (handle_keeps t e s) as [Hw Hh].
  destruct (handle t e s) as [x s1]. simpl in *.
  destruct (IH x s1) as [Hw' Hh']. now rewrite Hw', Hh'.
Qed.

(** No program changes the surroundings' answers or the host. *)
Lemma wp_keep {A : Type} (t : Tid) (p : Prog A) (Q : A -> State -> Prop)
    (s : State) :
  wp t p (fun a s' => world s' = world s -> host s' = host s -> Q a s') s ->
  wp t p Q s.
Proof.
  intros W. apply wp_run in W. destruct W as (a & s' & E & HQ).
  apply wp_run. exists a, s'. split; [exact E |].
  destruct (run_keeps t p s) as [Hw Hh]. rewrite E in Hw, Hh. now apply HQ.
Qed.

Transparent is_ollama_running acquire_loop.

Lemma is_ollama_running_down (t : Tid) (s : State) (Q : bool -> State -> Prop) :
  never_answers (world s) ->
  (forall s' new, Frame s s' new -> forallb is_http new = true ->
                  disk s' = disk s -> Q false s') ->
  wp t is_ollama_running Q s.
Proof.
  intros Hd HQ. unfold is_ollama_running, _http_get_ok. simpl.
  rewrite (Hd (tick s) OLLAMA_VERSION_URL). simpl.
  rewrite (Hd (S (tick s)) OLLAMA_HEALTH_URL).
  eapply HQ; [frame_concrete | reflexivity | reflexivity].
Qed.

Lemma acquire_loop_free (t : Tid) (fuel : nat) (s : State)
    (start timeout_ms : Z) (Q : bool -> State -> Prop) :
  (1 <= fuel)%nat ->
  _startup_lock s = None ->
  clock s - start < timeout_ms ->
  (forall s', Frame s s' [EvAcquire t true] -> Q true s') ->
  wp t (acquire_loop fuel start timeout_ms) Q s.
Proof.
  intros Hf Hl Hc HQ. destruct fuel as [|fuel]; [lia |]. simpl.
  apply Z.ltb_lt in Hc. rewrite Hc. simpl. rewrite Hl. simpl.
  apply HQ. frame_now.
Qed.

Opaque is_ollama_running acquire_loop.

Lemma probe_answer (t : Tid) (binary : Path) (timeout : Z) (s : State)
    (Q : Exc + Dict -> State -> Prop) :
  bundled_lookup_answers (host s) ->
  (forall probe s',
      Frame s s' [EvProbe t binary] ->
      truthy (dict_get probe "ok")
      = match w_run (world s) (2 + tick s) binary with
        | RunDone returncode _ _ => returncode =? 0
        | _ => false
        end ->
      Q (inr probe) s') ->
  wp t (probe_ollama_binary binary timeout) Q s.
Proof.
  intros Hl HQ. apply wp_run.
  destruct (probe_state t binary timeout s _
              (get_ollama_env_answers _ (Some binary) Hl))
    as (probe & s1 & E & F & _ & _ & _ & _ & Hok).
  exists (inr probe), s1. split; [exact E | now apply HQ].
Qed.

Lemma binaries_app (a b : list Dict) : binaries (a ++ b) = binaries a ++ binaries b.
Proof. apply map_app. Qed.

Lemma binaries_set_attempt (key : string) (v : Value) (attempts : list Dict) :
  key <> "binary" -> binaries (set_attempt key v attempts) = binaries attempts.
Proof.
  intros Hk. induction attempts as [|a [|b rest] IH]; simpl; [reflexivity | |].
  - now rewrite dict_get_set_other.
  - simpl in IH. now rewrite IH.
Qed.

(** From the call to the loop over the candidates and back: with the
    runtime down, the lock free and a candidate to try, the call comes to the
    loop holding the lock, and leaves by the way the loop ended. *)
Lemma reaches_loop (t : Tid) (fuel : nat) (wait : bool) (timeout : Z)
    (s : State) (candidates : list Path) (Q : Completion -> State -> Prop) :
  (1 <= fuel)%nat ->
  never_answers (world s) ->
  events_are_short (world s) ->
  _startup_lock s = None ->
  Raising.get_ollama_binary_candidates (host s) (_selected_ollama_binary s)
    (disk s) = inr candidates ->
  candidates <> [] ->
  (forall s1 h1 h2,
      Frame s s1 (h2 ++ EvAcquire t true :: h1) ->
      forallb is_http h1 = true -> forallb is_http h2 = true ->
      world s1 = world s -> bundled_lookup_answers (host s1) ->
      wp t (try_candidates fuel wait timeout candidates [])
        (fun r s2 =>
           match snd r with
           | Fallthrough =>
               forall s' report,
                 Frame s2 s' [EvRelease t; EvReport t report] ->
                 dict_get report "success" = Some (VBool false) ->
                 dict_get report "error" = Some (VStr "startup_failed") ->
                 report_attempts report (fst r) ->
                 Q (Return false) s'
           | Return b => forall s', Frame s2 s' [EvRelease t] -> Q (Return b) s'
           | Raise exc =>
               forall s' report,
                 Frame s2 s' [EvReport t report; EvRelease t] ->
                 dict_get report "success" = Some (VBool false) ->
                 dict_get report "error" = Some (VStr (str_exc exc)) ->
                 report_attempts report (fst r) ->
                 Q (Return false) s'
           end) s1) ->
  wp t (start_ollama_server fuel wait timeout) Q s.
Proof.
  intros Hf Hd Hs Hl Hc Hne HQ. unfold start_ollama_server.
  apply wp_bind_intro, wp_keep, is_ollama_running_down; [exact Hd |].
  intros s1 n1 F1 H1 D1 W1 Hh1. simpl.
  destruct (frame_http_selected _ _ _ F1 H1) as [Hsel1 Hlock1].
  rewrite Hh1, Hsel1, D1, Hc.
  pose proof (get_ollama_binary_candidates_bundled _ _ _ _ Hc) as Hbl.
  destruct candidates as [|c cs]; [contradiction |].
  unfold _with_startup_lock. simpl.
  do 2 apply wp_bind_intro. apply wp_keep, acquire_loop_free.
  - exact Hf.
  - simpl. now rewrite Hlock1.
  - simpl. rewrite W1. pose proof (Hs (S (S (S (tick s1))))). lia.
  - intros s2 F2 W2 Hh2. simpl in W2, Hh2. simpl.
    apply wp_bind_intro. unfold locked_section.
    apply wp_bind_intro, wp_keep, is_ollama_running_down;
      [rewrite W2, W1; exact Hd |].
    intros s3 n3 F3 H3 D3 W3 Hh3. simpl.
    apply wp_bind_intro.
    eassert (F : Frame s s3 _) by frame_auto. simpl in F.
    rewrite app_nil_r in F.
    eapply wp_mono;
      [| apply (HQ s3 n1 n3 F H1 H3);
         [congruence
         | unfold bundled_lookup_answers; now rewrite Hh3, Hh2, Hh1]].
    intros [attempts completion] s4 Post. simpl in Post.
    destruct completion as [| b | exc]; simpl.
    + apply wp_bind_intro, timestamp_spec. intros ts s5 F5.
      apply wp_bind_intro, set_startup_report_spec. intros s6 F6. simpl.
      eapply Post; [frame_exact | reflexivity | reflexivity | reflexivity].
    + apply Post. frame_exact.
    + apply wp_bind_intro, timestamp_spec. intros ts s5 F5.
      apply wp_bind_intro, set_startup_report_spec. intros s6 F6. simpl.
      eapply Post; [frame_exact | reflexivity | reflexivity | reflexivity].
Qed.

Lemma http_no_probe (l : list Entry) :
  forallb is_http l = true ->
  filter is_probe l = [] /\ filter is_popen l = [] /\ filter is_terminate l = [].
Proof.
  induction l as [|e l IH]; simpl; [auto |].
  rewrite andb_true_iff. intros [He Hl]. destruct e; try discriminate.
  now apply IH.
Qed.

Lemma frame_selected_quiet (s s' : State) (new : list Entry) :
  Frame s s' new -> forallb is_quiet new = true ->
  _selected_ollama_binary s' = _selected_ollama_binary s.
Proof.
  intros (_ & _ & _ & S & _) Hq. rewrite S. now apply quiet_selected_after.
Qed.

(** ** When no candidate passes its probe *)

Transparent try_candidates.

Lemma try_candidates_no_probe (t : Tid) (fuel : nat) (wait : bool) (timeout : Z) :
  forall (candidates : list Path) (s : State) (attempts : list Dict)
         (Q : list Dict * Completion -> State -> Prop),
    no_probe_passes (world s) ->
    bundled_lookup_answers (host s) ->
    (forall attempts' s',
        Frame s s' (rev (map (EvProbe t) candidates)) ->
        binaries attempts' = binaries attempts ++ named candidates ->
        Q (attempts', Fallthrough) s') ->
    wp t (try_candidates fuel wait timeout candidates attempts) Q s.
Proof.
  induction candidates as [|c rest IH]; intros s attempts Q Hn Hbl HQ; simpl.
  - apply HQ; [apply frame_refl |]. unfold named. simpl. now rewrite app_nil_r.
  - apply wp_bind_intro, wp_keep, probe_answer; [exact Hbl |].
    intros probe s1 F1 Hok W1 Hh1.
    rewrite (Hn (2 + tick s)%nat c) in Hok. rewrite Hok. simpl.
    apply IH; [now rewrite W1 | now rewrite Hh1 |].
    intros attempts' s' F2 Hb. apply HQ.
    + eapply frame_trans; [exact F1 | exact F2].
    + rewrite Hb, binaries_app, <- app_assoc. reflexivity.
Qed.

Opaque try_candidates.

Lemma probes_only (t : Tid) (l : list Path) :
  filter is_probe (rev (map (EvProbe t) l)) = rev (map (EvProbe t) l)
  /\ filter is_popen (rev (map (EvProbe t) l)) = []
  /\ forallb is_quiet (rev (map (EvProbe t) l)) = true.
Proof.
  induction l as [|c l (Hp & Hs & Hq)]; simpl; [auto |].
  rewrite !filter_app, forallb_app, Hp, Hs, Hq. simpl. auto.
Qed.

Lemma http_is_quiet (l : list Entry) :
  forallb is_http l = true -> forallb is_quiet l = true.
Proof. intros H. now apply plain_is_quiet, http_is_plain. Qed.

(** X16: when the runtime is down and no candidate passes its probe,
    [start_ollama_server] tries every candidate in order, starts nothing,
    and returns false with the error "startup_failed"; the report lists one
    attempt per candidate, the lock is free again and the cache is as it
    was. *)
Theorem unrunnable_candidates_startup_failed :
  forall (t : Tid) (s : State) (fuel : nat) (wait : bool) (timeout : Z)
         (candidates : list Path),
    (1 <= fuel)%nat ->
    never_answers (world s) ->
    no_probe_passes (world s) ->
    events_are_short (world s) ->
    _startup_lock s = None ->
    Raising.get_ollama_binary_candidates (host s) (_selected_ollama_binary s)
      (disk s) = inr candidates ->
    candidates <> [] ->
    exists (s' : State) (attempts : list Dict) (new : list Entry),
      run t (start_ollama_server fuel wait timeout) s = (Some (Return false), s')
      /\ log s' = new ++ log s
      /\ dict_get (_last_startup_report s') "success" = Some (VBool false)
      /\ dict_get (_last_startup_report s') "error" = Some (VStr "startup_failed")
      /\ report_attempts (_last_startup_report s') attempts
      /\ binaries attempts = named candidates
      /\ filter is_probe new
         = rev (map (EvProbe t) candidates)
      /\ filter is_popen new = []
      /\ _startup_lock s' = None
      /\ _selected_ollama_binary s' = _selected_ollama_binary s.
Proof.
  intros t s fuel wait timeout candidates Hf Hd Hn Hs Hl Hc Hne.
  assert (W : wp t (start_ollama_server fuel wait timeout)
                (fun c s' =>
                   c = Return false
                   /\ exists (attempts : list Dict) (new : list Entry),
                        log s' = new ++ log s
                        /\ dict_get (_last_startup_report s') "success"
                           = Some (VBool false)
                        /\ dict_get (_last_startup_report s') "error"
                           = Some (VStr "startup_failed")
                        /\ report_attempts (_last_startup_report s') attempts
                        /\ binaries attempts = named candidates
                        /\ filter is_probe new
                           = rev (map (EvProbe t) candidates)
                        /\ filter is_popen new = []
                        /\ _startup_lock s' = None
                        /\ _selected_ollama_binary s'
                           = _selected_ollama_binary s) s).
  { apply (reaches_loop t fuel wait timeout s candidates); auto.
    intros s1 h1 h2 F1 H1 H2 W1 Hbl.
    apply try_candidates_no_probe; [now rewrite W1 | exact Hbl |].
    intros attempts s2 F2 Hb. simpl. intros s' report F3 Hsucc Herr Hatt.
    split; [reflexivity |].
    pose proof (frame_trans _ _ _ _ _ (frame_trans _ _ _ _ _ F1 F2) F3) as F.
    destruct F as (L & _ & K & S & R).
    destruct (probes_only t candidates) as (Pp & Ps & Pq).
    destruct (http_no_probe _ H1) as (P1 & S1 & _).
    destruct (http_no_probe _ H2) as (P2 & S2 & _).
    exists attempts. eexists. split; [exact L |].
    simpl in R, K, S. rewrite R, K.
    repeat split; try assumption.
    - simpl. rewrite !filter_app. simpl. now rewrite Pp, P1, P2, app_nil_r.
    - simpl. rewrite !filter_app. simpl. now rewrite Ps, S1, S2.
    - rewrite S, !selected_after_app. simpl.
      now rewrite !quiet_selected_after by auto using http_is_quiet. }
  apply wp_run in W. destruct W as (c & s' & E & -> & attempts & new & H).
  now exists s', attempts, new.
Qed.

Lemma unrunnable_candidates_startup_failed_witness :
  exists (s' : State) (attempts : list Dict) (new : list Entry),
    run 0%nat (start_ollama_server 1 true 30) (fresh host_bundled world_unrunnable)
    = (Some (Return false), s')
    /\ log s' = new ++ log (fresh host_bundled world_unrunnable)
    /\ dict_get (_last_startup_report s') "success" = Some (VBool false)
    /\ dict_get (_last_startup_report s') "error" = Some (VStr "startup_failed")
    /\ report_attempts (_last_startup_report s') attempts
    /\ binaries attempts
       = named ["/opt/homebrew/bin/ollama"; "/usr/bin/ollama";
                "/opt/openscribe/backend/bin/ollama"]
    /\ filter is_probe new
       = rev (map (EvProbe 0%nat)
                ["/opt/homebrew/bin/ollama"; "/usr/bin/ollama";
                 "/opt/openscribe/backend/bin/ollama"])
    /\ filter is_popen new = []
    /\ _startup_lock s' = None
    /\ _selected_ollama_binary s' = None.
Proof.
  apply (unrunnable_candidates_startup_failed 0%nat
           (fresh host_bundled world_unrunnable) 1 true 30).
  - lia.
  - intros n url. reflexivity.
  - intros n binary. reflexivity.
  - intros n. vm_compute. reflexivity.
  - reflexivity.
  - vm_compute. reflexivity.
  - discriminate.
Defined.

(** ** When a process cannot be started *)

Transparent try_candidates.

Lemma try_candidates_spawn_raises (t : Tid) (fuel : nat) (wait : bool)
    (timeout : Z) (c : Path) (rest : list Path) (s : State)
    (attempts : list Dict) (msg : string)
    (Q : list Dict * Completion -> State -> Prop) :
  every_probe_passes (world s) ->
  spawn_raises (world s) msg ->
  bundled_lookup_answers (host s) ->
  (forall attempts' s',
      Frame s s' [EvSpawn t c (_startup_lock s) (PopenRaised msg); EvProbe t c] ->
      binaries attempts' = binaries attempts ++ named [c] ->
      Q (attempts', Raise (OSError msg)) s') ->
  wp t (try_candidates fuel wait timeout (c :: rest) attempts) Q s.
Proof.
  intros Hp Hr Hbl HQ. simpl.
  apply wp_bind_intro, wp_keep, probe_answer; [exact Hbl |].
  intros probe s1 F1 Hok W1 Hh1.
  destruct (Hp (2 + tick s)%nat c) as (so & se & E). rewrite E in Hok.
  simpl in Hok. rewrite Hok. simpl.
  rewrite Hh1, (get_ollama_env_answers _ (Some c) Hbl). simpl.
  rewrite W1, (Hr (S (tick s1)) c). simpl.
  assert (L1 : _startup_lock s1 = _startup_lock s)
    by (destruct F1 as (_ & _ & K & _); exact K).
  rewrite L1. apply HQ; [frame_exact |].
  now rewrite binaries_app.
Qed.

Opaque try_candidates.

(** X17: an error raised when starting a process ends the whole call.  With
    the runtime down, the probes passing and [Popen] raising, the first
    candidate is probed and its start attempted, and [start_ollama_server]
    returns false with the exception's message as the report's error: the
    candidates after the first are neither probed nor started, however many
    there are.  The lock is free again and the cache is as it was. *)
Theorem spawn_error_ends_call :
  forall (t : Tid) (s : State) (fuel : nat) (wait : bool) (timeout : Z)
         (msg : string) (c : Path) (cs : list Path),
    (1 <= fuel)%nat ->
    never_answers (world s) ->
    every_probe_passes (world s) ->
    spawn_raises (world s) msg ->
    events_are_short (world s) ->
    _startup_lock s = None ->
    Raising.get_ollama_binary_candidates (host s) (_selected_ollama_binary s)
      (disk s) = inr (c :: cs) ->
    exists (s' : State) (attempts : list Dict) (new : list Entry),
      run t (start_ollama_server fuel wait timeout) s = (Some (Return false), s')
      /\ log s' = new ++ log s
      /\ dict_get (_last_startup_report s') "success" = Some (VBool false)
      /\ dict_get (_last_startup_report s') "error" = Some (VStr msg)
      /\ report_attempts (_last_startup_report s') attempts
      /\ binaries attempts = named [c]
      /\ filter is_probe new = [EvProbe t c]
      /\ filter is_popen new = [EvSpawn t c (Some t) (PopenRaised msg)]
      /\ _startup_lock s' = None
      /\ _selected_ollama_binary s' = _selected_ollama_binary s.
Proof.
  intros t s fuel wait timeout msg c cs Hf Hd Hp Hr Hs Hl Hc.
  assert (W : wp t (start_ollama_server fuel wait timeout)
                (fun r s' =>
                   r = Return false
                   /\ exists (attempts : list Dict) (new : list Entry),
                        log s' = new ++ log s
                        /\ dict_get (_last_startup_report s') "success"
                           = Some (VBool false)
                        /\ dict_get (_last_startup_report s') "error"
                           = Some (VStr msg)
                        /\ report_attempts (_last_startup_report s') attempts
                        /\ binaries attempts = named [c]
                        /\ filter is_probe new = [EvProbe t c]
                        /\ filter is_popen new
                           = [EvSpawn t c (Some t) (PopenRaised msg)]
                        /\ _startup_lock s' = None
                        /\ _selected_ollama_binary s'
                           = _selected_ollama_binary s) s).
  { apply (reaches_loop t fuel wait timeout s (c :: cs)); auto;
      [discriminate |].
    intros s1 h1 h2 F1 H1 H2 W1 Hbl.
    apply try_candidates_spawn_raises with (msg := msg);
      [now rewrite W1 | now rewrite W1 | exact Hbl |].
    intros attempts s2 F2 Hb. simpl. intros s' report F3 Hsucc Herr Hatt.
    split; [reflexivity |].
    assert (L1 : _startup_lock s1 = Some t).
    { destruct F1 as (_ & _ & K & _). rewrite K, lock_after_app. simpl.
      rewrite quiet_lock_after by now apply http_is_quiet. reflexivity. }
    rewrite L1 in F2.
    pose proof (frame_trans _ _ _ _ _ (frame_trans _ _ _ _ _ F1 F2) F3) as F.
    destruct F as (L & _ & K & S & R).
    destruct (http_no_probe _ H1) as (P1 & S1 & _).
    destruct (http_no_probe _ H2) as (P2 & S2 & _).
    exists attempts. eexists. split; [exact L |].
    simpl in R, K, S. rewrite R, K.
    repeat split; try assumption.
    - simpl. rewrite !filter_app. simpl. now rewrite P1, P2.
    - simpl. rewrite !filter_app. simpl. now rewrite S1, S2.
    - rewrite S, !selected_after_app. simpl.
      now rewrite !quiet_selected_after by auto using http_is_quiet. }
  apply wp_run in W. destruct W as (r & s' & E & -> & attempts & new & H).
  now exists s', attempts, new.
Qed.

Lemma spawn_error_ends_call_witness :
  exists (s' : State) (attempts : list Dict) (new : list Entry),
    run 0%nat (start_ollama_server 1 true 30) (fresh host_bundled world_no_spawn)
    = (Some (Return false), s')
    /\ log s' = new ++ log (fresh host_bundled world_no_spawn)
    /\ dict_get (_last_startup_report s') "success" = Some (VBool false)
    /\ dict_get (_last_startup_report s') "error"
       = Some (VStr "Permission denied")
    /\ report_attempts (_last_startup_report s') attempts
    /\ binaries attempts = named ["/opt/homebrew/bin/ollama"]
    /\ filter is_probe new = [EvProbe 0%nat "/opt/homebrew/bin/ollama"]
    /\ filter is_popen new
       = [EvSpawn 0%nat "/opt/homebrew/bin/ollama" (Some 0%nat)
            (PopenRaised "Permission denied")]
    /\ _startup_lock s' = None
    /\ _selected_ollama_binary s' = None.
Proof.
  apply (spawn_error_ends_call 0%nat (fresh host_bundled world_no_spawn) 1 true
           30 "Permission denied" "/opt/homebrew/bin/ollama"
           ["/usr/bin/ollama"; "/opt/openscribe/backend/bin/ollama"]).
  - lia.
  - intros n url. reflexivity.
  - intros n binary. now exists "ollama version is 0.15.4", "".
  - intros n binary. reflexivity.
  - intros n. vm_compute. reflexivity.
  - reflexivity.
  - vm_compute. reflexivity.
Defined.

(** ** When the started processes never become ready *)

Transparent wait_ready poll terminate_proc.

Lemma wait_ready_lingers (t : Tid) (candidate : Path) (fuel : nat) :
  forall (s : State) (proc : Proc) (start_time timeout : Z)
         (attempts : list Dict)
         (Q : list Dict * Proc * Completion -> State -> Prop),
    never_answers (world s) ->
    (forall n p, w_poll (world s) n p = None) ->
    returncode proc = None ->
    (1 <= fuel)%nat ->
    timeout * 1000 - (clock s - start_time) + 500 <= 500 * Z.of_nat fuel ->
    (forall proc' s' new,
        Frame s s' new -> forallb is_http new = true ->
        returncode proc' = None -> pid proc' = pid proc ->
        timeout * 1000 <= clock s' - start_time ->
        Q (attempts, proc', Fallthrough) s') ->
    wp t (wait_ready fuel candidate proc start_time timeout attempts) Q s.
Proof.
  induction fuel as [|fuel IH];
    intros s proc start_time timeout attempts Q Hd Hp Hr Hf Hb HQ; [lia |].
  simpl.
  destruct (clock s - start_time <? timeout * 1000) eqn:Ein.
  - apply Z.ltb_lt in Ein. rewrite Nat2Z.inj_succ in Hb.
    apply wp_bind_intro, wp_keep, is_ollama_running_down; [exact Hd |].
    intros s1 n1 F1 H1 _ W1 _. simpl in W1. simpl.
    unfold poll. rewrite Hr. simpl. rewrite W1, Hp. simpl.
    apply IH; simpl; try (rewrite W1); auto; try lia.
    + destruct F1 as (_ & C1 & _). simpl in C1. lia.
    + intros proc' s' new F2 H2 Hr' Hpid Hc.
      apply (HQ proc' s' (new ++ n1)); auto.
      * eapply frame_trans; [| exact F2]. frame_exact.
      * now rewrite forallb_app, H2, H1.
  - apply Z.ltb_ge in Ein. simpl.
    apply (HQ proc _ []); auto; [frame_now | simpl; lia].
Qed.

Lemma terminate_result (t : Tid) (proc : Proc) (s : State)
    (Q : unit -> State -> Prop) :
  (forall s' new,
      Frame s s' new ->
      new = [EvTerminate t (pid proc)]
      \/ new = [EvKill t (pid proc); EvTerminate t (pid proc)] ->
      Q tt s') ->
  wp t (terminate_proc proc) Q s.
Proof.
  intros HQ. unfold terminate_proc. simpl.
  destruct (w_terminate (world s) (tick s) (pid proc)); simpl.
  - destruct (w_wait (world s) (S (tick s)) (pid proc)); simpl.
    + apply (HQ _ [EvTerminate t (pid proc)]); [frame_now | now left].
    + apply (HQ _ [EvKill t (pid proc); EvTerminate t (pid proc)]);
        [frame_now | now right].
  - apply (HQ _ [EvKill t (pid proc); EvTerminate t (pid proc)]);
      [frame_now | now right].
Qed.

Opaque wait_ready terminate_proc.

Lemma http_no_pids (l : list Entry) :
  forallb is_http l = true -> started_pids l = [] /\ terminated_pids l = [].
Proof.
  induction l as [|e l IH]; simpl; [auto |].
  rewrite andb_true_iff. intros [He Hl]. destruct e; try discriminate.
  now apply IH.
Qed.

Lemma started_pids_app (a b : list Entry) :
  started_pids (a ++ b) = started_pids a ++ started_pids b.
Proof. apply flat_map_app. Qed.

Lemma terminated_pids_app (a b : list Entry) :
  terminated_pids (a ++ b) = terminated_pids a ++ terminated_pids b.
Proof. apply flat_map_app. Qed.

Ltac elapsed_nonneg :=
  repeat match goal with
         | H : context [Z.of_N (w_elapsed ?w ?n)] |- _ =>
             lazymatch goal with
             | _ : 0 <= Z.of_N (w_elapsed w n) |- _ => fail
             | _ => pose proof (N2Z.is_nonneg (w_elapsed w n))
             end
         end.

Transparent try_candidates poll.

Lemma try_candidates_linger (t : Tid) (fuel : nat) (timeout : Z) :
  (1 <= fuel)%nat ->
  2 * timeout + 1 <= Z.of_nat fuel ->
  forall (candidates : list Path) (s : State) (attempts : list Dict)
         (Q : list Dict * Completion -> State -> Prop),
    never_answers (world s) ->
    every_probe_passes (world s) ->
    processes_linger (world s) ->
    bundled_lookup_answers (host s) ->
    (forall attempts' s' new,
        Frame s s' new ->
        forallb is_plain new = true ->
        binaries attempts' = binaries attempts ++ named candidates ->
        started_pids new = terminated_pids new ->
        length (started_pids new) = length candidates ->
        timeout * 1000 * Z.of_nat (length candidates) <= clock s' - clock s ->
        Q (attempts', Fallthrough) s') ->
    wp t (try_candidates fuel true timeout candidates attempts) Q s.
Proof.
  intros Hf Hb.
  induction candidates as [|c rest IH]; intros s attempts Q Hd Hp Hl Hbl HQ;
    simpl.
  - apply (HQ attempts s []); auto; [apply frame_refl | | simpl; lia].
    unfold named. simpl. now rewrite app_nil_r.
  - apply wp_bind_intro, wp_keep, probe_answer; [exact Hbl |].
    intros probe s1 F1 Hok W1 Hh1.
    destruct (Hp (2 + tick s)%nat c) as (so & se & E). rewrite E in Hok.
    simpl in Hok. rewrite Hok. simpl.
    rewrite Hh1, (get_ollama_env_answers _ (Some c) Hbl). simpl.
    destruct Hl as [Hstart Hpoll].
    destruct (Hstart (S (tick s1)) c) as [new_pid Es].
    rewrite W1, Es. simpl.
    apply wp_bind_intro, wp_keep, wait_ready_lingers; simpl;
      try (rewrite W1); auto.
    { pose proof (N2Z.is_nonneg (w_elapsed (world s) (S (S (tick s1))))). lia. }
    intros proc2 s2 n2 F2 H2 Hr2 Hpid2 Hc2 W2 Hh2. simpl in W2, Hh2. simpl.
    unfold poll. rewrite Hr2. simpl. rewrite ?W2, ?W1, Hpoll. simpl.
    apply wp_bind_intro, wp_keep, terminate_result.
    intros s3 n3 F3 Hn3 W3 Hh3. simpl in W3, Hh3, Hn3. rewrite Hpid2 in Hn3.
    assert (Hbl3 : bundled_lookup_answers (host s3))
      by (unfold bundled_lookup_answers; now rewrite Hh3, Hh2, Hh1).
    apply IH; rewrite ?W3, ?W2, ?W1; auto; [now split |].
    intros attempts' s' n4 F4 H4 Hbin Hpids Hlen Hclock.
    eassert (F : Frame s s' _) by frame_auto. simpl in F.
    rewrite ?app_nil_r in F.
    eapply HQ; [exact F | | | | |].
    + rewrite !forallb_app, H4, (http_is_plain _ H2). simpl.
      destruct Hn3 as [-> | ->]; reflexivity.
    + rewrite Hbin, !binaries_set_attempt, binaries_app, <- app_assoc by discriminate.
      reflexivity.
    + destruct (http_no_pids _ H2) as [S2 T2].
      rewrite !started_pids_app, !terminated_pids_app, Hpids, S2, T2. simpl.
      destruct Hn3 as [-> | ->]; reflexivity.
    + destruct (http_no_pids _ H2) as [S2 T2].
      rewrite !started_pids_app, !length_app, Hlen, S2. simpl.
      destruct Hn3 as [-> | ->]; simpl; lia.
    + destruct F1 as (_ & C1 & _), F3 as (_ & C3 & _), F4 as (_ & C4 & _).
      simpl in *. rewrite Nat2Z.inj_succ.
      elapsed_nonneg. nia.
Qed.

Opaque try_candidates poll.

(** X18: a runtime that never becomes ready costs the caller the whole
    timeout for every candidate, and leaves no process behind.  With the
    runtime down, the probes passing and every started process neither
    answering nor ending, [start_ollama_server] with [wait] set starts one
    process per candidate and asks every one of them to terminate, in the
    same order; it returns false with the error "startup_failed" no sooner
    than [timeout] seconds times the number of candidates after the call,
    the lock free again and the cache as it was. *)
Theorem unready_processes_terminated :
  forall (t : Tid) (s : State) (fuel : nat) (timeout : Z)
         (candidates : list Path),
    (1 <= fuel)%nat ->
    2 * timeout + 1 <= Z.of_nat fuel ->
    never_answers (world s) ->
    every_probe_passes (world s) ->
    processes_linger (world s) ->
    events_are_short (world s) ->
    _startup_lock s = None ->
    Raising.get_ollama_binary_candidates (host s) (_selected_ollama_binary s)
      (disk s) = inr candidates ->
    candidates <> [] ->
    exists (s' : State) (attempts : list Dict) (new : list Entry),
      run t (start_ollama_server fuel true timeout) s = (Some (Return false), s')
      /\ log s' = new ++ log s
      /\ dict_get (_last_startup_report s') "error" = Some (VStr "startup_failed")
      /\ report_attempts (_last_startup_report s') attempts
      /\ binaries attempts = named candidates
      /\ started_pids new = terminated_pids new
      /\ length (started_pids new) = length candidates
      /\ timeout * 1000 * Z.of_nat (length candidates)
         <= clock s' - clock s
      /\ _startup_lock s' = None
      /\ _selected_ollama_binary s' = _selected_ollama_binary s.
Proof.
  intros t s fuel timeout candidates Hf Hb Hd Hp Hg Hs Hl Hc Hne.
  assert (W : wp t (start_ollama_server fuel true timeout)
                (fun r s' =>
                   r = Return false
                   /\ exists (attempts : list Dict) (new : list Entry),
                        log s' = new ++ log s
                        /\ dict_get (_last_startup_report s') "error"
                           = Some (VStr "startup_failed")
                        /\ report_attempts (_last_startup_report s') attempts
                        /\ binaries attempts = named candidates
                        /\ started_pids new = terminated_pids new
                        /\ length (started_pids new) = length candidates
                        /\ timeout * 1000 * Z.of_nat (length candidates)
         <= clock s' - clock s
                        /\ _startup_lock s' = None
                        /\ _selected_ollama_binary s'
                           = _selected_ollama_binary s) s).
  { apply (reaches_loop t fuel true timeout s candidates); auto.
    intros s1 h1 h2 F1 H1 H2 W1 Hbl.
    apply try_candidates_linger; try (rewrite W1); auto.
    intros attempts s2 n2 F2 P2 Hbin Hpids Hlen Hclock. simpl.
    intros s' report F3 Hsucc Herr Hatt.
    split; [reflexivity |].
    pose proof (frame_trans _ _ _ _ _ (frame_trans _ _ _ _ _ F1 F2) F3) as F.
    destruct F1 as (_ & C1 & _), F3 as (_ & C3 & _).
    destruct F as (L & _ & K & S & R).
    destruct (http_no_pids _ H1) as (S1 & T1).
    destruct (http_no_pids _ H2) as (S2 & T2).
    exists attempts. eexists. split; [exact L |].
    simpl in R, K, S. rewrite R, K.
    repeat split; try assumption.
    - simpl. rewrite !started_pids_app, !terminated_pids_app. simpl.
      now rewrite S1, S2, T1, T2, Hpids.
    - simpl. rewrite !started_pids_app. simpl.
      now rewrite S1, S2, !app_nil_r.
    - lia.
    - rewrite S, !selected_after_app. simpl.
      now rewrite !quiet_selected_after
        by auto using http_is_quiet, plain_is_quiet. }
  apply wp_run in W. destruct W as (r & s' & E & -> & attempts & new & H).
  now exists s', attempts, new.
Qed.

Lemma unready_processes_terminated_witness :
  exists (s' : State) (attempts : list Dict) (new : list Entry),
    run 0%nat (start_ollama_server 5 true 2) (fresh host_bundled world_down)
    = (Some (Return false), s')
    /\ log s' = new ++ log (fresh host_bundled world_down)
    /\ dict_get (_last_startup_report s') "error" = Some (VStr "startup_failed")
    /\ report_attempts (_last_startup_report s') attempts
    /\ binaries attempts
       = named ["/opt/homebrew/bin/ollama"; "/usr/bin/ollama";
                "/opt/openscribe/backend/bin/ollama"]
    /\ started_pids new = terminated_pids new
    /\ length (started_pids new) = 3%nat
    /\ 2 * 1000 * 3 <= clock s' - clock (fresh host_bundled world_down)
    /\ _startup_lock s' = None
    /\ _selected_ollama_binary s' = None.
Proof.
  apply (unready_processes_terminated 0%nat (fresh host_bundled world_down) 5 2).
  - lia.
  - lia.
  - intros n url. reflexivity.
  - intros n binary. now exists "ollama version is 0.15.4", "".
  - split; [intros n binary; now eexists | intros n p; reflexivity].
  - intros n. vm_compute. reflexivity.
  - reflexivity.
  - vm_compute. reflexivity.
  - discriminate.
Defined.

(** ** What a call leaves in the cache and in the report *)

Transparent wait_ready try_candidates.

Lemma wait_ready_result (t : Tid) (candidate : Path) (fuel : nat) :
  forall (s : State) (proc : Proc) (start_time timeout : Z)
         (attempts : list Dict)
         (Q : list Dict * Proc * Completion -> State -> Prop),
    (1 <= fuel)%nat ->
    timeout * 1000 - (clock s - start_time) + 500 <= 500 * Z.of_nat fuel ->
    (forall attempts' proc' completion s' new,
        Frame s s' new ->
        wait_result t candidate attempts attempts' completion new ->
        Q (attempts', proc', completion) s') ->
    wp t (wait_ready fuel candidate proc start_time timeout attempts) Q s.
Proof.
  induction fuel as [|fuel IH]; intros s proc start_time timeout attempts Q Hf Hb HQ;
    [lia |].
  simpl.
  destruct (clock s - start_time <? timeout * 1000) eqn:Ein.
  - apply Z.ltb_lt in Ein. rewrite Nat2Z.inj_succ in Hb.
    apply wp_bind_intro, is_ollama_running_spec.
    intros running s1 n1 F1 H1 R1.
    destruct running.
    + simpl. apply wp_bind_intro, timestamp_spec. intros ts s2 F2.
      apply wp_bind_intro, set_startup_report_spec. intros s3 F3.
      simpl. eapply HQ; [frame_auto |].
      simpl. rewrite ?app_nil_r. split; [reflexivity |].
      split; [reflexivity |]. do 2 eexists.
      split; [reflexivity |]. split; [exact H1 |]. repeat split.
    + simpl. apply wp_bind_intro, poll_spec. intros proc1 s2 F2 _.
      destruct (returncode proc1) as [rc |]; simpl.
      * eapply HQ; [frame_auto |]. simpl. rewrite ?app_nil_r.
        split; [| exact H1].
        now rewrite !binaries_set_attempt by discriminate.
      * apply IH; [lia | |].
        -- destruct F1 as (_ & C1 & _), F2 as (_ & C2 & _). simpl in *. lia.
        -- intros attempts' proc' completion s' new F3 [Hbin Hsh].
           eapply HQ; [frame_auto |].
           simpl. rewrite ?app_nil_r. split; [exact Hbin |].
           destruct completion as [| [|] |]; simpl in *; try contradiction.
           ++ now rewrite forallb_app, Hsh, H1.
           ++ destruct Hsh as (Ha & report & http & -> & Hh & Hr).
              split; [exact Ha |].
              exists report, (http ++ n1). repeat split; try apply Hr.
              now rewrite forallb_app, Hh, H1.
  - simpl. eapply HQ; [frame_auto |]. split; reflexivity.
Qed.

Lemma named_cons (c : Path) (l : list Path) : named (c :: l) = named [c] ++ named l.
Proof. reflexivity. Qed.

Lemma try_candidates_result (t : Tid) (fuel : nat) (wait : bool) (timeout : Z) :
  (1 <= fuel)%nat ->
  2 * timeout + 1 <= Z.of_nat fuel ->
  forall (candidates : list Path) (s : State) (attempts : list Dict)
         (Q : list Dict * Completion -> State -> Prop),
    (forall attempts' completion s' new,
        Frame s s' new ->
        try_result t wait candidates attempts attempts' completion new ->
        Q (attempts', completion) s') ->
    wp t (try_candidates fuel wait timeout candidates attempts) Q s.
Proof.
  intros Hf Hb.
  assert (Next : forall c rest attempts attempts1 attempts' completion n p,
             binaries attempts1 = binaries attempts ++ named [c] ->
             forallb is_plain p = true ->
             try_result t wait rest attempts1 attempts' completion n ->
             try_result t wait (c :: rest) attempts attempts' completion (n ++ p)).
  { intros c rest attempts attempts1 attempts' completion n p Hb1 Hp [k [Hbin Hsh]].
    exists (S k). simpl firstn. split.
    - now rewrite Hbin, Hb1, <- app_assoc.
    - destruct completion as [| [|] | exc]; try contradiction.
      + destruct Hsh as [Hk Hn]. split; [now rewrite Hk |].
        now rewrite forallb_app, Hn, Hp.
      + destruct Hsh as (report & c' & tried & plain & Hk & -> & Hpl & Hr).
        exists report, c', (c :: tried), (plain ++ p).
        repeat split; try apply Hr.
        * now rewrite Hk.
        * now rewrite forallb_app, Hpl, Hp.
      + now rewrite forallb_app, Hsh, Hp. }
  induction candidates as [|candidate rest IH]; intros s attempts Q HQ; simpl.
  - eapply HQ; [apply frame_refl |]. exists 0%nat. simpl.
    unfold named. simpl. now rewrite app_nil_r.
  - apply wp_bind_intro, probe_spec; [intros exc s1 F1 | intros probe s1 F1].
    { simpl. eapply HQ; [exact F1 |]. exists 0%nat. simpl.
      unfold named. simpl. now rewrite app_nil_r. }
    pose proof (binaries_app attempts
                  [[("binary", VStr (str candidate)); ("probe", VDict probe)]])
      as B1.
    change (binaries [[("binary", VStr (str candidate)); ("probe", VDict probe)]])
      with (named [candidate]) in B1.
    destruct (negb (truthy (dict_get probe "ok"))).
    + apply IH. intros attempts' completion s' new F2 Hsh.
      eapply HQ; [frame_auto |]. eapply Next; [exact B1 | reflexivity | exact Hsh].
    + simpl.
      destruct (Raising.get_ollama_env (host s1) (Some candidate))
        as [exc | env]; simpl.
      { eapply HQ; [frame_auto |]. exists 1%nat. simpl. split; [exact B1 |].
        reflexivity. }
      destruct (w_popen (world s1) (S (tick s1)) candidate) as [new_pid | msg] eqn:Ep;
        simpl.
      * pose proof B1 as B2.
        rewrite <- (binaries_set_attempt "pid" (VInt new_pid)) in B2 by discriminate.
        destruct wait; simpl.
        -- apply wp_bind_intro, wait_ready_result; [exact Hf | |].
           { destruct F1 as (_ & C1 & _). simpl. lia. }
           intros attempts1 proc1 completion s2 n2 F2 [Hbin Hw]. simpl.
           rewrite <- Hbin in B2.
           destruct completion as [| [|] |]; simpl in Hw; try contradiction.
           ++ apply wp_bind_intro, poll_spec. intros proc2 s3 F3 _.
              destruct (returncode proc2).
              ** apply IH. intros attempts' completion s' new F4 Hsh.
                 eapply HQ; [frame_auto |].
                 rewrite ?app_nil_r, <- ?app_assoc.
                 eapply Next; [exact B2 | | exact Hsh]. simpl.
                 now rewrite !forallb_app, (http_is_plain _ Hw).
              ** apply wp_bind_intro, terminate_spec. intros s4 n4 F4 Hp4 _.
                 apply IH. intros attempts' completion s' new F5 Hsh.
                 eapply HQ; [frame_auto |].
                 rewrite ?app_nil_r, <- ?app_assoc.
                 eapply Next; [| | exact Hsh].
                 --- rewrite binaries_set_attempt by discriminate. exact B2.
                 --- simpl.
                     now rewrite !forallb_app, Hp4, (http_is_plain _ Hw).
           ++ simpl. eapply HQ; [frame_auto |].
              destruct Hw as (Ha & report & http & -> & Hh & Hr).
              simpl. rewrite ?app_nil_r.
              exists 1%nat. simpl. split; [exact B2 |].
              exists report, candidate, [],
                (http ++ [EvSpawn t candidate (_startup_lock s1) (PopenStarted new_pid); EvProbe t candidate]).
              split; [reflexivity | split; [reflexivity | split]].
              ** now rewrite forallb_app, (http_is_plain _ Hh).
              ** rewrite Ha. exact Hr.
        -- apply wp_bind_intro, timestamp_spec. intros ts s2 F2.
           apply wp_bind_intro, set_startup_report_spec. intros s3 F3. simpl.
           eapply HQ; [frame_auto |]. simpl. rewrite ?app_nil_r.
           exists 1%nat. simpl. split; [exact B2 |].
           do 2 eexists. exists [].  eexists.
           split; [reflexivity | split; [reflexivity | split]];
             [reflexivity | repeat split].
      * eapply HQ; [frame_auto |]. exists 1%nat. simpl. split; [exact B1 |].
        reflexivity.
Qed.

Opaque wait_ready try_candidates.

Ltac final_frame s F :=
  lazymatch goal with
  | |- failed_call _ _ ?b => eassert (F : Frame s b _) by frame_auto
  | |- _ \/ started_call _ _ ?b => eassert (F : Frame s b _) by frame_auto
  end.

Ltac cache_kept S :=
  simpl in S; rewrite ?selected_after_app in S; simpl in S;
  rewrite ?selected_after_app in S; simpl in S;
  rewrite ?quiet_selected_after in S
    by first [ now apply http_is_quiet
             | now apply plain_is_quiet
             | now eapply failed_acquire_is_quiet; eassumption ].

Lemma start_ollama_server_result (t : Tid) (fuel : nat) (wait : bool)
    (timeout : Z) (s : State) :
  (201 <= fuel)%nat ->
  2 * timeout + 1 <= Z.of_nat fuel ->
  wp t (start_ollama_server fuel wait timeout)
    (fun r s' =>
       match r with
       | Return true =>
           (dict_get (_last_startup_report s') "already_running"
            = Some (VBool true)
            /\ _selected_ollama_binary s' = _selected_ollama_binary s)
           \/ started_call wait
                (Raising.get_ollama_binary_candidates (host s)
                   (_selected_ollama_binary s) (disk s)) s'
       | Return false =>
           failed_call
             (Raising.get_ollama_binary_candidates (host s)
                (_selected_ollama_binary s) (disk s)) s s'
       | Raise exc =>
           Raising.get_ollama_binary_candidates (host s)
             (_selected_ollama_binary s) (disk s) = inl exc
           /\ _selected_ollama_binary s' = _selected_ollama_binary s
           /\ _last_startup_report s' = _last_startup_report s
       | Fallthrough => False
       end) s.
Proof.
  intros Hf Hb. unfold start_ollama_server.
  apply wp_bind_intro, is_ollama_running_full.
  intros running s1 n1 F1 H1 R1 Hh1 Hd1 _.
  destruct (frame_http_selected _ _ _ F1 H1) as [Hsel1 Hlock1].
  destruct running.
  - apply wp_bind_intro, timestamp_spec. intros ts s2 F2.
    apply wp_bind_intro, set_startup_report_spec. intros s3 F3. simpl.
    final_frame s F.
    destruct F as (_ & _ & _ & S & R). simpl in R. simpl in S.
    cache_kept S.
    left. rewrite R. split; [reflexivity | exact S].
  - simpl. rewrite Hh1, Hsel1, Hd1.
    destruct (Raising.get_ollama_binary_candidates (host s)
                (_selected_ollama_binary s) (disk s)) as [exc | [|c cs]] eqn:Ec.
    { simpl. split; [reflexivity |].
      destruct F1 as (_ & _ & _ & _ & R). rewrite R.
      split; [exact Hsel1 |].
      now apply quiet_report_after, http_is_quiet. }
    + apply wp_bind_intro, timestamp_spec. intros ts s2 F2.
      apply wp_bind_intro, set_startup_report_spec. intros s3 F3. simpl.
      final_frame s F.
      destruct F as (_ & _ & _ & S & R). simpl in R. cache_kept S.
      exists []. split; [reflexivity |].
      unfold failed_result; simpl.
      split; [exact S |]. rewrite R. split; [reflexivity |]. left. now split.
    + unfold _with_startup_lock. simpl.
      do 2 apply wp_bind_intro. apply acquire_loop_spec; [lia | simpl; lia |].
      intros acquired s2 n2 F2 Ha _.
      simpl in Ha. rewrite Hlock1 in Ha.
      destruct acquired; simpl.
      * destruct Ha as [L0 ->].
        apply wp_bind_intro. unfold locked_section.
        apply wp_bind_intro, is_ollama_running_spec. intros running s3 n3 F3 H3 R3.
        destruct running.
        -- apply wp_bind_intro, timestamp_spec. intros ts s4 F4.
           apply wp_bind_intro, set_startup_report_spec. intros s5 F5. simpl.
           final_frame s F.
           destruct F as (_ & _ & _ & S & R). simpl in R. cache_kept S.
           simpl.
           left. rewrite R. split; [reflexivity | exact S].
        -- apply wp_bind_intro, try_candidates_result; [lia | exact Hb |].
           intros attempts completion s4 n4 F4 (k & Hbin & Hsh). simpl in Hbin.
           destruct completion as [| [|] | exc]; try contradiction.
           ++ destruct Hsh as [Hk Hp4].
              apply wp_bind_intro, timestamp_spec. intros ts s5 F5.
              apply wp_bind_intro, set_startup_report_spec. intros s6 F6. simpl.
              final_frame s F.
              destruct F as (_ & _ & _ & S & R). simpl in R. cache_kept S.
              exists (c :: cs). split; [reflexivity |].
              unfold failed_result; simpl.
              split; [exact S |]. rewrite R. split; [reflexivity |]. right.
              exists "startup_failed", (c :: cs), [], attempts.
              rewrite app_nil_r, Hbin, Hk. repeat split.
           ++ destruct Hsh as (report & c' & tried & plain & Hk & -> & Hp4 & Hr).
              simpl.
              final_frame s F.
              destruct F as (_ & _ & _ & S & R). simpl in R, S.
              right. exists (c :: cs). split; [reflexivity |].
              unfold started_result; simpl.
              exists c', tried, (skipn k (c :: cs)), attempts.
              rewrite R, S, Hbin, Hk. repeat split; try apply Hr.
              rewrite <- (firstn_skipn k (c :: cs)) at 1.
              now rewrite Hk, <- app_assoc.
           ++ simpl.
              apply wp_bind_intro, timestamp_spec. intros ts s5 F5.
              apply wp_bind_intro, set_startup_report_spec. intros s6 F6. simpl.
              final_frame s F.
              destruct F as (_ & _ & _ & S & R). simpl in R. cache_kept S.
              exists (c :: cs). split; [reflexivity |].
              unfold failed_result; simpl.
              split; [exact S |]. rewrite R. split; [reflexivity |]. right.
              exists (str_exc exc), (firstn k (c :: cs)), (skipn k (c :: cs)),
                attempts.
              rewrite firstn_skipn, Hbin. repeat split.
      * apply wp_bind_intro, timestamp_spec. intros ts s3 F3.
        apply wp_bind_intro, set_startup_report_spec. intros s4 F4. simpl.
        final_frame s F.
        destruct F as (_ & _ & _ & S & R). simpl in R. cache_kept S.
        exists (c :: cs). split; [reflexivity |].
        unfold failed_result; simpl.
        split; [exact S |]. rewrite R. split; [reflexivity |]. right.
        exists "Timed out acquiring Ollama startup lock", [], (c :: cs), [].
        repeat split.
Qed.

(** X19: what a successful call leaves.  A call of [start_ollama_server]
    that returns true either found the runtime answering, and then reports
    [already_running] and leaves the cache as it was, or started one of the
    candidates that discovery answered: the cache then holds that candidate,
    the report names it under [selected_binary] with [waited] as the call
    was made, and the attempts the report lists are of the candidates before
    it and of it, in the order of the candidate list. *)
Theorem started_candidate_cached_and_reported :
  forall (t : Tid) (s : State) (fuel : nat) (wait : bool) (timeout : Z),
    (201 <= fuel)%nat ->
    2 * timeout + 1 <= Z.of_nat fuel ->
    exists (c : Completion) (s' : State),
      run t (start_ollama_server fuel wait timeout) s = (Some c, s')
      /\ (c = Return true ->
          (dict_get (_last_startup_report s') "already_running"
           = Some (VBool true)
           /\ _selected_ollama_binary s' = _selected_ollama_binary s)
          \/ exists candidates,
               Raising.get_ollama_binary_candidates (host s)
                 (_selected_ollama_binary s) (disk s) = inr candidates
               /\ started_result wait candidates s').
Proof.
  intros t s fuel wait timeout Hf Hb.
  pose proof (start_ollama_server_result t fuel wait timeout s Hf Hb) as W.
  apply wp_run in W. destruct W as (r & s' & E & H).
  exists r, s'. split; [exact E |]. intros ->. exact H.
Qed.

Lemma started_candidate_cached_and_reported_witness :
  exists (c : Completion) (s' : State),
    run 0%nat (start_ollama_server 201 true 30)
      (fresh host_bundled (world_up_from 20))
    = (Some c, s')
    /\ (c = Return true ->
        (dict_get (_last_startup_report s') "already_running"
         = Some (VBool true)
         /\ _selected_ollama_binary s'
            = _selected_ollama_binary (fresh host_bundled (world_up_from 20)))
        \/ exists candidates,
             Raising.get_ollama_binary_candidates
               (host (fresh host_bundled (world_up_from 20)))
               (_selected_ollama_binary (fresh host_bundled (world_up_from 20)))
               (disk (fresh host_bundled (world_up_from 20))) = inr candidates
             /\ started_result true candidates s').
Proof.
  apply (started_candidate_cached_and_reported 0%nat
           (fresh host_bundled (world_up_from 20)) 201 true 30); lia.
Defined.

(** X20: what a call that does not succeed leaves.  A call of
    [start_ollama_server] that returns false never changes the cache; its
    report has [success] false and an [error]: "binary_not_found" when
    discovery answered no candidate, and otherwise an error together with
    the attempts made, which are of the first candidates of the list, in
    order.  A call that raises does so with the exception that discovery
    raised, and changes neither the cache nor the report. *)
Theorem failed_call_keeps_cache :
  forall (t : Tid) (s : State) (fuel : nat) (wait : bool) (timeout : Z),
    (201 <= fuel)%nat ->
    2 * timeout + 1 <= Z.of_nat fuel ->
    exists (c : Completion) (s' : State),
      run t (start_ollama_server fuel wait timeout) s = (Some c, s')
      /\ (c = Return false ->
          exists candidates,
            Raising.get_ollama_binary_candidates (host s)
              (_selected_ollama_binary s) (disk s) = inr candidates
            /\ failed_result candidates s s')
      /\ (forall exc, c = Raise exc ->
          Raising.get_ollama_binary_candidates (host s)
            (_selected_ollama_binary s) (disk s) = inl exc
          /\ _selected_ollama_binary s' = _selected_ollama_binary s
          /\ _last_startup_report s' = _last_startup_report s).
Proof.
  intros t s fuel wait timeout Hf Hb.
  pose proof (start_ollama_server_result t fuel wait timeout s Hf Hb) as W.
  apply wp_run in W. destruct W as (r & s' & E & H).
  exists r, s'. split; [exact E |]. split.
  - intros ->. exact H.
  - intros exc ->. exact H.
Qed.

Lemma failed_call_keeps_cache_witness :
  exists (c : Completion) (s' : State),
    run 0%nat (start_ollama_server 201 true 30)
      (fresh host_system world_crashing)
    = (Some c, s')
    /\ (c = Return false ->
        exists candidates,
          Raising.get_ollama_binary_candidates
            (host (fresh host_system world_crashing))
            (_selected_ollama_binary (fresh host_system world_crashing))
            (disk (fresh host_system world_crashing)) = inr candidates
          /\ failed_result candidates (fresh host_system world_crashing) s')
    /\ (forall exc, c = Raise exc ->
        Raising.get_ollama_binary_candidates
          (host (fresh host_system world_crashing))
          (_selected_ollama_binary (fresh host_system world_crashing))
          (disk (fresh host_system world_crashing)) = inl exc
        /\ _selected_ollama_binary s'
           = _selected_ollama_binary (fresh host_system world_crashing)
        /\ _last_startup_report s'
           = _last_startup_report (fresh host_system world_crashing)).
Proof.
  apply (failed_call_keeps_cache 0%nat (fresh host_system world_crashing)
           201 true 30); lia.
Defined.

(** ** The client: listing the models *)

Lemma field_truthy_str (f : Field) :
  field_truthy f = true <-> exists s, f = FStr s /\ s <> "".
Proof.
  destruct f as [|s]; simpl.
  - split; [discriminate | intros (s & E & _); discriminate].
  - rewrite negb_true_iff, String.eqb_neq. split.
    + intros H. now exists s.
    + intros (s' & E & H). now injection E as ->.
Qed.

Lemma model_name_of_spec (model : Model) (entries : list (string * Field))
    (n : string) :
  model = AsDict entries \/ model = AsObject entries ->
  (model_name_of model = FStr n /\ n <> ""
   <-> (dict_get entries "model" = Some (FStr n) /\ n <> "")
       \/ (field_truthy (field_of (dict_get entries "model")) = false
           /\ dict_get entries "name" = Some (FStr n) /\ n <> "")).
Proof.
  intros Hm.
  assert (E : model_name_of model
              = field_or (field_of (dict_get entries "model"))
                  (field_of (dict_get entries "name")))
    by (destruct Hm as [-> | ->]; reflexivity).
  rewrite E. unfold field_or. clear E Hm.
  destruct (field_truthy (field_of (dict_get entries "model"))) eqn:Et.
  - split.
    + intros [H Hn]. left. split; [| exact Hn].
      destruct (dict_get entries "model") as [f |]; simpl in H;
        [now rewrite H | discriminate].
    + intros [[H Hn] | [H _]]; [| discriminate].
      rewrite H. simpl. now split.
  - split.
    + intros [H Hn]. right. split; [reflexivity |]. split; [| exact Hn].
      destruct (dict_get entries "name") as [f |]; simpl in H;
        [now rewrite H | discriminate].
    + intros [[H Hn] | (_ & H & Hn)].
      * rewrite H in Et. simpl in Et. apply negb_false_iff, String.eqb_eq in Et.
        contradiction.
      * rewrite H. simpl. now split.
Qed.

Lemma extract_model_names_In (models : list Model) (n : string) :
  In n (flat_map (fun model =>
                    let name := model_name_of model in
                    if field_truthy name
                    then match name with FStr s => [s] | FNone => [] end
                    else [])
                 models)
  <-> exists model, In model models /\ model_name_of model = FStr n /\ n <> "".
Proof.
  rewrite in_flat_map. split.
  - intros (model & Hin & H). exists model. split; [exact Hin |].
    simpl in H. destruct (field_truthy (model_name_of model)) eqn:Et;
      [| contradiction].
    apply field_truthy_str in Et. destruct Et as (s & E & Hs).
    rewrite E in H. destruct H as [<- | []]. now split.
  - intros (model & Hin & E & Hn). exists model. split; [exact Hin |].
    simpl. rewrite E. simpl.
    apply String.eqb_neq in Hn. rewrite Hn. simpl. now left.
Qed.

(** X21: the names that [_extract_model_names] answers.  Whether the
    response and its entries are dictionaries or objects, a name is answered
    exactly when it is not empty and some entry of [models] has it as its
    [model], or has it as its [name] while its [model] is missing, [None] or
    empty.  A response without [models], or with [None] there, has no
    names. *)
Theorem extract_model_names_spec :
  forall (response : ListResponse) (fields : list (string * Models))
         (n : string),
    response = AsDict fields \/ response = AsObject fields ->
    In n (_extract_model_names response)
    <-> n <> ""
        /\ exists (model : Model) (entries : list (string * Field)),
             In model (models_or_empty (dict_get fields "models"))
             /\ (model = AsDict entries \/ model = AsObject entries)
             /\ (dict_get entries "model" = Some (FStr n)
                 \/ (field_truthy (field_of (dict_get entries "model")) = false
                     /\ dict_get entries "name" = Some (FStr n))).
Proof.
  intros response fields n Hr.
  assert (E : _extract_model_names response
              = flat_map (fun model =>
                            let name := model_name_of model in
                            if field_truthy name
                            then match name with FStr s => [s] | FNone => [] end
                            else [])
                         (models_or_empty (dict_get fields "models")))
    by (destruct Hr as [-> | ->]; reflexivity).
  rewrite E, extract_model_names_In. split.
  - intros (model & Hin & Hname & Hn). split; [exact Hn |].
    assert (Hs : exists entries, model = AsDict entries \/ model = AsObject entries)
      by (destruct model as [entries | entries]; exists entries; auto).
    destruct Hs as [entries Hs]. exists model, entries.
    split; [exact Hin |]. split; [exact Hs |].
    destruct (proj1 (model_name_of_spec model entries n Hs) (conj Hname Hn))
      as [[H _] | (Hf & H & _)]; auto.
  - intros (Hn & model & entries & Hin & Hs & H). exists model.
    split; [exact Hin |].
    apply (model_name_of_spec model entries n Hs).
    destruct H as [H | [Hf H]]; auto.
Qed.

Lemma extract_model_names_spec_witness :
  In "qwen2.5:3b"
     (_extract_model_names
        (AsDict [("models",
                  ModelsList [AsDict [("name", FStr "llama3.2:3b")];
                              AsDict [("model", FStr "qwen2.5:3b")]])]))
  <-> "qwen2.5:3b" <> ""
      /\ exists (model : Model) (entries : list (string * Field)),
           In model
              (models_or_empty
                 (dict_get [("models",
                             ModelsList [AsDict [("name", FStr "llama3.2:3b")];
                                         AsDict [("model", FStr "qwen2.5:3b")]])]
                           "models"))
           /\ (model = AsDict entries \/ model = AsObject entries)
           /\ (dict_get entries "model" = Some (FStr "qwen2.5:3b")
               \/ (field_truthy (field_of (dict_get entries "model")) = false
                   /\ dict_get entries "name" = Some (FStr "qwen2.5:3b"))).
Proof.
  apply (extract_model_names_spec
           (AsDict [("models",
                     ModelsList [AsDict [("name", FStr "llama3.2:3b")];
                                 AsDict [("model", FStr "qwen2.5:3b")]])])
           [("models",
             ModelsList [AsDict [("name", FStr "llama3.2:3b")];
                         AsDict [("model", FStr "qwen2.5:3b")]])]
           "qwen2.5:3b").
  left. reflexivity.
Defined.

Lemma extract_model_names_nonempty (response : ListResponse) :
  ~ In "" (_extract_model_names response).
Proof.
  intros H. destruct response as [fields | fields];
    apply extract_model_names_In in H;
    destruct H as (model & _ & _ & Hn); now apply Hn.
Qed.

Lemma list_attempts_result (n : nat) (cl : Client) (t : Tid) :
  forall s,
    (fst (list_attempts n cl t s) = []
     \/ exists k response,
          c_list cl k = ListDone response
          /\ fst (list_attempts n cl t s) = _extract_model_names response)
    /\ clock s <= clock (snd (list_attempts n cl t s))
    /\ log (snd (list_attempts n cl t s)) = log s
    /\ _selected_ollama_binary (snd (list_attempts n cl t s))
       = _selected_ollama_binary s
    /\ _last_startup_report (snd (list_attempts n cl t s))
       = _last_startup_report s.
Proof.
  induction n as [|n IH]; intros s; simpl.
  - repeat split; auto. lia.
  - destruct (c_list cl (tick s)) as [response | msg] eqn:E; simpl.
    + repeat split; auto.
      * right. now exists (tick s), response.
      * pose proof (N2Z.is_nonneg (w_elapsed (world s) (tick s))). lia.
    + destruct (IH (advance 500 (advance 0 s))) as (H & C & L & Hs & R).
      simpl in C, L, Hs, R. repeat split; auto.
      pose proof (N2Z.is_nonneg (w_elapsed (world s) (tick s))).
      pose proof (N2Z.is_nonneg (w_elapsed (world s) (S (tick s)))). lia.
Qed.

Lemma list_models_result :
  forall (fuel : nat) (cl : Client) (t : Tid) (s : State),
    (201 <= fuel)%nat ->
    exists (r : Exc + list string) (s' : State),
      list_models fuel cl t s = (Some r, s')
      /\ match r with
         | inr names =>
             ~ In "" names
             /\ (names = []
                 \/ exists k response,
                      c_list cl k = ListDone response
                      /\ names = _extract_model_names response)
         | inl exc =>
             file_system_error (host s) exc
             /\ Raising.get_ollama_binary_candidates (host s)
                  (_selected_ollama_binary s) (disk s) = inl exc
         end.
Proof.
  intros fuel cl t s Hf.
  assert (A : forall s1, exists names s',
               (let (names, s2) := list_attempts 3 cl t s1 in
                (Some (inr names : Exc + list string), s2))
               = (Some (inr names), s')
               /\ ~ In "" names
               /\ (names = []
                   \/ exists k response,
                        c_list cl k = ListDone response
                        /\ names = _extract_model_names response)).
  { intros s1. destruct (list_attempts_result 3 cl t s1) as (H & _).
    destruct (list_attempts 3 cl t s1) as [names s2]. simpl in H.
    exists names, s2. split; [reflexivity |]. split; [| exact H].
    destruct H as [-> | (k & response & _ & ->)];
      [intros [] | apply extract_model_names_nonempty]. }
  unfold list_models.
  destruct (is_ollama_running_state t s)
    as (s1 & new & E & F & Hn & Hh & _ & Hd).
  destruct (frame_http_selected _ _ _ F Hn) as [Hsel _].
  rewrite E. destruct (healthy_head new).
  { destruct (A s1) as (names & s' & EA & HA).
    exists (inr names), s'. split; [exact EA | exact HA]. }
  destruct (start_ollama_server_returns t s1 fuel true 30)
    as (c & s2 & new2 & E2 & _ & [[b ->] | (exc & -> & Hfs & Hr & _)]);
    [exact Hf | lia | |].
  - rewrite E2. destruct b.
    + destruct (A s2) as (names & s' & EA & HA).
      exists (inr names), s'. split; [exact EA | exact HA].
    + exists (inr []), s2. split; [reflexivity |].
      split; [intros [] | now left].
  - rewrite E2. exists (inl exc), s2. split; [reflexivity |].
    rewrite <- Hh, <- Hsel, <- Hd. now split.
Qed.

(** X22: what [list_models] answers.  It answers a list of names that are
    not empty: either the empty list, or the names extracted from one
    response that the client gave.  With the client module installed, the
    only exception it raises is an error of the file system that candidate
    discovery raised, while the server was being started. *)
Theorem list_models_answers :
  forall (fuel : nat) (cl : Client) (t : Tid) (s : State),
    (201 <= fuel)%nat ->
    exists (r : Exc + list string) (s' : State),
      list_models fuel cl t s = (Some r, s')
      /\ match r with
         | inr names =>
             ~ In "" names
             /\ (names = []
                 \/ exists k response,
                      c_list cl k = ListDone response
                      /\ names = _extract_model_names response)
         | inl exc =>
             file_system_error (host s) exc
             /\ Raising.get_ollama_binary_candidates (host s)
                  (_selected_ollama_binary s) (disk s) = inl exc
         end.
Proof. exact list_models_result. Qed.

Lemma list_models_answers_witness :
  exists (r : Exc + list string) (s' : State),
    list_models 201
      {| c_list := fun _ => ListRaised "connection refused";
         c_pull := fun _ _ => false;
         c_run := fun _ _ _ => RunTimeoutExpired |}
      0%nat (fresh host_system world_down)
    = (Some r, s')
    /\ match r with
       | inr names =>
           ~ In "" names
           /\ (names = []
               \/ exists k response,
                    c_list {| c_list := fun _ => ListRaised "connection refused";
                              c_pull := fun _ _ => false;
                              c_run := fun _ _ _ => RunTimeoutExpired |} k
                    = ListDone response
                    /\ names = _extract_model_names response)
       | inl exc =>
           file_system_error (host (fresh host_system world_down)) exc
           /\ Raising.get_ollama_binary_candidates
                (host (fresh host_system world_down))
                (_selected_ollama_binary (fresh host_system world_down))
                (disk (fresh host_system world_down)) = inl exc
       end.
Proof.
  apply (list_models_answers 201
           {| c_list := fun _ => ListRaised "connection refused";
              c_pull := fun _ _ => false;
              c_run := fun _ _ _ => RunTimeoutExpired |}
           0%nat (fresh host_system world_down)).
  lia.
Defined.

(** X23: the retries of [list_models].  With the runtime answering, the
    client is asked up to three times, half a second after each failure.
    After [failures] failed requests the call is at least that many half
    seconds later; when the next request is answered, its models are what
    [list_models] answers; after three failures the client is not asked
    again and the answer is the empty list. *)
Theorem list_models_retries :
  forall (fuel : nat) (cl : Client) (t : Tid) (s s1 : State) (failures : nat),
    (failures <= 3)%nat ->
    run t is_ollama_running s = (Some true, s1) ->
    (forall j, (j < failures)%nat ->
               exists msg, c_list cl (tick s1 + 2 * j) = ListRaised msg) ->
    exists (names : list string) (s' : State),
      list_models fuel cl t s = (Some (inr names), s')
      /\ (failures = 3%nat ->
          names = [] /\ tick s' = (tick s1 + 6)%nat
          /\ 1500 <= clock s' - clock s1)
      /\ (forall response,
             (failures < 3)%nat ->
             c_list cl (tick s1 + 2 * failures) = ListDone response ->
             names = _extract_model_names response
             /\ tick s' = (tick s1 + 2 * failures + 1)%nat
             /\ 500 * Z.of_nat failures <= clock s' - clock s1).
Proof.
  intros fuel cl t s s1 failures Hle Hrun Hfail.
  unfold list_models. rewrite Hrun.
  assert (G : forall n failures s1,
             (failures <= n)%nat ->
             (forall j, (j < failures)%nat ->
                        exists msg, c_list cl (tick s1 + 2 * j) = ListRaised msg) ->
             (failures = n ->
              fst (list_attempts n cl t s1) = []
              /\ tick (snd (list_attempts n cl t s1)) = (tick s1 + 2 * n)%nat
              /\ 500 * Z.of_nat n <= clock (snd (list_attempts n cl t s1)) - clock s1)
             /\ (forall response,
                    (failures < n)%nat ->
                    c_list cl (tick s1 + 2 * failures) = ListDone response ->
                    fst (list_attempts n cl t s1) = _extract_model_names response
                    /\ tick (snd (list_attempts n cl t s1))
                       = (tick s1 + 2 * failures + 1)%nat
                    /\ 500 * Z.of_nat failures
                       <= clock (snd (list_attempts n cl t s1)) - clock s1)).
  { clear. induction n as [|n IH]; intros failures s1 Hle Hfail.
    - split; [intros _; simpl; repeat split; lia | intros response Hlt; lia].
    - destruct failures as [|failures].
      + split; [discriminate |]. intros response _ Hd.
        simpl. rewrite Nat.add_0_r in Hd. rewrite Hd. simpl.
        pose proof (N2Z.is_nonneg (w_elapsed (world s1) (tick s1))).
        repeat split; lia.
      + destruct (Hfail 0%nat ltac:(lia)) as [msg E0].
        rewrite Nat.add_0_r in E0.
        cbn [list_attempts]. rewrite E0.
        destruct (IH failures (snd (handle t (TimeSleep 500) (advance 0 s1))))
          as [IH1 IH2]; [lia | |].
        { intros j Hj. destruct (Hfail (S j) ltac:(lia)) as [msg' E'].
          exists msg'. simpl. rewrite <- E'. f_equal. lia. }
        simpl in IH1, IH2. simpl.
        pose proof (N2Z.is_nonneg (w_elapsed (world s1) (tick s1))).
        pose proof (N2Z.is_nonneg (w_elapsed (world s1) (S (tick s1)))).
        split.
        * intros Hn. destruct IH1 as (A & B & C); [lia |].
          rewrite A, B. repeat split; lia.
        * intros response Hlt Hd.
          destruct (IH2 response) as (A & B & C); [lia | |].
          { rewrite <- Hd. f_equal. lia. }
          rewrite A, B. repeat split; lia. }
  destruct (G 3%nat failures s1 Hle Hfail) as [G1 G2].
  destruct (list_attempts 3 cl t s1) as [names s'] eqn:El. simpl in G1, G2.
  exists names, s'. split; [reflexivity |]. split.
  - intros ->. destruct G1 as (A & B & C); [reflexivity |].
    repeat split; auto; lia.
  - exact G2.
Qed.

Lemma list_models_retries_witness :
  exists (names : list string) (s' : State),
    list_models 201
      {| c_list := fun _ => ListRaised "connection refused";
         c_pull := fun _ _ => false;
         c_run := fun _ _ _ => RunTimeoutExpired |}
      0%nat (fresh host_system (world_up_from 0))
    = (Some (inr names), s')
    /\ (3%nat = 3%nat ->
        names = [] /\ tick s' = (1 + 6)%nat
        /\ 1500 <= clock s' - 1700000000001)
    /\ (forall response,
           (3 < 3)%nat ->
           c_list {| c_list := fun _ => ListRaised "connection refused";
                     c_pull := fun _ _ => false;
                     c_run := fun _ _ _ => RunTimeoutExpired |} (1 + 2 * 3)
           = ListDone response ->
           names = _extract_model_names response
           /\ tick s' = (1 + 2 * 3 + 1)%nat
           /\ 500 * Z.of_nat 3 <= clock s' - 1700000000001).
Proof.
  apply (list_models_retries 201
           {| c_list := fun _ => ListRaised "connection refused";
              c_pull := fun _ _ => false;
              c_run := fun _ _ _ => RunTimeoutExpired |}
           0%nat (fresh host_system (world_up_from 0))
           (snd (run 0%nat is_ollama_running (fresh host_system (world_up_from 0))))
           3).
  - lia.
  - vm_compute. reflexivity.
  - intros j _. now exists "connection refused".
Defined.

(** X24: [has_model] answers true only for a name that is not empty and
    that some response of the client lists; so the empty name is never
    found.  With the client module installed, the only exception it raises
    is an error of the file system that candidate discovery raised. *)
Theorem has_model_only_listed :
  forall (fuel : nat) (cl : Client) (t : Tid) (model_name : string) (s : State),
    (201 <= fuel)%nat ->
    exists (r : Exc + bool) (s' : State),
      has_model fuel cl t model_name s = (Some r, s')
      /\ match r with
         | inr b =>
             b = true ->
             model_name <> ""
             /\ exists k response,
                  c_list cl k = ListDone response
                  /\ In model_name (_extract_model_names response)
         | inl exc =>
             file_system_error (host s) exc
             /\ Raising.get_ollama_binary_candidates (host s)
                  (_selected_ollama_binary s) (disk s) = inl exc
         end.
Proof.
  intros fuel cl t model_name s Hf. unfold has_model.
  destruct (list_models_result fuel cl t s Hf) as (r & s' & E & H).
  rewrite E. destruct r as [exc | names].
  { exists (inl exc), s'. split; [reflexivity | exact H]. }
  destruct H as [Hne H].
  exists (inr (existsb (String.eqb model_name) names)), s'.
  split; [reflexivity |]. intros Hb.
  apply existsb_exists in Hb. destruct Hb as (n & Hin & Heq).
  apply String.eqb_eq in Heq. subst n. split.
  - intros ->. now apply Hne.
  - destruct H as [-> | (k & response & Hk & ->)]; [destruct Hin |].
    now exists k, response.
Qed.

Lemma has_model_only_listed_witness :
  exists (r : Exc + bool) (s' : State),
    has_model 201
      {| c_list := fun _ => ListDone (AsObject [("models", ModelsList [AsObject [("model", FStr "llama3.2:3b")]])]);
              c_pull := fun _ _ => false;
              c_run := fun _ _ _ => RunTimeoutExpired |}
      0%nat "llama3.2:3b" (fresh host_system (world_up_from 0))
    = (Some r, s')
    /\ match r with
       | inr b =>
           b = true ->
           "llama3.2:3b" <> ""
           /\ exists k response,
                c_list {| c_list := fun _ => ListDone (AsObject [("models", ModelsList [AsObject [("model", FStr "llama3.2:3b")]])]);
              c_pull := fun _ _ => false;
              c_run := fun _ _ _ => RunTimeoutExpired |} k
                = ListDone response
                /\ In "llama3.2:3b" (_extract_model_names response)
       | inl exc =>
           file_system_error (host (fresh host_system (world_up_from 0))) exc
           /\ Raising.get_ollama_binary_candidates
                (host (fresh host_system (world_up_from 0)))
                (_selected_ollama_binary (fresh host_system (world_up_from 0)))
                (disk (fresh host_system (world_up_from 0))) = inl exc
       end.
Proof.
  apply (has_model_only_listed 201
           {| c_list := fun _ => ListDone (AsObject [("models", ModelsList [AsObject [("model", FStr "llama3.2:3b")]])]);
              c_pull := fun _ _ => false;
              c_run := fun _ _ _ => RunTimeoutExpired |}
           0%nat "llama3.2:3b" (fresh host_system (world_up_from 0))).
  lia.
Defined.

(** ** The command line *)

Lemma get_ollama_binary_result (t : Tid) (s : State) :
  exists (r : Exc + option Path) (s1 : State),
    run t get_ollama_binary s = (Some r, s1)
    /\ match r with
       | inr (Some p) =>
           _selected_ollama_binary s1 = Some p
           /\ ((_selected_ollama_binary s = Some p
                /\ Raising.exists_ (host s) p = inr true /\ log s1 = log s)
               \/ exists rest,
                    Raising.get_ollama_binary_candidates (host s)
                      (_selected_ollama_binary s) (disk s) = inr (p :: rest))
       | inr None =>
           Raising.get_ollama_binary_candidates (host s)
             (_selected_ollama_binary s) (disk s) = inr []
           /\ (forall p, _selected_ollama_binary s = Some p ->
                         Raising.exists_ (host s) p = inr false)
           /\ _selected_ollama_binary s1 = _selected_ollama_binary s
           /\ log s1 = log s
       | inl exc =>
           file_system_error (host s) exc
           /\ ((exists p, _selected_ollama_binary s = Some p
                          /\ Raising.exists_ (host s) p = inl exc)
               \/ Raising.get_ollama_binary_candidates (host s)
                    (_selected_ollama_binary s) (disk s) = inl exc)
           /\ _selected_ollama_binary s1 = _selected_ollama_binary s
           /\ log s1 = log s
       end.
Proof.
  unfold get_ollama_binary. simpl.
  destruct (_selected_ollama_binary s) as [p |] eqn:Es.
  - destruct (Raising.exists_ (host s) p) as [exc | []] eqn:Ep; simpl.
    + exists (inl exc). eexists. split; [reflexivity |]. simpl.
      split; [exact (exists_raises_file_system _ _ _ Ep) |].
      split; [left; now exists p |]. auto.
    + exists (inr (Some p)). eexists. split; [reflexivity |]. simpl.
      split; [exact Es |]. left. auto.
    + rewrite Es.
      destruct (Raising.get_ollama_binary_candidates (host s) (Some p) (disk s))
        as [exc | [|first rest]] eqn:Ec; simpl.
      * exists (inl exc). eexists. split; [reflexivity |]. simpl.
        split; [exact (get_ollama_binary_candidates_raises _ _ _ _ Ec) |].
        split; [now right |]. auto.
      * exists (inr None). eexists. split; [reflexivity |]. simpl.
        repeat split; auto. intros q Hq. now injection Hq as <-.
      * exists (inr (Some first)). eexists. split; [reflexivity |]. simpl.
        split; [reflexivity |]. right. now exists rest.
  - simpl. rewrite Es.
    destruct (Raising.get_ollama_binary_candidates (host s) None (disk s))
      as [exc | [|first rest]] eqn:Ec; simpl.
    + exists (inl exc). eexists. split; [reflexivity |]. simpl.
      split; [exact (get_ollama_binary_candidates_raises _ _ _ _ Ec) |].
      split; [now right |]. auto.
    + exists (inr None). eexists. split; [reflexivity |]. simpl.
      repeat split; auto. discriminate.
    + exists (inr (Some first)). eexists. split; [reflexivity |]. simpl.
      split; [reflexivity |]. right. now exists rest.
Qed.

(** X25: what [run_ollama_command] answers.  It reports success only when
    a command was run and ended with return code 0, and then answers the
    output of that command; the binary it ran is the one the cache holds
    afterwards.  With nothing usable in the cache and no candidate, nothing
    is run: the answer is a failure with the message "Ollama binary not
    found".  The only exception it raises is an error of the file
    system, met when [get_ollama_binary] examines the cached path or
    discovers the candidates; the cache is then left as it was. *)
Theorem run_ollama_command_result :
  forall (cl : Client) (t : Tid) (args : list string) (timeout : Z) (s : State),
    exists (r : Exc + bool * string * string) (s' : State),
      run_ollama_command cl t args timeout s = (Some r, s')
      /\ match r with
         | inr (ok, stdout, stderr) =>
             ok = true ->
             exists k binary,
               c_run cl k binary args = RunDone 0 stdout stderr
               /\ _selected_ollama_binary s' = Some binary
         | inl exc =>
             file_system_error (host s) exc
             /\ ((exists p, _selected_ollama_binary s = Some p
                            /\ Raising.exists_ (host s) p = inl exc)
                 \/ Raising.get_ollama_binary_candidates (host s)
                      (_selected_ollama_binary s) (disk s) = inl exc)
             /\ _selected_ollama_binary s' = _selected_ollama_binary s
             /\ log s' = log s
         end
      /\ ((forall p, _selected_ollama_binary s = Some p ->
                     Raising.exists_ (host s) p = inr false) ->
          Raising.get_ollama_binary_candidates (host s)
            (_selected_ollama_binary s) (disk s) = inr [] ->
          r = inr (false, "", "Ollama binary not found")
          /\ log s' = log s).
Proof.
  intros cl t args timeout s. unfold run_ollama_command.
  destruct (get_ollama_binary_result t s) as (r & s1 & E & H). rewrite E.
  assert (Stale : forall binary,
             (_selected_ollama_binary s = Some binary
              /\ Raising.exists_ (host s) binary = inr true /\ log s1 = log s)
             \/ (exists rest,
                    Raising.get_ollama_binary_candidates (host s)
                      (_selected_ollama_binary s) (disk s)
                    = inr (binary :: rest)) ->
             (forall p, _selected_ollama_binary s = Some p ->
                        Raising.exists_ (host s) p = inr false) ->
             Raising.get_ollama_binary_candidates (host s)
               (_selected_ollama_binary s) (disk s) = inr [] ->
             False).
  { intros binary [(Hs & Hp & _) | (rest & Hr)] Hstale Hc.
    - rewrite (Hstale binary Hs) in Hp. discriminate.
    - rewrite Hc in Hr. discriminate. }
  destruct r as [exc | [binary |]].
  - exists (inl exc), s1. split; [reflexivity |]. split; [exact H |].
    intros Hstale Hc. exfalso.
    destruct H as (_ & [(p & Hs & Hp) | Hr] & _).
    + rewrite (Hstale p Hs) in Hp. discriminate.
    + rewrite Hc in Hr. discriminate.
  - destruct H as [Hsel H]. simpl.
    destruct (Raising.get_ollama_env (host s1) (Some binary)) as [exc | env].
    { eexists. eexists. split; [reflexivity |]. split; [discriminate |].
      intros Hstale Hc. exfalso. exact (Stale binary H Hstale Hc). }
    destruct (c_run cl (S (tick s1)) binary args) as [rc out err | | msg] eqn:Er.
    + eexists. eexists. split; [reflexivity |]. split.
      * intros Hrc. apply Z.eqb_eq in Hrc. subst rc.
        exists (S (tick s1)), binary. now split.
      * intros Hstale Hc. exfalso. exact (Stale binary H Hstale Hc).
    + eexists. eexists. split; [reflexivity |]. split; [discriminate |].
      intros Hstale Hc. exfalso. exact (Stale binary H Hstale Hc).
    + eexists. eexists. split; [reflexivity |]. split; [discriminate |].
      intros Hstale Hc. exfalso. exact (Stale binary H Hstale Hc).
  - destruct H as (Hc & Hstale & Hsel & Hlog).
    exists (inr (false, "", "Ollama binary not found")), s1.
    split; [reflexivity |]. split; [discriminate |]. auto.
Qed.

(** ** The summarizer *)

Lemma pull_fallbacks_result (cl : Client) (fallbacks : list string) :
  forall s,
    (tick s <= tick (snd (pull_fallbacks cl fallbacks s)))%nat
    /\ match fst (pull_fallbacks cl fallbacks s) with
       | Some fallback =>
           In fallback fallbacks /\ exists k, c_pull cl k fallback = true
       | None =>
           forall fallback, In fallback fallbacks ->
                            exists k, c_pull cl k fallback = false
       end.
Proof.
  induction fallbacks as [|f rest IH]; intros s; simpl.
  - split; [lia | intros fallback []].
  - destruct (c_pull cl (tick s) f) eqn:E; simpl.
    + split; [lia |]. split; [now left | now exists (tick s)].
    + destruct (IH (advance 0 s)) as [Ht H]. simpl in Ht. split; [lia |].
      destruct (fst (pull_fallbacks cl rest (advance 0 s))) as [fallback |].
      * destruct H as [Hin Hk]. split; [now right | exact Hk].
      * intros fallback [<- | Hin]; [now exists (tick s) | now apply H].
Qed.

Lemma ensure_model_available_cases (cl : Client) (model_name : string)
    (s : State) :
  exists (available : bool) (model_name' : string) (s' : State),
    _ensure_model_available cl model_name s = (available, model_name', s')
    /\ (available = true ->
        In model_name' (model_name :: fallback_models)
        /\ ((exists response,
                c_list cl (tick s) = ListDone response
                /\ field_in model_name' (listed_model_names response) = true
                /\ tick s' = S (tick s))
            \/ ((S (S (tick s)) <= tick s')%nat
                /\ exists k, c_pull cl k model_name' = true)))
    /\ (available = false ->
        model_name' = model_name
        /\ ((exists msg, c_list cl (tick s) = ListRaised msg)
            \/ forall name, In name (model_name :: fallback_models) ->
                            exists k, c_pull cl k name = false)).
Proof.
  unfold _ensure_model_available.
  destruct (c_list cl (tick s)) as [response | msg] eqn:El.
  - destruct (field_in model_name (listed_model_names response)) eqn:Ein.
    + do 3 eexists. split; [reflexivity |]. split; [| discriminate].
      intros _. split; [now left |]. left. now exists response.
    + destruct (find (fun fallback => field_in fallback (listed_model_names response))
                     fallback_models) as [fallback |] eqn:Ef.
      * do 3 eexists. split; [reflexivity |]. split; [| discriminate].
        intros _. apply find_some in Ef. destruct Ef as [Hin Hf].
        split; [now right |]. left. now exists response.
      * simpl tick.
        destruct (c_pull cl (S (tick s)) model_name) eqn:Ep.
        -- do 3 eexists. split; [reflexivity |]. split; [| discriminate].
           intros _. split; [now left |]. right. simpl.
           split; [lia | now exists (S (tick s))].
        -- destruct (pull_fallbacks_result cl fallback_models
                       (advance 0 (advance 0 s))) as [Ht H].
           destruct (pull_fallbacks cl fallback_models (advance 0 (advance 0 s)))
             as [[fallback |] s2]; simpl in Ht, H.
           ++ do 3 eexists. split; [reflexivity |]. split; [| discriminate].
              intros _. destruct H as [Hin Hk]. split; [now right |].
              right. split; [lia | exact Hk].
           ++ do 3 eexists. split; [reflexivity |]. split; [discriminate |].
              intros _. split; [reflexivity |]. right.
              intros name [<- | Hin]; [now exists (S (tick s)) | now apply H].
  - do 3 eexists. split; [reflexivity |]. split; [discriminate |].
    intros _. split; [reflexivity |]. left. now exists msg.
Qed.

(** X26: [_ensure_model_available] never raises.  When it answers true,
    the model it leaves selected is the one asked for or one of the two
    fallbacks, and either the response of the client listed it, and then
    nothing was pulled, or a pull of it succeeded.  When it answers false
    the selected model is unchanged, and either the client could not list
    the models or the pulls of the model and of both fallbacks failed. *)
Theorem ensure_model_available_result :
  forall (cl : Client) (model_name : string) (s : State),
    exists (available : bool) (model_name' : string) (s' : State),
      _ensure_model_available cl model_name s = (available, model_name', s')
      /\ (available = true ->
          In model_name' (model_name :: fallback_models)
          /\ ((exists response,
                  c_list cl (tick s) = ListDone response
                  /\ field_in model_name' (listed_model_names response) = true
                  /\ tick s' = S (tick s))
              \/ ((S (S (tick s)) <= tick s')%nat
                  /\ exists k, c_pull cl k model_name' = true)))
      /\ (available = false ->
          model_name' = model_name
          /\ ((exists msg, c_list cl (tick s) = ListRaised msg)
              \/ forall name, In name (model_name :: fallback_models) ->
                              exists k, c_pull cl k name = false)).
Proof. exact ensure_model_available_cases. Qed.

(** X27: a response of the client that is a dictionary, as older versions
    of the client give, lists nothing for [_ensure_model_available],
    whatever it holds: the call then succeeds only by pulling a model, even
    one that the response names. *)
Theorem ensure_model_available_dict_response :
  forall (cl : Client) (model_name : string) (s : State)
         (items : list (string * Models)),
    c_list cl (tick s) = ListDone (AsDict items) ->
    exists (available : bool) (model_name' : string) (s' : State),
      _ensure_model_available cl model_name s = (available, model_name', s')
      /\ (S (S (tick s)) <= tick s')%nat
      /\ (available = true -> exists k, c_pull cl k model_name' = true)
      /\ (c_pull cl (S (tick s)) model_name = true ->
          available = true /\ model_name' = model_name).
Proof.
  intros cl model_name s items El.
  unfold _ensure_model_available. rewrite El. simpl.
  destruct (c_pull cl (S (tick s)) model_name) eqn:Ep.
  - do 3 eexists. split; [reflexivity |]. simpl.
    split; [lia |]. split; [intros _; now exists (S (tick s)) | auto].
  - destruct (c_pull cl (S (S (tick s))) "llama3.2:3b") eqn:E1.
    + do 3 eexists. split; [reflexivity |]. simpl.
      split; [lia |]. split; [intros _; now exists (S (S (tick s))) | discriminate].
    + destruct (c_pull cl (S (S (S (tick s)))) "gemma3:4b") eqn:E2.
      * do 3 eexists. split; [reflexivity |]. simpl.
        split; [lia |].
        split; [intros _; now exists (S (S (S (tick s)))) | discriminate].
      * do 3 eexists. split; [reflexivity |]. simpl.
        split; [lia |]. split; discriminate.
Qed.

Lemma ensure_model_available_dict_response_witness :
  exists (available : bool) (model_name' : string) (s' : State),
    _ensure_model_available
      {| c_list := fun _ => ListDone (AsDict [("models", ModelsList [AsDict [("model", FStr "llama3.2:3b")]])]);
         c_pull := fun _ _ => true;
         c_run := fun _ _ _ => RunTimeoutExpired |}
      "llama3.2:3b" (fresh host_system world_down)
    = (available, model_name', s')
    /\ (2 <= tick s')%nat
    /\ (available = true ->
        exists k,
          c_pull {| c_list := fun _ => ListDone (AsDict [("models", ModelsList [AsDict [("model", FStr "llama3.2:3b")]])]);
                    c_pull := fun _ _ => true;
                    c_run := fun _ _ _ => RunTimeoutExpired |} k model_name'
          = true)
    /\ (true = true -> available = true /\ model_name' = "llama3.2:3b").
Proof.
  apply (ensure_model_available_dict_response
           {| c_list := fun _ => ListDone (AsDict [("models", ModelsList [AsDict [("model", FStr "llama3.2:3b")]])]);
              c_pull := fun _ _ => true;
              c_run := fun _ _ _ => RunTimeoutExpired |}
           "llama3.2:3b" (fresh host_system world_down)
           [("models", ModelsList [AsDict [("model", FStr "llama3.2:3b")]])]).
  reflexivity.
Defined.

(** X28: [_ensure_ollama_ready] never answers false.  It answers true,
    leaving selected the model asked for or a fallback, or it raises: with
    the message "Failed to start Ollama service" when the runtime did not
    answer and could not be started, with the message of the error that
    candidate discovery raised while it was being started, and otherwise
    with the message that names the model asked for, which is then still
    the selected one. *)
Theorem ensure_ollama_ready_result :
  forall (fuel : nat) (cl : Client) (t : Tid) (model_name : string) (s : State),
    (201 <= fuel)%nat ->
    exists (r : string + bool) (model_name' : string) (s' : State),
      _ensure_ollama_ready fuel cl t model_name s = (Some r, model_name', s')
      /\ ((r = inr true /\ In model_name' (model_name :: fallback_models))
          \/ (r = inl "Failed to start Ollama service"
              /\ model_name' = model_name
              /\ fst (run t is_ollama_running s) = Some false)
          \/ (exists exc,
                 r = inl (str_exc exc)
                 /\ model_name' = model_name
                 /\ fst (run t is_ollama_running s) = Some false
                 /\ Raising.get_ollama_binary_candidates (host s)
                      (_selected_ollama_binary s) (disk s) = inl exc)
          \/ (r = inl ("Failed to ensure model " ++ model_name
                       ++ " is available")%string
              /\ model_name' = model_name)).
Proof.
  intros fuel cl t model_name s Hf.
  remember (fst (run t is_ollama_running s)) as first eqn:Efirst.
  remember (Raising.get_ollama_binary_candidates (host s)
              (_selected_ollama_binary s) (disk s)) as discovery eqn:Ed.
  assert (A : forall s1, exists r model_name' s',
               (let '(available, model_name', s2) :=
                  _ensure_model_available cl model_name s1 in
                if available
                then (Some (inr true : string + bool), model_name', s2)
                else (Some (inl ("Failed to ensure model " ++ model_name'
                                 ++ " is available")%string), model_name', s2))
               = (Some r, model_name', s')
               /\ ((r = inr true /\ In model_name' (model_name :: fallback_models))
                   \/ (r = inl "Failed to start Ollama service"
                       /\ model_name' = model_name
                       /\ first = Some false)
                   \/ (exists exc,
                          r = inl (str_exc exc)
                          /\ model_name' = model_name
                          /\ first = Some false
                          /\ discovery = inl exc)
                   \/ (r = inl ("Failed to ensure model " ++ model_name
                                ++ " is available")%string
                       /\ model_name' = model_name))).
  { intros s1.
    destruct (ensure_model_available_cases cl model_name s1)
      as (available & name' & s2 & E & Ht & Hf').
    rewrite E. destruct available.
    - do 3 eexists. split; [reflexivity |]. left.
      split; [reflexivity | apply Ht; reflexivity].
    - destruct (Hf' eq_refl) as [-> _].
      do 3 eexists. split; [reflexivity |]. right. right. right. now split. }
  unfold _ensure_ollama_ready.
  destruct (is_ollama_running_state t s)
    as (s1 & new & E & F & Hn & Hh & _ & Hd).
  destruct (frame_http_selected _ _ _ F Hn) as [Hsel _].
  rewrite E in Efirst |- *. destruct (healthy_head new) eqn:Eh; [apply A |].
  destruct (start_ollama_server_returns t s1 fuel true 30)
    as (c & s2 & new2 & E2 & _ & [[b ->] | (exc & -> & _ & Hr & _)]);
    [exact Hf | lia | |].
  - rewrite E2. destruct b; [apply A |].
    do 3 eexists. split; [reflexivity |]. right. left. repeat split.
    exact Efirst.
  - rewrite E2. do 3 eexists. split; [reflexivity |]. right. right. left.
    exists exc. repeat split; [exact Efirst |].
    rewrite Ed, <- Hh, <- Hsel, <- Hd. exact Hr.
Qed.

Lemma ensure_ollama_ready_result_witness :
  exists (r : string + bool) (model_name' : string) (s' : State),
    _ensure_ollama_ready 201
      {| c_list := fun _ => ListRaised "connection refused";
         c_pull := fun _ _ => false;
         c_run := fun _ _ _ => RunTimeoutExpired |}
      0%nat "llama3.2:3b" (fresh host_empty world_down)
    = (Some r, model_name', s')
    /\ ((r = inr true /\ In model_name' ("llama3.2:3b" :: fallback_models))
        \/ (r = inl "Failed to start Ollama service"
            /\ model_name' = "llama3.2:3b"
            /\ fst (run 0%nat is_ollama_running (fresh host_empty world_down))
               = Some false)
        \/ (exists exc,
               r = inl (str_exc exc)
               /\ model_name' = "llama3.2:3b"
               /\ fst (run 0%nat is_ollama_running (fresh host_empty world_down))
                  = Some false
               /\ Raising.get_ollama_binary_candidates
                    (host (fresh host_empty world_down))
                    (_selected_ollama_binary (fresh host_empty world_down))
                    (disk (fresh host_empty world_down)) = inl exc)
        \/ (r = inl ("Failed to ensure model " ++ "llama3.2:3b"
                     ++ " is available")%string
            /\ model_name' = "llama3.2:3b")).
Proof.
  apply (ensure_ollama_ready_result 201
           {| c_list := fun _ => ListRaised "connection refused";
              c_pull := fun _ _ => false;
              c_run := fun _ _ _ => RunTimeoutExpired |}
           0%nat "llama3.2:3b" (fresh host_empty world_down)).
  lia.
Defined.
